(** * Chariotek Studio CMS core: versioned content store, RBAC, audit log, sanitizer

    A shallow embedding of the TypeScript sources
      - [lib/cms/types.ts]            (roles, permissions, records)
      - [lib/cms/rbac.ts]             (permission queries, [makeAccessDecision])
      - [lib/cms/sanitizer.ts]        (dangerous patterns, [sanitizeTitle], [sanitizeObject])
      - [lib/cms/audit-logger.ts]     ([AuditLogger.log] and its wrappers)
      - [lib/cms/version-manager.ts]  ([VersionManager.saveContent], [rollbackToVersion])
      - [lib/cms/content-service.ts]  ([ContentService.saveContent])
    followed by the properties of the specification that were checked
    against them.

    Conventions.  JavaScript strings are sequences of code units; the
    embedding covers code units below 256 ([ascii]).  Numbers that the code
    uses as versions, timestamps and sizes are integers ([Z], [nat] for string
    indices).  Asynchronous code is sequentialised: every [await] runs to
    completion before the next statement, and so does the clean-up that
    [saveContent] starts without awaiting it.  The document store is the
    external collaborator: it is modelled at its interface (documents by
    path, the [_versions] rows of a path, the [audit_logs] rows), it keeps
    what it is given, every call to it may fail, and the paths handed to it
    are well-formed document paths.  Content payloads are plain objects:
    their prototype is [Object.prototype] with its standard members
    ([Js.objectPrototypeMembers]), and a [JObject] lists the own properties
    in the order of [Object.entries], each name once. *)

From Stdlib Require Import ZArith List String Ascii Bool Lia Sorted.
From stdpp Require Import gmap strings pretty.

Local Open Scope string_scope.

(* ===================================================================== *)
(** ** Regular expressions as the sanitizer uses them                     *)
(* ===================================================================== *)

Module Regex.

(** The fragment of ECMAScript patterns that occurs in [sanitizer.ts]:
    character tests, sequence, alternative, greedy star, negative
    lookahead and the word boundary assertion. *)
Inductive regex : Type :=
| Eps
| Sym (p : ascii -> bool)
| Seq (a b : regex)
| Alt (a b : regex)
| Star (a : regex)
| NotAhead (a : regex)
| WordBoundary.

Definition code (c : ascii) : nat := nat_of_ascii c.

Definition isUpper (c : ascii) : bool := (65 <=? code c)%nat && (code c <=? 90)%nat.
Definition isLower (c : ascii) : bool := (97 <=? code c)%nat && (code c <=? 122)%nat.
Definition isDigit (c : ascii) : bool := (48 <=? code c)%nat && (code c <=? 57)%nat.

(** [\w] is [[A-Za-z0-9_]]. *)
Definition isWordChar (c : ascii) : bool :=
  isUpper c || isLower c || isDigit c || (code c =? 95)%nat.

(** [\s]: TAB, LF, VT, FF, CR, SPACE and NBSP are the white space and line
    terminator code units below 256. *)
Definition isSpace (c : ascii) : bool :=
  ((9 <=? code c)%nat && (code c <=? 13)%nat) || (code c =? 32)%nat || (code c =? 160)%nat.

(** Canonicalisation under the [i] flag: ASCII letters are compared in upper
    case; a code unit above 127 never canonicalises to an ASCII one. *)
Definition canon (c : ascii) : ascii :=
  if isLower c then ascii_of_nat (code c - 32) else c.

Definition chr (c : ascii) : regex := Sym (Ascii.eqb c).
Definition chrI (c : ascii) : regex := Sym (fun d => Ascii.eqb (canon c) (canon d)).
Definition notChr (c : ascii) : regex := Sym (fun d => negb (Ascii.eqb c d)).
Definition oneOf (cs : list ascii) : regex := Sym (fun d => existsb (Ascii.eqb d) cs).
Definition wordChar : regex := Sym isWordChar.
Definition space : regex := Sym isSpace.
Definition Plus (a : regex) : regex := Seq a (Star a).

Fixpoint seqs (rs : list regex) : regex :=
  match rs with
  | [] => Eps
  | [r] => r
  | r :: rs' => Seq r (seqs rs')
  end.

(** A literal of a pattern carrying the [i] flag. *)
Fixpoint litI (s : string) : regex :=
  match s with
  | EmptyString => Eps
  | String c EmptyString => chrI c
  | String c s' => Seq (chrI c) (litI s')
  end.

Definition wordAt (input : list ascii) (i : nat) : bool :=
  match input !! i with
  | Some c => isWordChar c
  | None => false
  end.

Definition atBoundary (input : list ascii) (i : nat) : bool :=
  let before := match i with O => false | S j => wordAt input j end in
  xorb before (wordAt input i).

(** Backtracking matcher in continuation-passing style: [run fuel input r i k]
    matches [r] at index [i] and hands the end index to [k]; the first
    successful path wins, which is the ECMAScript priority (left
    alternative first, greedy star).  An iteration of a star that consumes
    nothing is rejected, as in the standard, so each unfolding of a star
    advances the index and [S (length input)] units of fuel are never
    exhausted. *)
Fixpoint run (fuel : nat) (input : list ascii) : regex -> nat -> (nat -> option nat) -> option nat :=
  fix go (r : regex) (i : nat) (k : nat -> option nat) {struct r} : option nat :=
    match r with
    | Eps => k i
    | Sym p =>
        match input !! i with
        | Some c => if p c then k (S i) else None
        | None => None
        end
    | Seq a b => go a i (fun j => go b j k)
    | Alt a b =>
        match go a i k with
        | Some e => Some e
        | None => go b i k
        end
    | Star a =>
        match fuel with
        | O => None
        | S fuel' =>
            match go a i (fun j => if (j =? i)%nat then None else run fuel' input (Star a) j k) with
            | Some e => Some e
            | None => k i
            end
        end
    | NotAhead a =>
        match go a i (fun j => Some j) with
        | Some _ => None
        | None => k i
        end
    | WordBoundary => if atBoundary input i then k i else None
    end.

Definition matchAt (r : regex) (input : list ascii) (i : nat) : option nat :=
  run (S (length input)) input r i (fun j => Some j).

(** Leftmost match at or after [start]: [(index, end)]. *)
Fixpoint searchFrom (r : regex) (input : list ascii) (start tries : nat) : option (nat * nat) :=
  match tries with
  | O => None
  | S tries' =>
      match matchAt r input start with
      | Some e => Some (start, e)
      | None => searchFrom r input (S start) tries'
      end
  end.

(** [RegExp.prototype.exec] of a regular expression with the [g] flag: the
    search starts at [lastIndex]; the new [lastIndex] is the end of the
    match, or 0 when there is none. *)
Definition exec (r : regex) (input : list ascii) (lastIndex : nat) : option (nat * nat) * nat :=
  if (length input <? lastIndex)%nat then (None, O)
  else
    match searchFrom r input lastIndex (S (length input - lastIndex)) with
    | Some (s, e) => (Some (s, e), e)
    | None => (None, O)
    end.

(** [RegExp.prototype.test] is [exec(...) !== null]; with the [g] flag it
    reads and writes [lastIndex]. *)
Definition test (r : regex) (input : string) (lastIndex : nat) : bool * nat :=
  let '(m, li) := exec r (list_ascii_of_string input) lastIndex in
  (match m with Some _ => true | None => false end, li).

(** [String.prototype.replace] with a [g] pattern and a literal replacement:
    [lastIndex] is set to 0, [exec] is repeated until it fails (stepping
    over an empty match), and the unmatched stretches are joined by the
    replacement.  [pos] is [lastIndex], [copied] the next source position. *)
Fixpoint replaceLoop (r : regex) (input repl : list ascii) (pos copied fuel : nat) : list ascii :=
  match fuel with
  | O => drop copied input
  | S fuel' =>
      match exec r input pos with
      | (Some (s, e), li) =>
          let next := if (e =? s)%nat then S li else li in
          if (copied <=? s)%nat
          then take (s - copied) (drop copied input) ++ repl ++ replaceLoop r input repl next e fuel'
          else replaceLoop r input repl next copied fuel'
      | (None, _) => drop copied input
      end
  end.

Definition replaceAll (r : regex) (input repl : string) : string :=
  let l := list_ascii_of_string input in
  string_of_list_ascii (replaceLoop r l (list_ascii_of_string repl) O O (S (S (length l)))).

End Regex.

(* ===================================================================== *)
(** ** String helpers of the JavaScript runtime                           *)
(* ===================================================================== *)

Module Js.

Definition strlen (s : string) : nat := String.length s.

(** [s.substring(0, n)]. *)
Definition substring0 (n : nat) (s : string) : string := String.substring 0 n s.

Fixpoint dropSpaces (l : list ascii) : list ascii :=
  match l with
  | c :: l' => if Regex.isSpace c then dropSpaces l' else l
  | [] => []
  end.

(** [s.trim()]. *)
Definition trim (s : string) : string :=
  string_of_list_ascii
    (rev (dropSpaces (rev (dropSpaces (list_ascii_of_string s))))).

(** [haystack.includes(needle)]. *)
Fixpoint includes (needle haystack : string) : bool :=
  String.prefix needle haystack ||
  match haystack with
  | EmptyString => false
  | String _ rest => includes needle rest
  end.

(** The names of the members of [Object.prototype].  A property read
    [obj[key]] on a plain object that has no own property [key] finds these
    through the prototype chain: eleven functions and, under [__proto__],
    the prototype itself; any other name reads as [undefined]. *)
Definition objectPrototypeMembers : list string :=
  ["constructor"; "__defineGetter__"; "__defineSetter__"; "hasOwnProperty";
   "__lookupGetter__"; "__lookupSetter__"; "isPrototypeOf"; "propertyIsEnumerable";
   "toString"; "valueOf"; "__proto__"; "toLocaleString"].

Definition inherited (key : string) : bool :=
  existsb (String.eqb key) objectPrototypeMembers.

End Js.

(* ===================================================================== *)
(** ** JSON values and [JSON.stringify]                                   *)
(* ===================================================================== *)

Module Json.

(** Content payloads ([Record<string, unknown>]) are trees of JSON values;
    an object keeps its properties in enumeration order. *)
#[warnings="-register-all"] Inductive Json : Type :=
| JNull
| JUndefined
| JBool (b : bool)
| JNum (n : Z)
| JStr (s : string)
| JArr (items : list Json)
| JObj (fields : list (string * Json)).

Definition JObject : Type := list (string * Json).

Definition dquote : ascii := ascii_of_nat 34.

Definition hexDigit (n : nat) : ascii :=
  if (n <? 10)%nat then ascii_of_nat (48 + n) else ascii_of_nat (87 + n).

(** Escaping of one code unit inside a JSON string literal. *)
Definition escapeUnit (c : ascii) : string :=
  let n := nat_of_ascii c in
  if (n =? 34)%nat then String "\" (String dquote EmptyString)
  else if (n =? 92)%nat then "\\"
  else if (n =? 8)%nat then "\b"
  else if (n =? 9)%nat then "\t"
  else if (n =? 10)%nat then "\n"
  else if (n =? 12)%nat then "\f"
  else if (n =? 13)%nat then "\r"
  else if (n <? 32)%nat
       then "\u00" ++ String (hexDigit (n / 16)) (String (hexDigit (n mod 16)) EmptyString)
  else String c EmptyString.

Fixpoint escapeUnits (s : string) : string :=
  match s with
  | EmptyString => EmptyString
  | String c s' => escapeUnit c ++ escapeUnits s'
  end.

Definition quote (s : string) : string :=
  String dquote (escapeUnits s ++ String dquote EmptyString).

(** [JSON.stringify]: a property whose value is [undefined] is left out of
    an object and printed as [null] inside an array. *)
Fixpoint stringify (v : Json) : string :=
  match v with
  | JNull => "null"
  | JUndefined => "null"
  | JBool true => "true"
  | JBool false => "false"
  | JNum n => pretty n
  | JStr s => quote s
  | JArr items =>
      "[" ++ String.concat ","
               ((fix each (xs : list Json) : list string :=
                   match xs with
                   | [] => []
                   | x :: xs' => stringify x :: each xs'
                   end) items) ++ "]"
  | JObj fields =>
      "{" ++ String.concat ","
               ((fix each (fs : list (string * Json)) : list string :=
                   match fs with
                   | [] => []
                   | (_, JUndefined) :: fs' => each fs'
                   | (k, x) :: fs' => (quote k ++ ":" ++ stringify x) :: each fs'
                   end) fields) ++ "}"
  end.

End Json.
Export Json.

(* ===================================================================== *)
(** ** sanitizer.ts                                                       *)
(* ===================================================================== *)

Module Sanitizer.
Import Regex.

Module ContentLimits.
Definition TITLE : nat := 200.
Definition DESCRIPTION : nat := 2000.
Definition PHONE : nat := 30.
End ContentLimits.

(** [DANGEROUS_PATTERNS]: eighteen module-level regular expression objects,
    each created once with the flags [gi]. *)
Definition DANGEROUS_PATTERNS : list regex :=
  [ (* the script element: "<script", a word boundary, any run without "<",
       then repeatedly (not followed by "</script>") "<" and a run without
       "<", and finally "</script>" *)
    seqs [litI "<script"; WordBoundary; Star (notChr "<"%char);
          Star (seqs [NotAhead (litI "</script>"); chr "<"%char; Star (notChr "<"%char)]);
          litI "</script>"];
    (* /javascript:/gi *)
    litI "javascript:";
    (* /on\w+\s*=/gi *)
    seqs [litI "on"; Plus wordChar; Star space; chr "="%char];
    (* /data:\s*text\/html/gi *)
    seqs [litI "data:"; Star space; litI "text/html"];
    (* /vbscript:/gi *)
    litI "vbscript:";
    (* /expression\s*\(/gi *)
    seqs [litI "expression"; Star space; chr "("%char];
    (* /<iframe\b/gi ... /<button\b/gi *)
    Seq (litI "<iframe") WordBoundary;
    Seq (litI "<object") WordBoundary;
    Seq (litI "<embed") WordBoundary;
    Seq (litI "<form") WordBoundary;
    Seq (litI "<input") WordBoundary;
    Seq (litI "<button") WordBoundary;
    (* /document\.(cookie|write|location)/gi *)
    Seq (litI "document.") (Alt (litI "cookie") (Alt (litI "write") (litI "location")));
    (* /window\.(location|open)/gi *)
    Seq (litI "window.") (Alt (litI "location") (litI "open"));
    (* /eval\s*\(/gi, /Function\s*\(/gi, /setTimeout\s*\(/gi, /setInterval\s*\(/gi *)
    seqs [litI "eval"; Star space; chr "("%char];
    seqs [litI "Function"; Star space; chr "("%char];
    seqs [litI "setTimeout"; Star space; chr "("%char];
    seqs [litI "setInterval"; Star space; chr "("%char] ].

(** The mutable part of [DANGEROUS_PATTERNS]: the [lastIndex] of each
    pattern, in order.  All are 0 when the module is loaded. *)
Definition PatternState : Type := list nat.

Definition freshPatterns : PatternState := repeat O (length DANGEROUS_PATTERNS).

(** [escapeHtml] replaces each of the eight characters of [htmlEntities]
    (ampersand, angle brackets, both quotes, slash, backtick, equals sign)
    by its entity. *)
Definition htmlEntity (c : ascii) : string :=
  let n := nat_of_ascii c in
  if (n =? 38)%nat then "&amp;"
  else if (n =? 60)%nat then "&lt;"
  else if (n =? 62)%nat then "&gt;"
  else if (n =? 34)%nat then "&quot;"
  else if (n =? 39)%nat then "&#x27;"
  else if (n =? 47)%nat then "&#x2F;"
  else if (n =? 96)%nat then "&#x60;"
  else if (n =? 61)%nat then "&#x3D;"
  else String c EmptyString.

Fixpoint escapeHtml (input : string) : string :=
  match input with
  | EmptyString => EmptyString
  | String c rest => htmlEntity c ++ escapeHtml rest
  end.

(** [patterns.some(pattern => pattern.test(input))]: the patterns are tried
    in order and the iteration stops at the first that matches; every
    pattern tried has its [lastIndex] rewritten by [test]. *)
Fixpoint someTest (ps : list regex) (input : string) (st : PatternState) : bool * PatternState :=
  match ps with
  | [] => (false, st)
  | p :: ps' =>
      let '(b, li) := test p input (hd O st) in
      if b then (true, li :: tl st)
      else let '(b', st') := someTest ps' input (tl st) in (b', li :: st')
  end.

Definition containsDangerousContent (input : string) (st : PatternState) : bool * PatternState :=
  someTest DANGEROUS_PATTERNS input st.

(** [for (const pattern of patterns) result = result.replace(pattern, '')];
    a global [replace] leaves the pattern's [lastIndex] at 0. *)
Fixpoint replaceEach (ps : list regex) (input : string) (st : PatternState) : string * PatternState :=
  match ps with
  | [] => (input, st)
  | p :: ps' =>
      let '(out, st') := replaceEach ps' (replaceAll p input EmptyString) (tl st) in
      (out, O :: st')
  end.

Definition removeDangerousContent (input : string) (st : PatternState) : string * PatternState :=
  replaceEach DANGEROUS_PATTERNS input st.

Definition capLength (maxLength : nat) (s : string) : string :=
  if (maxLength <? Js.strlen s)%nat then Js.substring0 maxLength s else s.

(** [sanitizeText(input, maxLength = ContentLimits.DESCRIPTION)] on a string. *)
Definition sanitizeText (input : string) (maxLength : nat) (st : PatternState) : string * PatternState :=
  if (Js.strlen input =? 0)%nat then (EmptyString, st)
  else
    let result := Js.trim input in
    let '(result, st) := removeDangerousContent result st in
    (* /[\t\f\v]+/g and / +/g *)
    let result := replaceAll (Plus (oneOf [ascii_of_nat 9; ascii_of_nat 12; ascii_of_nat 11])) result " " in
    let result := replaceAll (Plus (chr " "%char)) result " " in
    (capLength maxLength result, st).

(** [sanitizeTitle(input)] on a string. *)
Definition sanitizeTitle (input : string) (st : PatternState) : string * PatternState :=
  if (Js.strlen input =? 0)%nat then (EmptyString, st)
  else
    (* input.trim().replace(/[\r\n]+/g, ' ').replace(/\s+/g, ' ') *)
    let result := Js.trim input in
    let result := replaceAll (Plus (oneOf [ascii_of_nat 13; ascii_of_nat 10])) result " " in
    let result := replaceAll (Plus space) result " " in
    let '(result, st) := removeDangerousContent result st in
    let result := escapeHtml result in
    (capLength ContentLimits.TITLE result, st).

(** [result[key] = value] on the object [sanitizeObject] builds, seen from
    the properties that follow it.  The name [__proto__] reaches the setter
    of [Object.prototype], which changes the prototype of [result] or does
    nothing: no property is defined, the key is lost. *)
Definition assign (key : string) (value : Json) (rest : JObject) : JObject :=
  if String.eqb key "__proto__" then rest else (key, value) :: rest.

(** [sanitizeObject(obj)] as [ContentService.sanitizeContentForType] calls
    it, without [fieldRules]: every string takes the default rule [text].
    [sanitizeValue] is the treatment of one property value, [sanitizeItem]
    that of one array element.  An array element that is itself an array
    is [typeof 'object'] and goes through [sanitizeObject], whose
    [Object.entries] turns it into an object keyed by its indices.  Every
    value is sanitized before it is assigned, also the one that is lost. *)
Fixpoint sanitizeValue (value : Json) (st : PatternState) {struct value} : Json * PatternState :=
  match value with
  | JStr s =>
      let '(s', st') := sanitizeText s ContentLimits.DESCRIPTION st in (JStr s', st')
  | JArr items =>
      let '(items', st') :=
        (fix mapItems (xs : list Json) (st : PatternState) : list Json * PatternState :=
           match xs with
           | [] => ([], st)
           | x :: xs' =>
               let '(y, st1) := sanitizeItem x st in
               let '(ys, st2) := mapItems xs' st1 in
               (y :: ys, st2)
           end) items st in
      (JArr items', st')
  | JObj fields =>
      let '(fields', st') :=
        (fix entries (fs : list (string * Json)) (st : PatternState)
           : list (string * Json) * PatternState :=
           match fs with
           | [] => ([], st)
           | (key, v) :: fs' =>
               let '(v', st1) := sanitizeValue v st in
               let '(rest, st2) := entries fs' st1 in
               (assign key v' rest, st2)
           end) fields st in
      (JObj fields', st')
  | _ => (value, st)
  end
with sanitizeItem (item : Json) (st : PatternState) {struct item} : Json * PatternState :=
  match item with
  | JStr s =>
      let '(s', st') := sanitizeText s ContentLimits.DESCRIPTION st in (JStr s', st')
  | JObj fields =>
      let '(fields', st') :=
        (fix entries (fs : list (string * Json)) (st : PatternState)
           : list (string * Json) * PatternState :=
           match fs with
           | [] => ([], st)
           | (key, v) :: fs' =>
               let '(v', st1) := sanitizeValue v st in
               let '(rest, st2) := entries fs' st1 in
               (assign key v' rest, st2)
           end) fields st in
      (JObj fields', st')
  | JArr xs =>
      let '(fields', st') :=
        (fix indexed (xs : list Json) (i : nat) (st : PatternState)
           : list (string * Json) * PatternState :=
           match xs with
           | [] => ([], st)
           | v :: xs' =>
               let '(v', st1) := sanitizeValue v st in
               let '(rest, st2) := indexed xs' (S i) st1 in
               ((pretty i, v') :: rest, st2)
           end) xs O st in
      (JObj fields', st')
  | _ => (item, st)
  end.

Fixpoint sanitizeObject (obj : JObject) (st : PatternState) : JObject * PatternState :=
  match obj with
  | [] => ([], st)
  | (key, value) :: obj' =>
      let '(value', st1) := sanitizeValue value st in
      let '(rest, st2) := sanitizeObject obj' st1 in
      (assign key value' rest, st2)
  end.

Record ValidationResult : Type := mkValidation {
  isValid : bool;
  errors : list string;
  warnings : list string;
}.

(** The own property [field] of [content]; [undefined] when there is
    none. *)
Fixpoint getField (field : string) (content : JObject) : Json :=
  match content with
  | [] => JUndefined
  | (key, value) :: content' =>
      if String.eqb key field then value else getField field content'
  end.

Definition isMissing (value : Json) : bool :=
  match value with
  | JUndefined | JNull => true
  | JStr s => (Js.strlen s =? 0)%nat
  | _ => false
  end.

(** [Object.prototype.hasOwnProperty.call(content, field)]. *)
Definition hasOwn (field : string) (content : JObject) : bool :=
  existsb (fun entry => String.eqb (fst entry) field) content.

(** [value === undefined || value === null || value === ''] for
    [value = content[field]].  The read goes through the prototype chain: a
    name that is not an own property of the content but is a member of
    [Object.prototype] gives that member, a function or an object, which is
    none of the three. *)
Definition fieldMissing (field : string) (content : JObject) : bool :=
  if hasOwn field content then isMissing (getField field content)
  else negb (Js.inherited field).

(** [validateContent(content, requiredFields = [])]. *)
Definition validateContent (content : JObject) (requiredFields : list string)
           (st : PatternState) : ValidationResult * PatternState :=
  let errors :=
    flat_map (fun field =>
                if fieldMissing field content
                then [field ++ " is required"] else []) requiredFields in
  let '(dangerous, st') := containsDangerousContent (stringify (JObj content)) st in
  let warnings :=
    if dangerous
    then ["Content contains potentially dangerous patterns that will be sanitized"]
    else [] in
  (mkValidation (length errors =? 0)%nat errors warnings, st').

(** The characters [sanitizePhone] keeps: digits, white space, dash,
    parentheses and the plus sign. *)
Definition isPhoneChar (c : ascii) : bool :=
  isDigit c || isSpace c ||
  (code c =? 45)%nat || (code c =? 40)%nat || (code c =? 41)%nat ||
  (code c =? 43)%nat || (code c =? 32)%nat.

(** [sanitizePhone(input)] on a string: every character outside the class
    is removed, then the result is trimmed and cut at [ContentLimits.PHONE]. *)
Definition sanitizePhone (input : string) : string :=
  if (Js.strlen input =? 0)%nat then EmptyString
  else
    let result := replaceAll (Sym (fun c => negb (isPhoneChar c))) input EmptyString in
    let result := Js.trim result in
    capLength ContentLimits.PHONE result.

End Sanitizer.

(* ===================================================================== *)
(** ** The upload utilities: [validateFile]                               *)
(* ===================================================================== *)

Module Upload.

(** What [validateFile] reads of a [File]. *)
Record File : Type := mkFile {
  size : Z;
  type : string;
  name : string;
}.

Definition ALLOWED_IMAGE_TYPES : list string :=
  ["image/jpeg"; "image/png"; "image/gif"; "image/webp"; "image/svg+xml"].

Definition ALLOWED_DOCUMENT_TYPES : list string :=
  ["application/pdf"; "application/msword";
   "application/vnd.openxmlformats-officedocument.wordprocessingml.document"].

Definition MAX_FILE_SIZE : Z := 10 * 1024 * 1024.

(** The characters refused in a file name: angle brackets, colon, double
    quote, slash, backslash, bar, question mark and star. *)
Definition invalidNameChars : list ascii :=
  map ascii_of_nat [60; 62; 58; 34; 47; 92; 124; 63; 42].

(** [validateFile(file, allowDocuments = false)]: the message, or [None] for
    [null].  The pattern is a literal without the [g] flag, so [test]
    searches from the start. *)
Definition validateFile (file : File) (allowDocuments : bool) : option string :=
  if (MAX_FILE_SIZE <? size file)%Z then
    Some ("File size exceeds " ++ pretty (MAX_FILE_SIZE / 1024 / 1024)%Z ++ "MB limit")
  else
    let allowedTypes :=
      if allowDocuments then (ALLOWED_IMAGE_TYPES ++ ALLOWED_DOCUMENT_TYPES)%list
      else ALLOWED_IMAGE_TYPES in
    if negb (existsb (String.eqb (type file)) allowedTypes) then
      Some ("File type " ++ type file ++ " is not allowed")
    else if fst (Regex.test (Regex.oneOf invalidNameChars) (name file) O) then
      Some "Filename contains invalid characters"
    else None.

End Upload.

(* ===================================================================== *)
(** ** types.ts                                                           *)
(* ===================================================================== *)

Module UserRole.
Definition SUPER_ADMIN : string := "super_admin".
Definition ADMIN : string := "admin".
Definition EDITOR : string := "editor".
(** [Object.values(UserRole)]. *)
Definition values : list string := [SUPER_ADMIN; ADMIN; EDITOR].
End UserRole.

Module Permission.
Inductive PermissionType : Type :=
| CONTENT_READ | CONTENT_CREATE | CONTENT_UPDATE | CONTENT_DELETE
| CONTENT_PUBLISH | CONTENT_ROLLBACK
| ADMIN_READ | ADMIN_CREATE | ADMIN_UPDATE | ADMIN_DELETE
| AUDIT_READ
| VERSION_READ | VERSION_RESTORE.

Definition eqb (a b : PermissionType) : bool :=
  match a, b with
  | CONTENT_READ, CONTENT_READ | CONTENT_CREATE, CONTENT_CREATE
  | CONTENT_UPDATE, CONTENT_UPDATE | CONTENT_DELETE, CONTENT_DELETE
  | CONTENT_PUBLISH, CONTENT_PUBLISH | CONTENT_ROLLBACK, CONTENT_ROLLBACK
  | ADMIN_READ, ADMIN_READ | ADMIN_CREATE, ADMIN_CREATE
  | ADMIN_UPDATE, ADMIN_UPDATE | ADMIN_DELETE, ADMIN_DELETE
  | AUDIT_READ, AUDIT_READ
  | VERSION_READ, VERSION_READ | VERSION_RESTORE, VERSION_RESTORE => true
  | _, _ => false
  end.

(** The string each permission stands for. *)
Definition name (p : PermissionType) : string :=
  match p with
  | CONTENT_READ => "content:read"
  | CONTENT_CREATE => "content:create"
  | CONTENT_UPDATE => "content:update"
  | CONTENT_DELETE => "content:delete"
  | CONTENT_PUBLISH => "content:publish"
  | CONTENT_ROLLBACK => "content:rollback"
  | ADMIN_READ => "admin:read"
  | ADMIN_CREATE => "admin:create"
  | ADMIN_UPDATE => "admin:update"
  | ADMIN_DELETE => "admin:delete"
  | AUDIT_READ => "audit:read"
  | VERSION_READ => "version:read"
  | VERSION_RESTORE => "version:restore"
  end.

(** [Object.values(Permission)]. *)
Definition values : list PermissionType :=
  [CONTENT_READ; CONTENT_CREATE; CONTENT_UPDATE; CONTENT_DELETE;
   CONTENT_PUBLISH; CONTENT_ROLLBACK;
   ADMIN_READ; ADMIN_CREATE; ADMIN_UPDATE; ADMIN_DELETE;
   AUDIT_READ; VERSION_READ; VERSION_RESTORE].
End Permission.
Export Permission (PermissionType).

(** [RolePermissions[role]]: the own properties of the table; any other key
    reads as [undefined]. *)
Definition RolePermissions (role : string) : option (list PermissionType) :=
  if String.eqb role UserRole.SUPER_ADMIN then Some Permission.values
  else if String.eqb role UserRole.ADMIN then
    Some [Permission.CONTENT_READ; Permission.CONTENT_CREATE; Permission.CONTENT_UPDATE;
          Permission.CONTENT_DELETE; Permission.CONTENT_PUBLISH; Permission.CONTENT_ROLLBACK;
          Permission.ADMIN_READ; Permission.AUDIT_READ;
          Permission.VERSION_READ; Permission.VERSION_RESTORE]
  else if String.eqb role UserRole.EDITOR then
    Some [Permission.CONTENT_READ; Permission.CONTENT_CREATE; Permission.CONTENT_UPDATE;
          Permission.VERSION_READ]
  else None.

(** [AdminUser]: the fields the access-control and content code read.  The
    role is kept as the string it is at run time, since [makeAccessDecision]
    checks its validity. *)
Module AdminUser.
Record t : Type := mk {
  id : string;
  email : string;
  role : string;
  isActive : bool;
}.
End AdminUser.

Module ContentStatus.
Inductive ContentStatusType : Type := DRAFT | PUBLISHED | ARCHIVED.
End ContentStatus.
Export ContentStatus (ContentStatusType).

(** [ContentVersion]: a snapshot row of the [_versions] sub-collection. *)
Module ContentVersion.
Record t : Type := mk {
  versionId : string;
  version : Z;
  contentSnapshot : option JObject;
  createdAt : Z;
  createdBy : string;
  createdByEmail : string;
  changeDescription : option string;
  isRollback : bool;
  rolledBackFrom : option Z;
}.
End ContentVersion.

Module AuditAction.
Inductive AuditActionType : Type :=
| LOGIN | LOGOUT | LOGIN_FAILED
| CONTENT_CREATE | CONTENT_UPDATE | CONTENT_DELETE
| CONTENT_PUBLISH | CONTENT_UNPUBLISH | CONTENT_ROLLBACK
| ADMIN_CREATE | ADMIN_UPDATE | ADMIN_DELETE | ADMIN_ROLE_CHANGE
| SETTINGS_UPDATE.

(** The string each action stands for. *)
Definition name (a : AuditActionType) : string :=
  match a with
  | LOGIN => "login"
  | LOGOUT => "logout"
  | LOGIN_FAILED => "login_failed"
  | CONTENT_CREATE => "content_create"
  | CONTENT_UPDATE => "content_update"
  | CONTENT_DELETE => "content_delete"
  | CONTENT_PUBLISH => "content_publish"
  | CONTENT_UNPUBLISH => "content_unpublish"
  | CONTENT_ROLLBACK => "content_rollback"
  | ADMIN_CREATE => "admin_create"
  | ADMIN_UPDATE => "admin_update"
  | ADMIN_DELETE => "admin_delete"
  | ADMIN_ROLE_CHANGE => "admin_role_change"
  | SETTINGS_UPDATE => "settings_update"
  end.
End AuditAction.
Export AuditAction (AuditActionType).

(** [AuditLog] without its document id. *)
Module AuditLog.
Record t : Type := mk {
  id : string;
  action : AuditActionType;
  userId : string;
  userEmail : string;
  userRole : string;
  timestamp : Z;
  resourceType : option string;
  resourceId : option string;
  resourcePath : option string;
  previousValue : option JObject;
  newValue : option JObject;
  success : bool;
  errorMessage : option string;
  metadata : option JObject;
  userAgent : option string;
}.
End AuditLog.

(** [OperationResult<T>]. *)
Record OperationResult (T : Type) : Type := mkResult {
  success : bool;
  data : option T;
  error : option string;
  errorCode : option string;
}.
Arguments mkResult {T}.
Arguments success {T}.
Arguments data {T}.
Arguments error {T}.
Arguments errorCode {T}.

(** [PaginatedResult<T>] as [AuditLogger.query] fills it. *)
Record PaginatedResult (T : Type) : Type := mkPage {
  items : list T;
  total : nat;
  hasMore : bool;
}.
Arguments mkPage {T}.
Arguments items {T}.
Arguments total {T}.
Arguments hasMore {T}.

(* ===================================================================== *)
(** ** rbac.ts                                                            *)
(* ===================================================================== *)

Module Rbac.

(** [RolePermissions[role]?.includes(permission) ?? false]. *)
Definition hasPermission (role : string) (permission : PermissionType) : bool :=
  match RolePermissions role with
  | Some permissions => existsb (Permission.eqb permission) permissions
  | None => false
  end.

(** [RolePermissions] and [RoleHierarchy] are plain objects indexed by the
    role.  For a role that is no key of the table and names no member of
    [Object.prototype] the index is [undefined]: this is what [None] stands
    for.  For a role that names such a member ([Js.inherited]) the index
    yields the member: [hasPermission] then throws a [TypeError], the
    member having no [includes], and [isRoleAtLeast] compares the members
    as strings.  A statement that depends on what is returned for a role
    outside the tables takes [Js.inherited role = false] as a hypothesis. *)

(** [Object.values(UserRole).includes(role)]. *)
Definition isValidRole (role : string) : bool :=
  existsb (String.eqb role) UserRole.values.

Record AccessDecision : Type := mkDecision {
  allowed : bool;
  reason : option string;
  requiredPermission : option PermissionType;
}.

Definition makeAccessDecision (user : option AdminUser.t) (requiredPermission : PermissionType)
  : AccessDecision :=
  match user with
  | None => mkDecision false (Some "User not authenticated") None
  | Some user =>
      if negb (AdminUser.isActive user) then
        mkDecision false (Some "User account is deactivated") None
      else if negb (isValidRole (AdminUser.role user)) then
        mkDecision false (Some "Invalid user role") None
      else if negb (hasPermission (AdminUser.role user) requiredPermission) then
        mkDecision false
          (Some ("Missing required permission: " ++ Permission.name requiredPermission))
          (Some requiredPermission)
      else mkDecision true None None
  end.

(** [permissions.every(p => hasPermission(role, p))] and
    [permissions.some(p => hasPermission(role, p))]. *)
Definition hasAllPermissions (role : string) (permissions : list PermissionType) : bool :=
  forallb (hasPermission role) permissions.

Definition hasAnyPermission (role : string) (permissions : list PermissionType) : bool :=
  existsb (hasPermission role) permissions.

(** [RolePermissions[role] || []]. *)
Definition getPermissionsForRole (role : string) : list PermissionType :=
  default [] (RolePermissions role).

(** [RoleHierarchy[role]]: the own properties of the table. *)
Definition RoleHierarchy (role : string) : option nat :=
  if String.eqb role UserRole.EDITOR then Some 1
  else if String.eqb role UserRole.ADMIN then Some 2
  else if String.eqb role UserRole.SUPER_ADMIN then Some 3
  else None.

(** [RoleHierarchy[role] >= RoleHierarchy[requiredRole]]; a comparison with
    [undefined] is false. *)
Definition isRoleAtLeast (role requiredRole : string) : bool :=
  match RoleHierarchy role, RoleHierarchy requiredRole with
  | Some level, Some required => (required <=? level)%nat
  | _, _ => false
  end.

Definition canManageRole (managerRole targetRole : string) : bool :=
  if String.eqb managerRole UserRole.SUPER_ADMIN then true
  else if String.eqb managerRole UserRole.ADMIN then String.eqb targetRole UserRole.EDITOR
  else false.

(** The actions of [canPerformContentAction] and its [permissionMap]. *)
Inductive ContentAction : Type :=
| ActRead | ActCreate | ActUpdate | ActDelete | ActPublish | ActRollback.

Definition permissionMap (action : ContentAction) : PermissionType :=
  match action with
  | ActRead => Permission.CONTENT_READ
  | ActCreate => Permission.CONTENT_CREATE
  | ActUpdate => Permission.CONTENT_UPDATE
  | ActDelete => Permission.CONTENT_DELETE
  | ActPublish => Permission.CONTENT_PUBLISH
  | ActRollback => Permission.CONTENT_ROLLBACK
  end.

Definition canPerformContentAction (role : string) (action : ContentAction) : bool :=
  hasPermission role (permissionMap action).

Definition canManageAdmins (role : string) : bool :=
  hasPermission role Permission.ADMIN_CREATE ||
  hasPermission role Permission.ADMIN_UPDATE ||
  hasPermission role Permission.ADMIN_DELETE.

Definition canViewAuditLogs (role : string) : bool :=
  hasPermission role Permission.AUDIT_READ.

Definition canViewVersionHistory (role : string) : bool :=
  hasPermission role Permission.VERSION_READ.

Definition canRestoreVersions (role : string) : bool :=
  hasPermission role Permission.VERSION_RESTORE.

(** [createPermissionGuard(requiredPermissions)] applied to a role that may
    be [undefined]; the empty string is falsy too. *)
Definition createPermissionGuard (requiredPermissions : list PermissionType)
           (role : option string) : bool :=
  match role with
  | None => false
  | Some r =>
      if (Js.strlen r =? 0)%nat then false
      else hasAllPermissions r requiredPermissions
  end.

End Rbac.

(* ===================================================================== *)
(** ** The world the services run in                                      *)
(* ===================================================================== *)

(** A thrown JavaScript error: its [message] and, for errors of the document
    store, its [code]. *)
Record JsError : Type := mkError {
  message : string;
  code : option string;
}.

Inductive Outcome (A : Type) : Type :=
| Ok (a : A)
| Throw (e : JsError).
Arguments Ok {A}.
Arguments Throw {A}.

Module Meta.
(** [VersionedDocument._meta]. *)
Record t : Type := mk {
  version : Z;
  status : ContentStatusType;
  createdAt : Z;
  createdBy : string;
  updatedAt : Z;
  updatedBy : string;
  publishedAt : option Z;
  publishedBy : option string;
}.
End Meta.

Module VersionedDocument.
(** A live document as [docSnap.data()] returns it.  The code reads it with
    [currentData?._meta?.version ?? 0] and [currentData?.content]: a document
    at the path may lack either part, so both are optional here. *)
Record t : Type := mk {
  content : option JObject;
  _meta : option Meta.t;
}.
End VersionedDocument.

(** What the program cannot control: the clock ([Date.now()] on its n-th
    reading), the identifiers [uuidv4()] and the store hand out, whether the
    n-th call to the document store fails (and with which error), and the
    browser's user agent ([None] when [window] is undefined). *)
Record Env : Type := mkEnv {
  clock : nat -> Z;
  freshId : nat -> string;
  fault : nat -> option JsError;
  navigatorUserAgent : option string;
}.

Record World : Type := mkWorld {
  env : Env;
  clockReads : nat;
  idsDrawn : nat;
  storeCalls : nat;
  (** live documents by path *)
  documents : gmap string VersionedDocument.t;
  (** the [_versions] sub-collection of each path: document id and row, in
      the order of insertion *)
  versionRows : gmap string (list (string * ContentVersion.t));
  (** the [audit_logs] collection, oldest first *)
  auditRows : list (string * AuditLog.t);
  (** lines written with [console.error] and [console.log], oldest first *)
  console : list string;
  (** [lastIndex] of each of [DANGEROUS_PATTERNS] *)
  patterns : Sanitizer.PatternState;
}.

Definition setDocuments (d : gmap string VersionedDocument.t) (w : World) : World :=
  mkWorld (env w) (clockReads w) (idsDrawn w) (storeCalls w)
          d (versionRows w) (auditRows w) (console w) (patterns w).

Definition setVersionRows (v : gmap string (list (string * ContentVersion.t))) (w : World) : World :=
  mkWorld (env w) (clockReads w) (idsDrawn w) (storeCalls w)
          (documents w) v (auditRows w) (console w) (patterns w).

Definition setAuditRows (a : list (string * AuditLog.t)) (w : World) : World :=
  mkWorld (env w) (clockReads w) (idsDrawn w) (storeCalls w)
          (documents w) (versionRows w) a (console w) (patterns w).

Definition setConsole (c : list string) (w : World) : World :=
  mkWorld (env w) (clockReads w) (idsDrawn w) (storeCalls w)
          (documents w) (versionRows w) (auditRows w) c (patterns w).

Definition setPatterns (p : Sanitizer.PatternState) (w : World) : World :=
  mkWorld (env w) (clockReads w) (idsDrawn w) (storeCalls w)
          (documents w) (versionRows w) (auditRows w) (console w) p.

(** Computations that read and write the world and may throw. *)
Definition M (A : Type) : Type := World -> Outcome A * World.

Definition ret {A : Type} (a : A) : M A := fun w => (Ok a, w).

Definition bind {A B : Type} (m : M A) (f : A -> M B) : M B :=
  fun w =>
    match m w with
    | (Ok a, w') => f a w'
    | (Throw e, w') => (Throw e, w')
    end.

Definition throw {A : Type} (e : JsError) : M A := fun w => (Throw e, w).

(** [try { body } catch (error) { handler }]. *)
Definition tryCatch {A : Type} (body : M A) (handler : JsError -> M A) : M A :=
  fun w =>
    match body w with
    | (Ok a, w') => (Ok a, w')
    | (Throw e, w') => handler e w'
    end.

Declare Scope js_scope.
Delimit Scope js_scope with js.
Notation "x <- m ;; k" := (bind m (fun x => k))
  (at level 100, m at next level, k at level 200, right associativity) : js_scope.
Notation "m ;; k" := (bind m (fun _ => k))
  (at level 100, k at level 200, right associativity) : js_scope.
Local Open Scope js_scope.

(** [new Error(message)]. *)
Definition Error (msg : string) : JsError := mkError msg None.

Definition Date_now : M Z :=
  fun w =>
    (Ok (clock (env w) (clockReads w)),
     mkWorld (env w) (S (clockReads w)) (idsDrawn w) (storeCalls w)
             (documents w) (versionRows w) (auditRows w) (console w) (patterns w)).

Definition uuidv4 : M string :=
  fun w =>
    (Ok (freshId (env w) (idsDrawn w)),
     mkWorld (env w) (clockReads w) (S (idsDrawn w)) (storeCalls w)
             (documents w) (versionRows w) (auditRows w) (console w) (patterns w)).

Definition console_log (line : string) : M unit :=
  fun w => (Ok tt, setConsole (console w ++ [line])%list w).

(** A function of the sanitizer that reads and writes the pattern state. *)
Definition withPatterns {A : Type} (f : Sanitizer.PatternState -> A * Sanitizer.PatternState) : M A :=
  fun w => let '(a, p) := f (patterns w) in (Ok a, setPatterns p w).

(** *** The document store (Firestore) at its interface *)

Module Firestore.

(** Every call reaches the store or fails with the error the environment
    decides for it. *)
Definition call : M unit :=
  fun w =>
    let w' := mkWorld (env w) (clockReads w) (idsDrawn w) (S (storeCalls w))
                      (documents w) (versionRows w) (auditRows w) (console w) (patterns w) in
    match fault (env w) (storeCalls w) with
    | Some e => (Throw e, w')
    | None => (Ok tt, w')
    end.

(** [getDoc(doc(firestore, path))]: [None] when [!docSnap.exists()]. *)
Definition getDoc (path : string) : M (option VersionedDocument.t) :=
  call ;; (fun w => (Ok (documents w !! path), w)).

(** [transaction.get(docRef)] and [transaction.set(docRef, newDoc, {merge: false})]. *)
Definition transaction_get (path : string) : M (option VersionedDocument.t) :=
  fun w => (Ok (documents w !! path), w).

Definition transaction_set (path : string) (newDoc : VersionedDocument.t) : M unit :=
  fun w => (Ok tt, setDocuments (<[path := newDoc]> (documents w)) w).

(** [runTransaction(firestore, body)]: the writes of a body that throws are
    discarded. *)
Definition runTransaction {A : Type} (body : M A) : M A :=
  call ;;
  (fun w =>
     match body w with
     | (Ok a, w') => (Ok a, w')
     | (Throw e, w') => (Throw e, setDocuments (documents w) w')
     end).

Definition rowsAt (path : string) (w : World) : list (string * ContentVersion.t) :=
  default [] (versionRows w !! path).

(** [addDoc(collection(firestore, docPath, '_versions'), row)]. *)
Definition addVersionDoc (path : string) (row : ContentVersion.t) : M string :=
  call ;;
  docId <- uuidv4 ;;
  (fun w => (Ok docId, setVersionRows (<[path := (rowsAt path w ++ [(docId, row)])%list]> (versionRows w)) w)).

(** [getDocs] over the [_versions] sub-collection, before any filter. *)
Definition getVersionDocs (path : string) : M (list (string * ContentVersion.t)) :=
  call ;; (fun w => (Ok (rowsAt path w), w)).

(** [addDoc(collection(firestore, 'audit_logs'), row)]. *)
Definition addAuditDoc (row : AuditLog.t) : M string :=
  call ;;
  docId <- uuidv4 ;;
  (fun w => (Ok docId, setAuditRows (auditRows w ++ [(docId, row)])%list w)).

(** [getDocs] over the [audit_logs] collection, before any constraint. *)
Definition getAuditDocs : M (list (string * AuditLog.t)) :=
  call ;; (fun w => (Ok (auditRows w), w)).

(** [deleteDoc(doc(firestore, path))]. *)
Definition deleteDoc (path : string) : M unit :=
  call ;; (fun w => (Ok tt, setDocuments (delete path (documents w)) w)).

End Firestore.

(* ===================================================================== *)
(** ** audit-logger.ts                                                    *)
(* ===================================================================== *)

Module AuditLogger.

Definition MAX_VALUE_SIZE : Z := 10000.

Record AuditLogInput : Type := mkInput {
  action : AuditActionType;
  userId : string;
  userEmail : string;
  userRole : string;
  resourceType : option string;
  resourceId : option string;
  resourcePath : option string;
  previousValue : option JObject;
  newValue : option JObject;
  success : bool;
  errorMessage : option string;
  metadata : option JObject;
}.

Definition truncateValue (value : option JObject) : option JObject :=
  match value with
  | None => None
  | Some v =>
      let stringified := stringify (JObj v) in
      if (Z.of_nat (Js.strlen stringified) <=? MAX_VALUE_SIZE)%Z then Some v
      else Some [("_truncated", JBool true);
                 ("_originalSize", JNum (Z.of_nat (Js.strlen stringified)));
                 ("_preview", JStr (Js.substring0 500 stringified ++ "..."))]
  end.

Definition getClientInfo : M (option string) :=
  fun w => (Ok (navigatorUserAgent (env w)), w).

(** The object literal [auditLog] of [log]. *)
Definition entryOf (input : AuditLogInput) (id : string) (timestamp : Z)
           (clientUserAgent : option string) : AuditLog.t :=
  AuditLog.mk id (action input) (userId input) (userEmail input) (userRole input)
              timestamp (resourceType input) (resourceId input) (resourcePath input)
              (truncateValue (previousValue input)) (truncateValue (newValue input))
              (success input) (errorMessage input) (metadata input) clientUserAgent.

(** [AuditLogger.log(input)]. *)
Definition log (input : AuditLogInput) : M string :=
  clientInfo <- getClientInfo ;;
  id <- uuidv4 ;;
  timestamp <- Date_now ;;
  let auditLog := entryOf input id timestamp clientInfo in
  tryCatch
    (Firestore.addAuditDoc auditLog)
    (fun error =>
       console_log ("[AuditLogger] Failed to write audit log: " ++ message error) ;;
       ret EmptyString).

Definition logContentUpdate (userId userEmail userRole resourceType resourceId resourcePath : string)
           (previousValue newValue : JObject) (success : bool) (errorMessage : option string)
  : M string :=
  log (mkInput AuditAction.CONTENT_UPDATE userId userEmail userRole
               (Some resourceType) (Some resourceId) (Some resourcePath)
               (Some previousValue) (Some newValue) success errorMessage None).

Definition logContentRollback (userId userEmail userRole resourceType resourceId resourcePath : string)
           (previousValue newValue : option JObject) (fromVersion toVersion : Z)
           (success : bool) (errorMessage : option string) : M string :=
  log (mkInput AuditAction.CONTENT_ROLLBACK userId userEmail userRole
               (Some resourceType) (Some resourceId) (Some resourcePath)
               previousValue newValue success errorMessage
               (Some [("fromVersion", JNum fromVersion); ("toVersion", JNum toVersion)])).

Definition logLogin (userId userEmail userRole : string) (success : bool)
           (errorMessage : option string) : M string :=
  log (mkInput (if success then AuditAction.LOGIN else AuditAction.LOGIN_FAILED)
               userId userEmail userRole None None None None None success errorMessage None).

Definition logLogout (userId userEmail userRole : string) : M string :=
  log (mkInput AuditAction.LOGOUT userId userEmail userRole
               None None None None None true None None).

Definition logContentCreate (userId userEmail userRole resourceType resourceId resourcePath : string)
           (newValue : JObject) (success : bool) (errorMessage : option string) : M string :=
  log (mkInput AuditAction.CONTENT_CREATE userId userEmail userRole
               (Some resourceType) (Some resourceId) (Some resourcePath)
               None (Some newValue) success errorMessage None).

Definition logContentDelete (userId userEmail userRole resourceType resourceId resourcePath : string)
           (previousValue : option JObject) (success : bool) (errorMessage : option string)
  : M string :=
  log (mkInput AuditAction.CONTENT_DELETE userId userEmail userRole
               (Some resourceType) (Some resourceId) (Some resourcePath)
               previousValue None success errorMessage None).

Module AuditLogQuery.
(** The filter of [query]; [lastDoc] is the snapshot of the last row of the
    previous page: its document id and data. *)
Record t : Type := mk {
  userId : option string;
  action : option AuditActionType;
  resourceType : option string;
  resourceId : option string;
  startDate : option Z;
  endDate : option Z;
  success : option bool;
  limit : option nat;
  lastDoc : option (string * AuditLog.t);
}.
End AuditLogQuery.

(** A constraint on a string is pushed only [if (options.x)]: when the
    option is given and not the empty string. *)
Definition stringConstraint (wanted : option string) (actual : option string) : bool :=
  match wanted with
  | Some x =>
      if (Js.strlen x =? 0)%nat then true
      else match actual with
           | Some y => String.eqb y x
           | None => false
           end
  | None => true
  end.

(** The conjunction of the [where] constraints that [query] builds. *)
Definition matches (options : AuditLogQuery.t) (row : AuditLog.t) : bool :=
  stringConstraint (AuditLogQuery.userId options) (Some (AuditLog.userId row)) &&
  match AuditLogQuery.action options with
  | Some a => String.eqb (AuditAction.name (AuditLog.action row)) (AuditAction.name a)
  | None => true
  end &&
  stringConstraint (AuditLogQuery.resourceType options) (AuditLog.resourceType row) &&
  stringConstraint (AuditLogQuery.resourceId options) (AuditLog.resourceId row) &&
  match AuditLogQuery.success options with
  | Some b => Bool.eqb (AuditLog.success row) b
  | None => true
  end &&
  match AuditLogQuery.startDate options with
  | Some t => (t <=? AuditLog.timestamp row)%Z
  | None => true
  end &&
  match AuditLogQuery.endDate options with
  | Some t => (AuditLog.timestamp row <=? t)%Z
  | None => true
  end.

(** [orderBy('timestamp', 'desc')]: [a] comes before [b]; rows of equal
    timestamp are ordered by document id, descending as well. *)
Definition laterFirst (a b : string * AuditLog.t) : bool :=
  let ta := AuditLog.timestamp (snd a) in
  let tb := AuditLog.timestamp (snd b) in
  (tb <? ta)%Z ||
  ((ta =? tb)%Z && match String.compare (fst a) (fst b) with Lt => false | _ => true end).

Fixpoint insertLog (row : string * AuditLog.t) (sorted : list (string * AuditLog.t))
  : list (string * AuditLog.t) :=
  match sorted with
  | [] => [row]
  | r :: sorted' => if laterFirst row r then row :: sorted else r :: insertLog row sorted'
  end.

Definition sortLogs (rows : list (string * AuditLog.t)) : list (string * AuditLog.t) :=
  foldr insertLog [] rows.

(** [startAfter(lastDoc)]: the rows strictly behind the cursor in the order
    of the query. *)
Definition behind (cursor row : string * AuditLog.t) : bool :=
  let tc := AuditLog.timestamp (snd cursor) in
  let tr := AuditLog.timestamp (snd row) in
  (tr <? tc)%Z ||
  ((tr =? tc)%Z && match String.compare (fst row) (fst cursor) with Lt => true | _ => false end).

Definition startAfter (lastDoc : option (string * AuditLog.t))
           (rows : list (string * AuditLog.t)) : list (string * AuditLog.t) :=
  match lastDoc with
  | Some cursor => List.filter (behind cursor) rows
  | None => rows
  end.

(** [options.limit || 50]. *)
Definition pageLimitOf (options : AuditLogQuery.t) : nat :=
  match AuditLogQuery.limit options with
  | Some O => 50
  | Some n => n
  | None => 50
  end.

(** [AuditLogger.query(options)].  An item is [{ id: doc.id, ...doc.data() }]:
    the stored [id] field of the row, spread last, is the one that stays. *)
Definition query (options : AuditLogQuery.t) : M (PaginatedResult AuditLog.t) :=
  let pageLimit := pageLimitOf options in
  tryCatch
    (docs <- Firestore.getAuditDocs ;;
     let snapshot :=
       take (S pageLimit)
            (startAfter (AuditLogQuery.lastDoc options)
                        (sortLogs (List.filter (fun d => matches options (snd d)) docs))) in
     let items := map snd (take pageLimit snapshot) in
     ret (mkPage items (length items) (pageLimit <? length snapshot)%nat))
    (fun error =>
       console_log ("[AuditLogger] Failed to query audit logs: " ++ message error) ;;
       ret (mkPage [] O false)).

End AuditLogger.

(* ===================================================================== *)
(** ** version-manager.ts                                                 *)
(* ===================================================================== *)

Module VersionManager.

Definition MAX_VERSIONS_TO_KEEP : nat := 50.

Record SaveContentOptions : Type := mkSaveOptions {
  userId : string;
  userEmail : string;
  changeDescription : option string;
  expectedVersion : option Z;
  publish : bool;
}.

Record RollbackOptions : Type := mkRollbackOptions {
  rb_userId : string;
  rb_userEmail : string;
  targetVersion : Z;
}.

(** What the transaction bodies return. *)
Record TxResult : Type := mkTx {
  newVersion : Z;
  previousContent : option JObject;
  previousVersion : Z;
}.

(** [createVersionSnapshot]: the row carries the [userId]/[userEmail] it
    is given and the time of its own creation. *)
Definition createVersionSnapshot (docPath : string) (content : option JObject) (version : Z)
           (userId userEmail : string) (changeDescription : option string)
           (isRollback : bool) (rolledBackFrom : option Z) : M string :=
  versionId <- uuidv4 ;;
  createdAt <- Date_now ;;
  let versionDoc :=
    ContentVersion.mk versionId version content createdAt userId userEmail
                      changeDescription isRollback rolledBackFrom in
  Firestore.addVersionDoc docPath versionDoc.

(** The row with the least document id, the order of a query without
    [orderBy]. *)
Fixpoint firstById (rows : list (string * ContentVersion.t)) : option (string * ContentVersion.t) :=
  match rows with
  | [] => None
  | row :: rows' =>
      match firstById rows' with
      | Some best =>
          match String.compare (fst row) (fst best) with
          | Gt => Some best
          | _ => Some row
          end
      | None => Some row
      end
  end.

(** [getVersion(docPath, version)]: [where('version', '==', version), limit(1)];
    the document id replaces the stored [versionId]. *)
Definition getVersion (docPath : string) (version : Z) : M (option ContentVersion.t) :=
  rows <- Firestore.getVersionDocs docPath ;;
  let matching := List.filter (fun row => Z.eqb (ContentVersion.version (snd row)) version) rows in
  ret (match firstById matching with
       | Some (docId, row) =>
           Some (ContentVersion.mk docId (ContentVersion.version row)
                   (ContentVersion.contentSnapshot row) (ContentVersion.createdAt row)
                   (ContentVersion.createdBy row) (ContentVersion.createdByEmail row)
                   (ContentVersion.changeDescription row) (ContentVersion.isRollback row)
                   (ContentVersion.rolledBackFrom row))
       | None => None
       end).

(** [orderBy('version', 'desc')]: [a] comes before [b]. *)
Definition newerFirst (a b : string * ContentVersion.t) : bool :=
  let va := ContentVersion.version (snd a) in
  let vb := ContentVersion.version (snd b) in
  (vb <? va)%Z ||
  ((va =? vb)%Z && match String.compare (fst a) (fst b) with Lt => false | _ => true end).

Fixpoint insertRow (row : string * ContentVersion.t) (sorted : list (string * ContentVersion.t))
  : list (string * ContentVersion.t) :=
  match sorted with
  | [] => [row]
  | r :: sorted' => if newerFirst row r then row :: sorted else r :: insertRow row sorted'
  end.

Definition sortRows (rows : list (string * ContentVersion.t)) : list (string * ContentVersion.t) :=
  foldr insertRow [] rows.

(** [for (const docToDelete of toDelete) console.log(...)]: the deletion
    itself is commented out in the source. *)
Fixpoint reportOldVersions (toDelete : list (string * ContentVersion.t)) : M unit :=
  match toDelete with
  | [] => ret tt
  | docToDelete :: rest =>
      console_log ("[VersionManager] Would delete old version: " ++ fst docToDelete) ;;
      reportOldVersions rest
  end.

(** [cleanupOldVersions]: rows beyond the newest fifty are only reported on
    the console, none is removed. *)
Definition cleanupOldVersions (docPath : string) : M unit :=
  rows <- Firestore.getVersionDocs docPath ;;
  let snapshot := take (MAX_VERSIONS_TO_KEEP + 10) (sortRows rows) in
  if (length snapshot <=? MAX_VERSIONS_TO_KEEP)%nat then ret tt
  else reportOldVersions (drop MAX_VERSIONS_TO_KEEP snapshot).

(** [this.cleanupOldVersions(docPath).catch(console.error)]. *)
Definition cleanupQuietly (docPath : string) : M unit :=
  tryCatch (cleanupOldVersions docPath) (fun e => console_log (message e)).

(** [currentData?._meta?.version ?? 0]. *)
Definition currentVersionOf (currentData : option VersionedDocument.t) : Z :=
  match currentData with
  | Some d =>
      match VersionedDocument._meta d with
      | Some m => Meta.version m
      | None => 0
      end
  | None => 0
  end.

Definition metaOf (currentData : option VersionedDocument.t) : option Meta.t :=
  match currentData with
  | Some d => VersionedDocument._meta d
  | None => None
  end.

(** [a || b] on numbers and on strings. *)
Definition orNumber (a : option Z) (b : Z) : Z :=
  match a with
  | Some n => if (n =? 0)%Z then b else n
  | None => b
  end.

Definition orString (a : option string) (b : string) : string :=
  match a with
  | Some s => if (Js.strlen s =? 0)%nat then b else s
  | None => b
  end.

Definition conflictMessage (expected current : Z) : string :=
  "Version conflict: expected version " ++ pretty expected ++
  ", but current version is " ++ pretty current ++ ". " ++
  "Please refresh and try again.".

(** [error.message || fallback]. *)
Definition messageOr (error : JsError) (fallback : string) : string :=
  if (Js.strlen (message error) =? 0)%nat then fallback else message error.

(** The object literal [newDoc] of [saveContent]. *)
Definition nextDocument (currentData : option VersionedDocument.t) (content : JObject)
           (options : SaveContentOptions) (now : Z) : VersionedDocument.t :=
  let m := metaOf currentData in
  VersionedDocument.mk (Some content)
    (Some (Meta.mk
             (currentVersionOf currentData + 1)%Z
             (if publish options then ContentStatus.PUBLISHED
              else match m with
                   | Some m => Meta.status m
                   | None => ContentStatus.DRAFT
                   end)
             (orNumber (Meta.createdAt <$> m) now)
             (orString (Meta.createdBy <$> m) (userId options))
             now
             (userId options)
             (if publish options then Some now else m ≫= Meta.publishedAt)
             (if publish options then Some (userId options) else m ≫= Meta.publishedBy))).

(** The body handed to [runTransaction] by [saveContent]. *)
Definition saveTransaction (docPath : string) (content : JObject) (options : SaveContentOptions)
  : M TxResult :=
  docSnap <- Firestore.transaction_get docPath ;;
  let currentData := docSnap in
  let currentVersion := currentVersionOf currentData in
  let proceed : M TxResult :=
    let newVersion := (currentVersion + 1)%Z in
    now <- Date_now ;;
    let newDoc := nextDocument currentData content options now in
    Firestore.transaction_set docPath newDoc ;;
    ret (mkTx newVersion
              (match docSnap with
               | Some d => VersionedDocument.content d
               | None => None
               end)
              currentVersion) in
  (* the optimistic locking check *)
  match expectedVersion options with
  | Some expected =>
      if negb (currentVersion =? expected)%Z
      then throw (Error (conflictMessage expected currentVersion))
      else proceed
  | None => proceed
  end.

(** [VersionManager.saveContent(docPath, contentType, content, options)]. *)
Definition saveContent (docPath contentType : string) (content : JObject)
           (options : SaveContentOptions) : M (OperationResult Z) :=
  tryCatch
    (result <- Firestore.runTransaction (saveTransaction docPath content options) ;;
     match previousContent result with
     | Some previous =>
         createVersionSnapshot docPath (Some previous) (previousVersion result)
           (userId options) (userEmail options) (changeDescription options) false None ;;
         ret tt
     | None => ret tt
     end ;;
     cleanupQuietly docPath ;;
     ret (mkResult true (Some (newVersion result)) None None))
    (fun error =>
       console_log ("[VersionManager] Save content error: " ++ message error) ;;
       ret (mkResult false None (Some (messageOr error "Failed to save content")) (code error))).

(** The body handed to [runTransaction] by [rollbackToVersion]. *)
Definition rollbackTransaction (docPath : string) (targetVersionDoc : ContentVersion.t)
           (options : RollbackOptions) : M TxResult :=
  docSnap <- Firestore.transaction_get docPath ;;
  match docSnap with
  | None => throw (Error "Document does not exist")
  | Some currentData =>
      match VersionedDocument._meta currentData with
      | None => throw (Error "Cannot read properties of undefined (reading 'version')")
      | Some m =>
          let currentVersion := Meta.version m in
          let newVersion := (currentVersion + 1)%Z in
          now <- Date_now ;;
          let restoredContent := ContentVersion.contentSnapshot targetVersionDoc in
          let newDoc :=
            VersionedDocument.mk restoredContent
              (Some (Meta.mk newVersion (Meta.status m) (Meta.createdAt m) (Meta.createdBy m)
                             now (rb_userId options)
                             (Meta.publishedAt m) (Meta.publishedBy m))) in
          Firestore.transaction_set docPath newDoc ;;
          ret (mkTx newVersion (VersionedDocument.content currentData) currentVersion)
      end
  end.

(** [VersionManager.rollbackToVersion(docPath, contentType, options, userRole)];
    the result carries [(version, restoredVersion)]. *)
Definition rollbackToVersion (docPath contentType : string) (options : RollbackOptions)
           (userRole : string) : M (OperationResult (Z * Z)) :=
  tryCatch
    (targetVersionDoc <- getVersion docPath (targetVersion options) ;;
     match targetVersionDoc with
     | None =>
         ret (mkResult false None
                (Some ("Version " ++ pretty (targetVersion options) ++ " not found"))
                (Some "VERSION_NOT_FOUND"))
     | Some targetVersionDoc =>
         result <- Firestore.runTransaction (rollbackTransaction docPath targetVersionDoc options) ;;
         createVersionSnapshot docPath (previousContent result) (previousVersion result)
           (rb_userId options) (rb_userEmail options)
           (Some ("Rollback to version " ++ pretty (targetVersion options)))
           true (Some (targetVersion options)) ;;
         AuditLogger.logContentRollback (rb_userId options) (rb_userEmail options) userRole
           contentType docPath docPath
           (previousContent result) (ContentVersion.contentSnapshot targetVersionDoc)
           (previousVersion result) (targetVersion options) true None ;;
         ret (mkResult true (Some (newVersion result, targetVersion options)) None None)
     end)
    (fun error =>
       console_log ("[VersionManager] Rollback error: " ++ message error) ;;
       ret (mkResult false None (Some (messageOr error "Failed to rollback content")) (code error))).

(** [getCurrentContent(docPath)]. *)
Definition getCurrentContent (docPath : string) : M (option VersionedDocument.t) :=
  Firestore.getDoc docPath.

(** [{ ...doc.data(), versionId: doc.id }]. *)
Definition withDocId (d : string * ContentVersion.t) : ContentVersion.t :=
  let row := snd d in
  ContentVersion.mk (fst d) (ContentVersion.version row)
    (ContentVersion.contentSnapshot row) (ContentVersion.createdAt row)
    (ContentVersion.createdBy row) (ContentVersion.createdByEmail row)
    (ContentVersion.changeDescription row) (ContentVersion.isRollback row)
    (ContentVersion.rolledBackFrom row).

(** [getVersionHistory(docPath, limitCount = 20)]:
    [orderBy('version', 'desc'), limit(limitCount)]. *)
Definition getVersionHistory (docPath : string) (limitCount : nat) : M (list ContentVersion.t) :=
  rows <- Firestore.getVersionDocs docPath ;;
  ret (map withDocId (take limitCount (sortRows rows))).

(** [compareVersions(docPath, versionA, versionB)]: the two lookups of
    [Promise.all], one after the other. *)
Definition compareVersions (docPath : string) (versionA versionB : Z)
  : M (option ContentVersion.t * option ContentVersion.t) :=
  vA <- getVersion docPath versionA ;;
  vB <- getVersion docPath versionB ;;
  ret (vA, vB).

End VersionManager.

(* ===================================================================== *)
(** ** content-service.ts                                                 *)
(* ===================================================================== *)

Module ContentService.
Import Rbac.

Record SaveOptions : Type := mkSaveOptions {
  user : AdminUser.t;
  changeDescription : option string;
  expectedVersion : option Z;
  publish : bool;
  skipValidation : bool;
  skipSanitization : bool;
}.

(** The keys of [ContentTypeRegistry]. *)
Inductive ContentTypeKey : Type :=
| SiteConfig | SocialLinks | Footer | Hero | About | Legal.

(** [ContentTypeRegistry[contentType]]: the own properties of the table. *)
Definition ContentTypeRegistry (contentType : string) : option ContentTypeKey :=
  if String.eqb contentType "site-config" then Some SiteConfig
  else if String.eqb contentType "social-links" then Some SocialLinks
  else if String.eqb contentType "footer" then Some Footer
  else if String.eqb contentType "hero" then Some Hero
  else if String.eqb contentType "about" then Some About
  else if String.eqb contentType "legal" then Some Legal
  else None.

(** The schemas are zod objects; what [schema.parse(content)] does is taken
    as given: it returns, throws a [ZodError] with its issues, or throws
    something else. *)
Record ZodIssue : Type := mkIssue {
  path : list string;
  issueMessage : string;
}.

Inductive ParseResult : Type :=
| Parsed
| ZodError (issues : list ZodIssue)
| OtherError.

Definition Schemas : Type := ContentTypeKey -> JObject -> ParseResult.

Definition checkPermission (user : AdminUser.t) (permission : PermissionType) : bool :=
  if negb (AdminUser.isActive user) then false
  else hasPermission (AdminUser.role user) permission.

Definition ensurePermission (user : AdminUser.t) (permission : PermissionType) : M unit :=
  if negb (checkPermission user permission)
  then throw (Error ("Insufficient permissions: " ++ Permission.name permission ++ " required"))
  else ret tt.

Definition getContent (docPath : string) : M (option VersionedDocument.t) :=
  VersionManager.getCurrentContent docPath.

Definition validateContentForType (schemas : Schemas) (contentType : string) (content : JObject)
  : M Sanitizer.ValidationResult :=
  match ContentTypeRegistry contentType with
  | None =>
      (* [ContentTypeRegistry[contentType]] is read through the prototype
         chain: a member of [Object.prototype] is truthy and has no
         [schema], so that [typeConfig.schema.parse] throws a [TypeError],
         which is not a [ZodError] *)
      if Js.inherited contentType
      then ret (Sanitizer.mkValidation false ["Unknown validation error"] [])
      else withPatterns (Sanitizer.validateContent content [])
  | Some typeConfig =>
      match schemas typeConfig content with
      | Parsed => ret (Sanitizer.mkValidation true [] [])
      | ZodError issues =>
          ret (Sanitizer.mkValidation false
                 (map (fun e => String.concat "." (path e) ++ ": " ++ issueMessage e) issues) [])
      | OtherError =>
          ret (Sanitizer.mkValidation false ["Unknown validation error"] [])
      end
  end.

Definition sanitizeContentForType (contentType : string) (content : JObject) : M JObject :=
  withPatterns (Sanitizer.sanitizeObject content).

(** The versioned write and the audit entry that follows it: the [try]
    block of [saveContent] and its [catch]. *)
Definition saveAndAudit (docPath contentType : string)
           (previousContent : option JObject) (sanitizedContent : JObject)
           (options : SaveOptions) : M (OperationResult Z) :=
  let u := user options in
  tryCatch
    (result <- VersionManager.saveContent docPath contentType sanitizedContent
                 (VersionManager.mkSaveOptions (AdminUser.id u) (AdminUser.email u)
                    (changeDescription options) (expectedVersion options) (publish options)) ;;
     (if success result && bool_decide (is_Some (data result))
      then AuditLogger.logContentUpdate (AdminUser.id u) (AdminUser.email u) (AdminUser.role u)
             contentType docPath docPath (default [] previousContent) sanitizedContent
             true None ;; ret tt
      else ret tt) ;;
     ret result)
    (fun error =>
       AuditLogger.logContentUpdate (AdminUser.id u) (AdminUser.email u) (AdminUser.role u)
         contentType docPath docPath (default [] previousContent) sanitizedContent
         false (Some (message error)) ;;
       ret (mkResult false None
              (Some (VersionManager.messageOr error "Failed to save content")) (code error))).

(** [ContentService.saveContent(docPath, contentType, content, options)]. *)
Definition saveContent (schemas : Schemas) (docPath contentType : string) (content : JObject)
           (options : SaveOptions) : M (OperationResult Z) :=
  ensurePermission (user options) Permission.CONTENT_UPDATE ;;
  (if publish options
   then ensurePermission (user options) Permission.CONTENT_PUBLISH
   else ret tt) ;;
  previousDoc <- getContent docPath ;;
  let previousContent := previousDoc ≫= VersionedDocument.content in
  invalid <- (if skipValidation options then ret None
              else
                validation <- validateContentForType schemas contentType content ;;
                ret (if Sanitizer.isValid validation then None
                     else Some (Sanitizer.errors validation))) ;;
  match invalid with
  | Some errors =>
      ret (mkResult false None
             (Some ("Validation failed: " ++ String.concat ", " errors))
             (Some "VALIDATION_ERROR"))
  | None =>
      if skipSanitization options then
        saveAndAudit docPath contentType previousContent content options
      else
        sanitizedContent <- sanitizeContentForType contentType content ;;
        dangerous <- withPatterns
                       (Sanitizer.containsDangerousContent (stringify (JObj sanitizedContent))) ;;
        if (dangerous : bool) then
          ret (mkResult false None
                 (Some "Content contains potentially dangerous patterns")
                 (Some "DANGEROUS_CONTENT"))
        else saveAndAudit docPath contentType previousContent sanitizedContent options
  end.

Record DeleteOptions : Type := mkDeleteOptions {
  del_user : AdminUser.t;
  hardDelete : bool;
}.

Record RollbackOptions : Type := mkRollbackOptions {
  rb_user : AdminUser.t;
  targetVersion : Z;
}.

(** [ContentService.rollbackContent(docPath, contentType, options)]. *)
Definition rollbackContent (docPath contentType : string) (options : RollbackOptions)
  : M (OperationResult (Z * Z)) :=
  ensurePermission (rb_user options) Permission.CONTENT_ROLLBACK ;;
  VersionManager.rollbackToVersion docPath contentType
    (VersionManager.mkRollbackOptions (AdminUser.id (rb_user options))
       (AdminUser.email (rb_user options)) (targetVersion options))
    (AdminUser.role (rb_user options)).

(** [obj.key = value] on an object: an existing property keeps its place. *)
Fixpoint setField (key : string) (value : Json) (obj : JObject) : JObject :=
  match obj with
  | [] => [(key, value)]
  | (k, v) :: obj' =>
      if String.eqb k key then (k, value) :: obj' else (k, v) :: setField key value obj'
  end.

(** [{ ...currentDoc.content, _deleted: true }]; spreading [undefined] adds
    nothing. *)
Definition markDeleted (content : option JObject) : JObject :=
  setField "_deleted" (JBool true) (default [] content).

(** [ContentService.deleteContent(docPath, contentType, options)].  The
    result of the versioned write of a soft delete is not looked at. *)
Definition deleteContent (docPath contentType : string) (options : DeleteOptions)
  : M (OperationResult unit) :=
  let u := del_user options in
  ensurePermission u Permission.CONTENT_DELETE ;;
  tryCatch
    (currentDoc <- getContent docPath ;;
     match currentDoc with
     | None => ret (mkResult false None (Some "Content not found") (Some "NOT_FOUND"))
     | Some currentDoc =>
         (if hardDelete options then
            ensurePermission u Permission.ADMIN_DELETE ;;
            Firestore.deleteDoc docPath
          else
            VersionManager.saveContent docPath contentType
              (markDeleted (VersionedDocument.content currentDoc))
              (VersionManager.mkSaveOptions (AdminUser.id u) (AdminUser.email u)
                 (Some "Content archived") None false) ;;
            ret tt) ;;
         AuditLogger.logContentDelete (AdminUser.id u) (AdminUser.email u) (AdminUser.role u)
           contentType docPath docPath (VersionedDocument.content currentDoc) true None ;;
         ret (mkResult true None None None)
     end)
    (fun error =>
       AuditLogger.logContentDelete (AdminUser.id u) (AdminUser.email u) (AdminUser.role u)
         contentType docPath docPath (Some []) false (Some (message error)) ;;
       ret (mkResult false None
              (Some (VersionManager.messageOr error "Failed to delete content")) (code error))).

(** The read-only entry points, each behind [VERSION_READ]. *)
Definition getVersionHistory (docPath : string) (user : AdminUser.t) (limit : nat)
  : M (list ContentVersion.t) :=
  ensurePermission user Permission.VERSION_READ ;;
  VersionManager.getVersionHistory docPath limit.

Definition getVersion (docPath : string) (version : Z) (user : AdminUser.t)
  : M (option ContentVersion.t) :=
  ensurePermission user Permission.VERSION_READ ;;
  VersionManager.getVersion docPath version.

Definition compareVersions (docPath : string) (versionA versionB : Z) (user : AdminUser.t)
  : M (option ContentVersion.t * option ContentVersion.t) :=
  ensurePermission user Permission.VERSION_READ ;;
  VersionManager.compareVersions docPath versionA versionB.

End ContentService.

(* ===================================================================== *)
(** ** The admin role hook: the flags [useAdminRole] derives              *)
(* ===================================================================== *)

Module UseAdminRole.
Import Rbac.

(** The part of [UseAdminRoleResult] that is computed from the admin user
    document ([None] while there is none). *)
Record Flags : Type := mkFlags {
  isAdmin : bool;
  isSuperAdmin : bool;
  isEditor : bool;
  isActive : bool;
  canEditContent : bool;
  canPublishContent : bool;
  canDeleteContent : bool;
  canRollbackContent : bool;
  canManageAdminsFlag : bool;
  canViewAuditLogsFlag : bool;
  canViewVersionHistoryFlag : bool;
  canRestoreVersionsFlag : bool;
}.

(** [adminUser?.role ?? null], read for its truthiness and its value. *)
Definition roleOf (adminUser : option AdminUser.t) : option string :=
  match adminUser with
  | Some u => if (Js.strlen (AdminUser.role u) =? 0)%nat then None else Some (AdminUser.role u)
  | None => None
  end.

(** [adminUser?.isActive ?? false]. *)
Definition activeOf (adminUser : option AdminUser.t) : bool :=
  match adminUser with
  | Some u => AdminUser.isActive u
  | None => false
  end.

(** [checkPermission] of the hook: [if (!role || !isActive) return false]. *)
Definition checkPermission (adminUser : option AdminUser.t) (permission : PermissionType) : bool :=
  match roleOf adminUser with
  | Some role => if activeOf adminUser then hasPermission role permission else false
  | None => false
  end.

(** [role && isActive ? f(role) : false]. *)
Definition whenActive (adminUser : option AdminUser.t) (f : string -> bool) : bool :=
  match roleOf adminUser with
  | Some role => if activeOf adminUser then f role else false
  | None => false
  end.

Definition flags (adminUser : option AdminUser.t) : Flags :=
  let role := roleOf adminUser in
  let active := activeOf adminUser in
  mkFlags
    (bool_decide (is_Some role) && active)
    (bool_decide (role = Some UserRole.SUPER_ADMIN) && active)
    (bool_decide (role = Some UserRole.EDITOR) && active)
    active
    (whenActive adminUser (fun r => canPerformContentAction r ActUpdate))
    (whenActive adminUser (fun r => canPerformContentAction r ActPublish))
    (whenActive adminUser (fun r => canPerformContentAction r ActDelete))
    (whenActive adminUser (fun r => canPerformContentAction r ActRollback))
    (whenActive adminUser canManageAdmins)
    (whenActive adminUser canViewAuditLogs)
    (whenActive adminUser canViewVersionHistory)
    (whenActive adminUser canRestoreVersions).

End UseAdminRole.

(* ===================================================================== *)
(** ** Runs of several saves, and the concrete worlds used as examples    *)
(* ===================================================================== *)

(** One call of [VersionManager.saveContent] after the other on one path. *)
Fixpoint saveAll (docPath contentType : string)
         (calls : list (JObject * VersionManager.SaveContentOptions)) (w : World)
  : list (Outcome (OperationResult Z)) * World :=
  match calls with
  | [] => ([], w)
  | (content, options) :: calls' =>
      let '(r, w1) := VersionManager.saveContent docPath contentType content options w in
      let '(rs, w2) := saveAll docPath contentType calls' w1 in
      (r :: rs, w2)
  end.

(** The outcome of a call that returned a result reporting success. *)
Definition succeeded {T : Type} (r : Outcome (OperationResult T)) : Prop :=
  match r with
  | Ok res => success res = true
  | Throw _ => False
  end.

Definition returned {T : Type} (r : Outcome (OperationResult T)) : option T :=
  match r with
  | Ok res => data res
  | Throw _ => None
  end.

(** The versions 1, 2, ..., n. *)
Definition versionsUpTo (n : nat) : list Z := map Z.of_nat (seq 1 n).

(** Version and content of each snapshot row of a path, oldest first. *)
Definition snapshotsAt (docPath : string) (w : World) : list (Z * option JObject) :=
  map (fun row => (ContentVersion.version (snd row), ContentVersion.contentSnapshot (snd row)))
      (Firestore.rowsAt docPath w).

Definition liveVersion (docPath : string) (w : World) : Z :=
  VersionManager.currentVersionOf (documents w !! docPath).

Definition liveContent (docPath : string) (w : World) : option JObject :=
  documents w !! docPath ≫= VersionedDocument.content.

Definition liveMeta (docPath : string) (w : World) : option Meta.t :=
  documents w !! docPath ≫= VersionedDocument._meta.

(** The last snapshot row written for a path. *)
Definition lastSnapshot (docPath : string) (w : World) : option ContentVersion.t :=
  snd <$> last (Firestore.rowsAt docPath w).

(** Two worlds that differ at most in the console and in the number of
    calls made to the store. *)
Definition quiet (w w' : World) : Prop :=
  env w' = env w /\ clockReads w' = clockReads w /\ idsDrawn w' = idsDrawn w /\
  documents w' = documents w /\ versionRows w' = versionRows w /\
  auditRows w' = auditRows w /\ patterns w' = patterns w.

(** The snapshots that a run of successful saves adds when it starts at
    version [c] with live content [x]: each save sets aside what it
    supersedes. *)
Fixpoint preimages (c : Z) (x : option JObject)
         (calls : list (JObject * VersionManager.SaveContentOptions)) : list (Z * option JObject) :=
  match calls with
  | [] => []
  | (content, _) :: calls' =>
      (match x with
       | Some previous => [(c, Some previous)]
       | None => []
       end ++ preimages (c + 1) (Some content) calls')%list
  end.

(** A string without line breaks. *)
Definition singleLine (s : string) : bool :=
  forallb (fun c => negb ((nat_of_ascii c =? 10)%nat || (nat_of_ascii c =? 13)%nat))
          (list_ascii_of_string s).

(** A string that holds none of the seven characters that open or close
    markup or an attribute: the angle brackets, both quotes, the slash, the
    backtick and the equals sign. *)
Definition markupChars : list nat := [60; 62; 34; 39; 47; 96; 61].

Definition markupFree (s : string) : bool :=
  forallb (fun c => negb (existsb (Nat.eqb (nat_of_ascii c)) markupChars))
          (list_ascii_of_string s).

(** The characters of a string, and a test on all of them. *)
Definition allChars (p : ascii -> bool) (s : string) : bool :=
  forallb p (list_ascii_of_string s).

(** The index of the first character of [l] that satisfies [p], counting
    from [i]. *)
Fixpoint firstHit (p : ascii -> bool) (l : list ascii) (i : nat) : option nat :=
  match l with
  | [] => None
  | c :: l' => if p c then Some i else firstHit p l' (S i)
  end.

(** [n] calls of [containsDangerousContent] on the same input, one after the
    other: the answers, and the state of the patterns at the end. *)
Fixpoint repeatedChecks (n : nat) (input : string) (st : Sanitizer.PatternState)
  : list bool * Sanitizer.PatternState :=
  match n with
  | O => ([], st)
  | S n' =>
      let '(b, st1) := Sanitizer.containsDangerousContent input st in
      let '(bs, st2) := repeatedChecks n' input st1 in
      (b :: bs, st2)
  end.

Module Scenario.

(** A clock that advances by one millisecond per reading, identifiers
    [id0], [id1], ..., a store that never fails, no browser. *)
Definition calm : Env :=
  mkEnv (fun n => 1000 + Z.of_nat n)%Z (fun n => "id" ++ pretty n) (fun _ => None) None.

(** The same, but every call to the store from the [n]-th on fails. *)
Definition failingFrom (n : nat) : Env :=
  mkEnv (fun k => 1000 + Z.of_nat k)%Z (fun k => "id" ++ pretty k)
        (fun k => if (n <=? k)%nat then Some (mkError "store unavailable" (Some "unavailable"))
                  else None)
        None.

Definition emptyWorld (e : Env) : World :=
  mkWorld e 0 0 0 ∅ ∅ [] [] Sanitizer.freshPatterns.

Definition start : World := emptyWorld calm.

Definition U1 : AdminUser.t := AdminUser.mk "U1" "u1@chariotek.test" "admin" true.
Definition U2 : AdminUser.t := AdminUser.mk "U2" "u2@chariotek.test" "admin" true.
Definition anEditor : AdminUser.t := AdminUser.mk "E1" "e1@chariotek.test" "editor" true.

Definition page : string := "pages/home".

Definition titled (t : string) : JObject := [("title", JStr t)].

Definition by_ (u : AdminUser.t) (expected : option Z) : VersionManager.SaveContentOptions :=
  VersionManager.mkSaveOptions (AdminUser.id u) (AdminUser.email u) None expected false.

(** Two saves at a fresh path, the first by U1, the second by U2. *)
Definition twoSaves : list (JObject * VersionManager.SaveContentOptions) :=
  [(titled "Chariotek", by_ U1 None); (titled "Chariotek Studio", by_ U2 (Some 1%Z))].

Definition afterFirst : World :=
  snd (saveAll page "page" [(titled "Chariotek", by_ U1 None)] start).

Definition afterTwo : World := snd (saveAll page "page" twoSaves start).

(** Schemas whose [parse] returns.  The examples save content of the type
    [page], which is no key of the registry: no schema is consulted. *)
Definition accepting : ContentService.Schemas := fun _ _ => ContentService.Parsed.

Definition serviceOptions (u : AdminUser.t) (publish skipValidation : bool)
  : ContentService.SaveOptions :=
  ContentService.mkSaveOptions u None None publish skipValidation false.

(** Content whose only danger is in a property name, which the sanitizer
    does not rewrite. *)
Definition handlerKey : JObject := [("onclick=", JNum 1)].

Definition rollbackTo1 : VersionManager.RollbackOptions :=
  VersionManager.mkRollbackOptions (AdminUser.id U2) (AdminUser.email U2) 1.

(** After the two saves, U2 rolls the page back to version 1. *)
Definition afterRollback : World :=
  snd (VersionManager.rollbackToVersion page "page" rollbackTo1 (AdminUser.role U2) afterTwo).

Definition titleInput : string := "  Hello <script>alert(1)</script> World  ".

End Scenario.

(* ===================================================================== *)
(** * Properties                                                          *)
(* ===================================================================== *)

Local Open Scope nat_scope.

(** ** RBAC *)

Section AccessDecision.
Import Rbac.

Lemma isValidRole_spec (r : string) :
  isValidRole r = true <->
  r = UserRole.SUPER_ADMIN \/ r = UserRole.ADMIN \/ r = UserRole.EDITOR.
Proof.
  unfold isValidRole, UserRole.values. simpl.
  rewrite !orb_true_iff, !String.eqb_eq. intuition discriminate.
Qed.

(** C8. [makeAccessDecision] tests, in this order, that the user is
    present, that the account is active, that the role is valid and that
    the role holds the permission; the first test that fails decides the
    reason, whatever the later ones would give, and access is allowed
    exactly when all four pass. *)
Theorem makeAccessDecision_ordered (user : option AdminUser.t) (p : PermissionType) :
  (user = None ->
     makeAccessDecision user p = mkDecision false (Some "User not authenticated") None) /\
  (forall u, user = Some u -> AdminUser.isActive u = false ->
     makeAccessDecision user p = mkDecision false (Some "User account is deactivated") None) /\
  (forall u, user = Some u -> AdminUser.isActive u = true ->
     isValidRole (AdminUser.role u) = false ->
     makeAccessDecision user p = mkDecision false (Some "Invalid user role") None) /\
  (forall u, user = Some u -> AdminUser.isActive u = true ->
     isValidRole (AdminUser.role u) = true ->
     hasPermission (AdminUser.role u) p = false ->
     makeAccessDecision user p =
       mkDecision false (Some ("Missing required permission: " ++ Permission.name p)%string)
                  (Some p)) /\
  (allowed (makeAccessDecision user p) = true <->
     exists u, user = Some u /\ AdminUser.isActive u = true /\
               isValidRole (AdminUser.role u) = true /\
               hasPermission (AdminUser.role u) p = true).
Proof.
  repeat split.
  - intros ->. reflexivity.
  - intros u -> Hact. unfold makeAccessDecision. rewrite Hact. reflexivity.
  - intros u -> Hact Hrole. unfold makeAccessDecision. rewrite Hact, Hrole. reflexivity.
  - intros u -> Hact Hrole Hperm. unfold makeAccessDecision.
    rewrite Hact, Hrole, Hperm. reflexivity.
  - destruct user as [u|]; [|discriminate].
    unfold makeAccessDecision.
    destruct (AdminUser.isActive u) eqn:Hact; [|discriminate].
    destruct (isValidRole (AdminUser.role u)) eqn:Hrole; [|discriminate].
    destruct (hasPermission (AdminUser.role u) p) eqn:Hperm; [|discriminate].
    intros _. exists u. auto.
  - intros (u & -> & Hact & Hrole & Hperm). unfold makeAccessDecision.
    rewrite Hact, Hrole, Hperm. reflexivity.
Qed.

Lemma makeAccessDecision_ordered_witness :
  makeAccessDecision (Some (AdminUser.mk "E1" "e1@chariotek.test" "root" false))
                     Permission.CONTENT_DELETE
  = mkDecision false (Some "User account is deactivated") None
  /\ makeAccessDecision (Some Scenario.anEditor) Permission.CONTENT_DELETE
     = mkDecision false (Some "Missing required permission: content:delete")
                  (Some Permission.CONTENT_DELETE).
Proof.
  split.
  - apply (proj1 (proj2 (makeAccessDecision_ordered
              (Some (AdminUser.mk "E1" "e1@chariotek.test" "root" false))
              Permission.CONTENT_DELETE)) _ eq_refl eq_refl).
  - apply (proj1 (proj2 (proj2 (proj2 (makeAccessDecision_ordered
              (Some Scenario.anEditor) Permission.CONTENT_DELETE)))) _
             eq_refl eq_refl eq_refl eq_refl).
Defined.

End AccessDecision.

(** ** Sanitizer *)

Section SanitizerFacts.
Import Sanitizer.

Lemma substring_length_le (s : string) : forall n m, String.length (String.substring n m s) <= m.
Proof.
  induction s as [|c s IH]; intros n m.
  - destruct n, m; simpl; lia.
  - destruct n as [|n].
    + destruct m as [|m]; simpl; [lia|]. specialize (IH 0 m). lia.
    + simpl. apply IH.
Qed.

Lemma capLength_le (n : nat) (s : string) : Js.strlen (capLength n s) <= n.
Proof.
  unfold capLength. destruct (n <? Js.strlen s) eqn:E.
  - apply substring_length_le.
  - apply Nat.ltb_ge in E. exact E.
Qed.

(** The text that [removeDangerousContent] returns does not depend on the
    state of the patterns: a global [replace] starts from index 0. *)
Lemma replaceEach_text (ps : list Regex.regex) :
  forall input st st', fst (replaceEach ps input st) = fst (replaceEach ps input st').
Proof.
  induction ps as [|p ps IH]; intros input st st'; simpl; [reflexivity|].
  specialize (IH (Regex.replaceAll p input EmptyString) (tl st) (tl st')).
  destruct (replaceEach ps _ (tl st)), (replaceEach ps _ (tl st')). simpl in *. exact IH.
Qed.

Lemma sanitizeTitle_text (input : string) (st : PatternState) :
  fst (sanitizeTitle input st) = fst (sanitizeTitle input freshPatterns).
Proof.
  unfold sanitizeTitle. destruct (Js.strlen input =? 0); [reflexivity|].
  unfold removeDangerousContent.
  match goal with
  | |- context [replaceEach ?ps ?x st] =>
      pose proof (replaceEach_text ps x st freshPatterns) as H;
      destruct (replaceEach ps x st), (replaceEach ps x freshPatterns)
  end.
  simpl in *. subst. reflexivity.
Qed.

(** C9. On the title of the specification [sanitizeTitle] returns
    [Hello  World]: no [<script], no [javascript:], a single line, and
    none of the characters that [escapeHtml] rewrites is left in it (escaping
    it again changes nothing).  For every input the result has at most
    [ContentLimits.TITLE] = 200 code units. *)
Theorem sanitizeTitle_example_and_cap :
  (forall st,
      let out := fst (sanitizeTitle Scenario.titleInput st) in
      out = "Hello  World"%string /\
      Js.includes "<script" out = false /\
      Js.includes "javascript:" out = false /\
      singleLine out = true /\
      escapeHtml out = out) /\
  (forall input st, Js.strlen (fst (sanitizeTitle input st)) <= 200).
Proof.
  split.
  - intros st out. subst out. rewrite sanitizeTitle_text.
    vm_compute. repeat split; reflexivity.
  - intros input st. unfold sanitizeTitle.
    destruct (Js.strlen input =? 0); [simpl; lia|].
    destruct (removeDangerousContent _ st). simpl.
    apply (capLength_le ContentLimits.TITLE).
Qed.

(** C10 (the code departs from it). [containsDangerousContent] keeps state
    between calls: the patterns carry the flag [g], so a [test] that matches
    leaves [lastIndex] behind the match and the next [test] of the same
    pattern starts there.  Called twice on [javascript:], from freshly
    loaded patterns, it answers [true] and then [false]; and the Content
    Service, given twice the same content whose sanitized form is the same,
    rejects it as [DANGEROUS_CONTENT] the first time and stores it the
    second time. *)
Theorem containsDangerousContent_depends_on_previous_call :
  (let first := containsDangerousContent "javascript:" freshPatterns in
   let second := containsDangerousContent "javascript:" (snd first) in
   fst first = true /\ fst second = false) /\
  (let options := Scenario.serviceOptions Scenario.U1 false true in
   let first := ContentService.saveContent Scenario.accepting Scenario.page "page"
                  Scenario.handlerKey options Scenario.start in
   let second := ContentService.saveContent Scenario.accepting Scenario.page "page"
                   Scenario.handlerKey options (snd first) in
   fst first = Ok (mkResult false None
                     (Some "Content contains potentially dangerous patterns"%string)
                     (Some "DANGEROUS_CONTENT"%string)) /\
   fst second = Ok (mkResult true (Some 1%Z) None None) /\
   liveContent Scenario.page (snd second) = Some Scenario.handlerKey).
Proof.
  split.
  - vm_compute. split; reflexivity.
  - vm_compute. repeat split; reflexivity.
Qed.

End SanitizerFacts.

(** ** Version Manager *)

Ltac run_js :=
  unfold bind, ret, throw, tryCatch, console_log, Date_now, uuidv4,
    Firestore.transaction_get, Firestore.transaction_set, Firestore.call,
    setConsole, setDocuments, setVersionRows, setAuditRows; simpl.

(** Case analysis on the innermost scrutinee of the goal. *)
Ltac split_case :=
  match goal with
  | |- context [match ?x with _ => _ end] =>
      lazymatch x with
      | context [match _ with _ => _ end] => fail
      | _ => destruct x eqn:?; simpl
      end
  end.

Section VersionManagerFacts.
Import VersionManager.

Lemma reportOldVersions_quiet (rows : list (string * ContentVersion.t)) :
  forall w, exists w', reportOldVersions rows w = (Ok tt, w') /\ quiet w w'.
Proof.
  induction rows as [|row rows IH]; intros w; simpl.
  - exists w. unfold quiet. auto 10.
  - run_js.
    match goal with
    | |- context [reportOldVersions rows ?w0] => destruct (IH w0) as (w' & Heq & Hq)
    end.
    exists w'. split; [exact Heq|]. exact Hq.
Qed.

Lemma cleanupQuietly_spec (docPath : string) (w : World) :
  exists w', cleanupQuietly docPath w = (Ok tt, w') /\ quiet w w'.
Proof.
  unfold cleanupQuietly, cleanupOldVersions, Firestore.getVersionDocs.
  run_js. destruct (fault (env w) (storeCalls w)) as [e|]; simpl.
  - eexists. split; [reflexivity|]. unfold quiet. simpl. auto 10.
  - match goal with
    | |- context [if ?b then _ else _] => destruct b
    end.
    + eexists. split; [reflexivity|]. unfold quiet. simpl. auto 10.
    + match goal with
      | |- context [reportOldVersions ?l ?w0] =>
          destruct (reportOldVersions_quiet l w0) as (w' & Heq & Hq)
      end.
      exists w'. rewrite Heq. split; [reflexivity|]. exact Hq.
Qed.

(** C1 (amended). A save whose [expectedVersion] differs from the current
    version of the document (0 when there is none) returns a failure and
    leaves the live documents, the snapshots and the audit log as they
    were.  When the transaction reaches the store, the error is the version
    conflict message, which names the expected and the current version, and
    the result carries no [errorCode]: the thrown [Error] has no [code]. *)
Theorem stale_save_rejected (w : World) (docPath contentType : string) (content : JObject)
        (options : SaveContentOptions) (expected : Z) :
  expectedVersion options = Some expected ->
  expected <> liveVersion docPath w ->
  exists r w',
    saveContent docPath contentType content options w = (Ok r, w') /\
    success r = false /\ data r = None /\
    documents w' = documents w /\ versionRows w' = versionRows w /\
    auditRows w' = auditRows w /\
    (fault (env w) (storeCalls w) = None ->
     error r = Some (conflictMessage expected (liveVersion docPath w)) /\
     errorCode r = None).
Proof.
  intros Hexp Hne.
  unfold saveContent, tryCatch, bind at 1, Firestore.runTransaction, bind at 1, Firestore.call.
  destruct (fault (env w) (storeCalls w)) as [e|] eqn:Hf.
  - run_js. do 2 eexists. split; [reflexivity|]. simpl.
    repeat split; try reflexivity; discriminate.
  - unfold saveTransaction. rewrite Hexp. run_js.
    fold (liveVersion docPath w).
    destruct (liveVersion docPath w =? expected)%Z eqn:E.
    + apply Z.eqb_eq in E. congruence.
    + simpl. do 2 eexists. split; [reflexivity|]. simpl.
      repeat split; reflexivity.
Qed.

Lemma stale_save_rejected_witness :
  exists r w',
    saveContent Scenario.page "page" (Scenario.titled "Third")
                (Scenario.by_ Scenario.U1 (Some 1%Z)) Scenario.afterTwo = (Ok r, w') /\
    success r = false /\ data r = None /\
    documents w' = documents Scenario.afterTwo /\
    versionRows w' = versionRows Scenario.afterTwo /\
    auditRows w' = auditRows Scenario.afterTwo /\
    (fault (env Scenario.afterTwo) (storeCalls Scenario.afterTwo) = None ->
     error r = Some (conflictMessage 1 (liveVersion Scenario.page Scenario.afterTwo)) /\
     errorCode r = None).
Proof.
  apply (stale_save_rejected Scenario.afterTwo Scenario.page "page" (Scenario.titled "Third")
           (Scenario.by_ Scenario.U1 (Some 1%Z)) 1%Z).
  - reflexivity.
  - vm_compute. discriminate.
Defined.

(** C1 as stated fails: the third save of the specification's example, stale
    at [expectedVersion] 1 against version 2, returns a result whose
    [errorCode] is not ['VERSION_CONFLICT']. *)
Lemma stale_save_errorCode_is_not_VERSION_CONFLICT :
  let r := fst (saveContent Scenario.page "page" (Scenario.titled "Third")
                  (Scenario.by_ Scenario.U1 (Some 1%Z)) Scenario.afterTwo) in
  liveVersion Scenario.page Scenario.afterTwo = 2%Z /\
  (exists res, r = Ok res /\ success res = false /\
               errorCode res <> Some "VERSION_CONFLICT"%string).
Proof.
  vm_compute. split; [reflexivity|].
  eexists. split; [reflexivity|]. split; [reflexivity|discriminate].
Qed.

(** What a save that reports success has done: the result carries the
    current version plus one, the live document is the new one, the
    pre-image (if the document had content) is appended to the snapshots,
    and nothing is written to the audit log. *)
Lemma saveContent_success (w : World) (docPath contentType : string) (content : JObject)
      (options : SaveContentOptions) (r : OperationResult Z) (w' : World) :
  saveContent docPath contentType content options w = (Ok r, w') ->
  success r = true ->
  data r = Some (liveVersion docPath w + 1)%Z /\
  documents w' =
    <[docPath := nextDocument (documents w !! docPath) content options
                   (clock (env w) (clockReads w))]> (documents w) /\
  versionRows w' =
    match liveContent docPath w with
    | Some previous =>
        <[docPath := (Firestore.rowsAt docPath w ++
                      [(freshId (env w) (S (idsDrawn w)),
                        ContentVersion.mk (freshId (env w) (idsDrawn w))
                          (liveVersion docPath w) (Some previous)
                          (clock (env w) (S (clockReads w)))
                          (userId options) (userEmail options)
                          (changeDescription options) false None)])%list]>
          (versionRows w)
    | None => versionRows w
    end /\
  auditRows w' = auditRows w /\ env w' = env w /\ patterns w' = patterns w.
Proof.
  intros Hrun Hok. revert Hrun.
  unfold saveContent, Firestore.runTransaction, saveTransaction, createVersionSnapshot,
    Firestore.addVersionDoc, liveContent, liveVersion.
  run_js.
  destruct (fault (env w) (storeCalls w)) as [e|] eqn:Hf; simpl.
  { intros H; inversion H; subst; discriminate. }
  destruct (expectedVersion options) as [expected|];
    [destruct (currentVersionOf (documents w !! docPath) =? expected)%Z; simpl|];
    try (intros H; inversion H; subst; discriminate).
  all: destruct (documents w !! docPath) as [[[previous|] m]|] eqn:Hdoc; simpl.
  all: try destruct (fault (env w) (S (storeCalls w))) as [e|] eqn:Hf2; simpl.
  all: try (intros H; inversion H; subst; discriminate).
  all: match goal with
       | |- context [cleanupQuietly ?p ?w0] =>
           destruct (cleanupQuietly_spec p w0) as (w2 & Hc & Hq); rewrite Hc
       end.
  all: intros H; inversion H; subst; clear H.
  all: destruct Hq as (He & Hcr & Hid & Hd & Hv & Ha & Hp); simpl in *.
  all: rewrite ?Hd, ?Hv, ?Ha, ?He, ?Hp; repeat split; try reflexivity.
Qed.

(** A save always returns a result; it writes nothing to the audit log, and
    the live documents are either untouched or hold the new document at
    the path. *)
Lemma saveContent_returns (w : World) (docPath contentType : string) (content : JObject)
      (options : SaveContentOptions) :
  exists r w',
    saveContent docPath contentType content options w = (Ok r, w') /\
    auditRows w' = auditRows w /\ env w' = env w /\ patterns w' = patterns w /\
    (documents w' = documents w \/
     documents w' =
       <[docPath := nextDocument (documents w !! docPath) content options
                      (clock (env w) (clockReads w))]> (documents w)) /\
    (success r = true -> is_Some (data r) /\ errorCode r = None).
Proof.
  unfold saveContent, Firestore.runTransaction, saveTransaction, createVersionSnapshot,
    Firestore.addVersionDoc.
  run_js.
  destruct (fault (env w) (storeCalls w)) as [e|] eqn:Hf; simpl.
  { do 2 eexists. split; [reflexivity|]. simpl. repeat split; auto; discriminate. }
  destruct (expectedVersion options) as [expected|];
    [destruct (currentVersionOf (documents w !! docPath) =? expected)%Z; simpl|].
  all: destruct (documents w !! docPath) as [[[previous|] m]|] eqn:Hdoc; simpl.
  all: try destruct (fault (env w) (S (storeCalls w))) as [e|] eqn:Hf2; simpl.
  all: try match goal with
       | |- context [cleanupQuietly ?p ?w0] =>
           destruct (cleanupQuietly_spec p w0) as (w2 & Hc & Hq); rewrite Hc;
           destruct Hq as (He & Hcr & Hid & Hd & Hv & Ha & Hp); simpl in *
       end.
  all: do 2 eexists; (split; [reflexivity|]); simpl.
  all: rewrite ?Hd, ?Ha, ?He, ?Hp; repeat split; auto; try discriminate; eauto.
Qed.

Lemma liveVersion_next (w w' : World) (docPath : string) (content : JObject)
      (options : SaveContentOptions) (now : Z) :
  documents w' = <[docPath := nextDocument (documents w !! docPath) content options now]>
                   (documents w) ->
  liveVersion docPath w' = (liveVersion docPath w + 1)%Z /\
  liveContent docPath w' = Some content.
Proof.
  intros H. unfold liveVersion, liveContent. rewrite H, lookup_insert_eq. split; reflexivity.
Qed.

Lemma rowsAt_insert (w w' : World) (docPath : string) (rows : list (string * ContentVersion.t)) :
  versionRows w' = <[docPath := rows]> (versionRows w) ->
  Firestore.rowsAt docPath w' = rows.
Proof.
  intros H. unfold Firestore.rowsAt. rewrite H, lookup_insert_eq. reflexivity.
Qed.

Lemma rowsAt_same (w w' : World) (docPath : string) :
  versionRows w' = versionRows w -> Firestore.rowsAt docPath w' = Firestore.rowsAt docPath w.
Proof. intros H. unfold Firestore.rowsAt. rewrite H. reflexivity. Qed.

(** The effect of a run of successful saves, from any starting point. *)
Lemma saveAll_successes (docPath contentType : string)
      (calls : list (JObject * SaveContentOptions)) :
  forall w,
    Forall succeeded (fst (saveAll docPath contentType calls w)) ->
    let w' := snd (saveAll docPath contentType calls w) in
    map returned (fst (saveAll docPath contentType calls w)) =
      map (fun k => Some (liveVersion docPath w + Z.of_nat k)%Z) (seq 1 (length calls)) /\
    liveVersion docPath w' = (liveVersion docPath w + Z.of_nat (length calls))%Z /\
    snapshotsAt docPath w' =
      (snapshotsAt docPath w ++
       preimages (liveVersion docPath w) (liveContent docPath w) calls)%list /\
    liveContent docPath w' = from_option Some (liveContent docPath w) (fst <$> last calls).
Proof.
  induction calls as [|[content options] calls IH]; intros w Hall; simpl in *.
  - repeat split.
    + lia.
    + rewrite app_nil_r. reflexivity.
  - destruct (saveContent docPath contentType content options w) as [o w1] eqn:Hrun.
    specialize (IH w1).
    destruct (saveAll docPath contentType calls w1) as [rs w2] eqn:Hrest.
    simpl in *. inversion Hall as [|? ? Hfirst Hothers]; subst.
    destruct o as [r|e]; [|contradiction]. simpl in Hfirst.
    destruct (saveContent_success _ _ _ _ _ _ _ Hrun Hfirst)
      as (Hdata & Hdocs & Hrows & _).
    destruct (liveVersion_next _ _ _ _ _ _ Hdocs) as (Hv1 & Hc1).
    destruct (IH Hothers) as (IHret & IHver & IHsnap & IHlast).
    assert (Hsnap1 : snapshotsAt docPath w1 =
                     (snapshotsAt docPath w ++
                      match liveContent docPath w with
                      | Some previous => [(liveVersion docPath w, Some previous)]
                      | None => []
                      end)%list).
    { unfold snapshotsAt. destruct (liveContent docPath w) as [previous|].
      - rewrite (rowsAt_insert _ _ _ _ Hrows), map_app. reflexivity.
      - rewrite (rowsAt_same _ _ _ Hrows), app_nil_r. reflexivity. }
    repeat split.
    + simpl. rewrite Hdata, IHret, Hv1.
      assert (Hhead : (liveVersion docPath w + 1)%Z = (liveVersion docPath w + Z.of_nat 1)%Z)
        by lia.
      rewrite <- Hhead. f_equal.
      rewrite <- (seq_shift (length calls) 1), map_map.
      apply map_ext. intros k. f_equal. lia.
    + rewrite IHver, Hv1. lia.
    + rewrite IHsnap, Hsnap1, Hv1, Hc1, <- app_assoc. reflexivity.
    + rewrite IHlast, Hc1. destruct calls as [|c calls']; [reflexivity|].
      change (last ((content, options) :: c :: calls')) with (last (c :: calls')).
      destruct (last (c :: calls')) eqn:El; [reflexivity|].
      apply last_None in El. discriminate.
Qed.

Lemma preimages_from (calls : list (JObject * SaveContentOptions)) :
  forall (c : Z) (x : JObject),
    preimages c (Some x) calls =
    combine (map (fun k => (c + Z.of_nat k)%Z) (seq 0 (length calls)))
            (Some x :: map (fun call => Some (fst call)) calls).
Proof.
  induction calls as [|[content options] calls IH]; intros c x; [reflexivity|].
  cbn [preimages length seq map combine fst app].
  rewrite IH, <- (seq_shift (length calls) 0), map_map.
  f_equal; [f_equal; lia|].
  f_equal. apply map_ext. intros k. lia.
Qed.

Lemma preimages_fresh (calls : list (JObject * SaveContentOptions)) :
  preimages 0 None calls =
  combine (versionsUpTo (length calls - 1)) (map (fun call => Some (fst call)) calls).
Proof.
  destruct calls as [|[content options] calls]; [reflexivity|].
  cbn [preimages length map fst app]. rewrite preimages_from.
  unfold versionsUpTo.
  replace (S (length calls) - 1) with (length calls) by lia.
  rewrite <- (seq_shift (length calls) 0), map_map.
  f_equal. apply map_ext. intros k. lia.
Qed.

Lemma map_fst_combine {A B : Type} (l : list A) :
  forall (l' : list B), length l <= length l' -> map fst (combine l l') = l.
Proof.
  induction l as [|a l IH]; intros [|b l'] Hlen; simpl in *; try reflexivity; try lia.
  f_equal. apply IH. lia.
Qed.

(** C2. Every save returns; it leaves the stored version of the document
    where it was or raises it by exactly one, and a save that reports
    success raises it by one and returns the new number.  Hence the saves
    of a run in which each reports success, started where no document
    exists, return 1, 2, 3, ... in order, and the document ends at the
    number of saves. *)
Theorem successive_saves_number_versions (docPath contentType : string) :
  (forall (content : JObject) (options : SaveContentOptions) (w : World),
      exists r w',
        saveContent docPath contentType content options w = (Ok r, w') /\
        (liveVersion docPath w' = liveVersion docPath w \/
         liveVersion docPath w' = (liveVersion docPath w + 1)%Z) /\
        (success r = true ->
         data r = Some (liveVersion docPath w + 1)%Z /\
         liveVersion docPath w' = (liveVersion docPath w + 1)%Z)) /\
  (forall (calls : list (JObject * SaveContentOptions)) (w : World),
      documents w !! docPath = None ->
      Forall succeeded (fst (saveAll docPath contentType calls w)) ->
      map returned (fst (saveAll docPath contentType calls w)) =
        map Some (versionsUpTo (length calls)) /\
      liveVersion docPath (snd (saveAll docPath contentType calls w)) =
        Z.of_nat (length calls)).
Proof.
  split.
  - intros content options w.
    destruct (saveContent_returns w docPath contentType content options)
      as (r & w' & Hrun & _ & _ & _ & Hdocs & _).
    exists r, w'. split; [exact Hrun|]. split.
    + destruct Hdocs as [Hsame|Hnew].
      * left. unfold liveVersion. rewrite Hsame. reflexivity.
      * right. apply (liveVersion_next _ _ _ _ _ _ Hnew).
    + intros Hok.
      destruct (saveContent_success _ _ _ _ _ _ _ Hrun Hok) as (Hdata & Hnew & _).
      split; [exact Hdata|]. apply (liveVersion_next _ _ _ _ _ _ Hnew).
  - intros calls w Hfresh Hall.
    destruct (saveAll_successes docPath contentType calls w Hall) as (Hret & Hver & _).
    assert (H0 : liveVersion docPath w = 0%Z).
    { unfold liveVersion. rewrite Hfresh. reflexivity. }
    rewrite H0 in Hret, Hver. split.
    + rewrite Hret. unfold versionsUpTo. rewrite map_map. reflexivity.
    + rewrite Hver. lia.
Qed.

Lemma successive_saves_number_versions_witness :
  map returned (fst (saveAll Scenario.page "page" Scenario.twoSaves Scenario.start)) =
    [Some 1%Z; Some 2%Z] /\
  liveVersion Scenario.page (snd (saveAll Scenario.page "page" Scenario.twoSaves Scenario.start))
    = 2%Z.
Proof.
  apply (proj2 (successive_saves_number_versions Scenario.page "page")
               Scenario.twoSaves Scenario.start).
  - reflexivity.
  - vm_compute. repeat constructor.
Defined.

(** C3. After a run of saves that all report success, started at a path
    with no document and no snapshots, the document is at version N, the
    number of saves, and the snapshot collection holds, in order, exactly
    one row for each of the versions 1, ..., N-1 and none for N; the row for
    version i carries the content of the i-th save.  (One save: no row.
    Two saves: one row, version 1 with the content of the first.) *)
Theorem snapshots_cover_superseded_versions (docPath contentType : string)
        (calls : list (JObject * SaveContentOptions)) (w : World) :
  documents w !! docPath = None ->
  Firestore.rowsAt docPath w = [] ->
  Forall succeeded (fst (saveAll docPath contentType calls w)) ->
  let w' := snd (saveAll docPath contentType calls w) in
  liveVersion docPath w' = Z.of_nat (length calls) /\
  map fst (snapshotsAt docPath w') = versionsUpTo (length calls - 1) /\
  snapshotsAt docPath w' =
    combine (versionsUpTo (length calls - 1)) (map (fun call => Some (fst call)) calls).
Proof.
  intros Hfresh Hrows Hall w'.
  destruct (saveAll_successes docPath contentType calls w Hall) as (_ & Hver & Hsnap & _).
  fold w' in Hver, Hsnap.
  assert (H0 : liveVersion docPath w = 0%Z).
  { unfold liveVersion. rewrite Hfresh. reflexivity. }
  assert (Hc : liveContent docPath w = None).
  { unfold liveContent. rewrite Hfresh. reflexivity. }
  assert (Hs : snapshotsAt docPath w = []).
  { unfold snapshotsAt. rewrite Hrows. reflexivity. }
  rewrite H0, Hc, Hs, preimages_fresh in Hsnap. simpl in Hsnap.
  split; [rewrite Hver, H0; lia|].
  split; [|exact Hsnap].
  rewrite Hsnap. apply map_fst_combine.
  unfold versionsUpTo. rewrite !length_map, length_seq. lia.
Qed.

Lemma snapshots_cover_superseded_versions_witness :
  liveVersion Scenario.page Scenario.afterTwo = 2%Z /\
  map fst (snapshotsAt Scenario.page Scenario.afterTwo) = [1%Z] /\
  snapshotsAt Scenario.page Scenario.afterTwo = [(1%Z, Some (Scenario.titled "Chariotek"))].
Proof.
  apply (snapshots_cover_superseded_versions Scenario.page "page"
           Scenario.twoSaves Scenario.start).
  - reflexivity.
  - reflexivity.
  - vm_compute. repeat constructor.
Defined.

(** C4 (amended). When a save that reports success supersedes a document
    with content, the last row of the snapshot collection is the snapshot
    of the superseded version: it holds the pre-image under the superseded
    version number, and it is attributed to the save that superseded it:
    [createdBy] and [createdByEmail] are the actor of that save,
    [changeDescription] is that save's, and [createdAt] is the clock
    reading taken while the row is built, the one after the reading that
    became [updatedAt] of the new document. *)
Theorem snapshot_attributed_to_superseding_save (w : World) (docPath contentType : string)
        (content : JObject) (options : SaveContentOptions)
        (r : OperationResult Z) (w' : World) (previous : JObject) :
  saveContent docPath contentType content options w = (Ok r, w') ->
  success r = true ->
  liveContent docPath w = Some previous ->
  exists row,
    lastSnapshot docPath w' = Some row /\
    ContentVersion.version row = liveVersion docPath w /\
    ContentVersion.contentSnapshot row = Some previous /\
    ContentVersion.createdBy row = userId options /\
    ContentVersion.createdByEmail row = userEmail options /\
    ContentVersion.changeDescription row = changeDescription options /\
    ContentVersion.isRollback row = false /\
    ContentVersion.createdAt row = clock (env w) (S (clockReads w)) /\
    (Meta.updatedAt <$> liveMeta docPath w') = Some (clock (env w) (clockReads w)) /\
    (Meta.updatedBy <$> liveMeta docPath w') = Some (userId options).
Proof.
  intros Hrun Hok Hprev.
  destruct (saveContent_success _ _ _ _ _ _ _ Hrun Hok) as (_ & Hdocs & Hrows & _).
  rewrite Hprev in Hrows.
  eexists. split.
  - unfold lastSnapshot. rewrite (rowsAt_insert _ _ _ _ Hrows), last_snoc. reflexivity.
  - simpl. repeat split; try reflexivity.
    all: unfold liveMeta; rewrite Hdocs, lookup_insert_eq; reflexivity.
Qed.

Lemma snapshot_attributed_to_superseding_save_witness :
  exists row,
    lastSnapshot Scenario.page Scenario.afterTwo = Some row /\
    ContentVersion.version row = liveVersion Scenario.page Scenario.afterFirst /\
    ContentVersion.contentSnapshot row = Some (Scenario.titled "Chariotek") /\
    ContentVersion.createdBy row = "U2"%string /\
    ContentVersion.createdByEmail row = "u2@chariotek.test"%string /\
    ContentVersion.changeDescription row = None /\
    ContentVersion.isRollback row = false /\
    ContentVersion.createdAt row =
      clock (env Scenario.afterFirst) (S (clockReads Scenario.afterFirst)) /\
    (Meta.updatedAt <$> liveMeta Scenario.page Scenario.afterTwo) =
      Some (clock (env Scenario.afterFirst) (clockReads Scenario.afterFirst)) /\
    (Meta.updatedBy <$> liveMeta Scenario.page Scenario.afterTwo) = Some "U2"%string.
Proof.
  apply (snapshot_attributed_to_superseding_save Scenario.afterFirst Scenario.page "page"
           (Scenario.titled "Chariotek Studio") (Scenario.by_ Scenario.U2 (Some 1%Z))
           (mkResult true (Some 2%Z) None None) Scenario.afterTwo
           (Scenario.titled "Chariotek")).
  - vm_compute. reflexivity.
  - reflexivity.
  - vm_compute. reflexivity.
Defined.

(** C4 as stated fails: U1 writes version 1 at time 1000, U2 supersedes it;
    the snapshot of version 1 names U2 and the time 1002 of its own
    creation, not U1 and the time at which version 1 was written. *)
Lemma snapshot_does_not_name_original_author :
  let before := Scenario.afterFirst in
  let after := Scenario.afterTwo in
  (Meta.updatedBy <$> liveMeta Scenario.page before) = Some "U1"%string /\
  (Meta.createdBy <$> liveMeta Scenario.page before) = Some "U1"%string /\
  (Meta.updatedAt <$> liveMeta Scenario.page before) = Some 1000%Z /\
  (ContentVersion.version <$> lastSnapshot Scenario.page after) = Some 1%Z /\
  (ContentVersion.createdBy <$> lastSnapshot Scenario.page after) = Some "U2"%string /\
  (ContentVersion.createdAt <$> lastSnapshot Scenario.page after) = Some 1002%Z /\
  (ContentVersion.createdBy <$> lastSnapshot Scenario.page after)
    <> (Meta.updatedBy <$> liveMeta Scenario.page before) /\
  (ContentVersion.createdAt <$> lastSnapshot Scenario.page after)
    <> (Meta.updatedAt <$> liveMeta Scenario.page before).
Proof.
  vm_compute. repeat split; try reflexivity; discriminate.
Qed.

(** [AuditLogger.log] always returns.  When the store takes the row, the
    audit log grows by exactly that row; when the append fails, the log is
    unchanged, the answer is the empty string and the console gets a line. *)
Lemma log_spec (input : AuditLogger.AuditLogInput) (w : World) :
  exists docId w',
    AuditLogger.log input w = (Ok docId, w') /\
    env w' = env w /\ documents w' = documents w /\ versionRows w' = versionRows w /\
    patterns w' = patterns w /\ storeCalls w' = S (storeCalls w) /\
    match fault (env w) (storeCalls w) with
    | None =>
        auditRows w' =
          (auditRows w ++
           [(freshId (env w) (S (idsDrawn w)),
             AuditLogger.entryOf input (freshId (env w) (idsDrawn w))
               (clock (env w) (clockReads w)) (navigatorUserAgent (env w)))])%list /\
        console w' = console w
    | Some e =>
        docId = EmptyString /\ auditRows w' = auditRows w /\
        console w' =
          (console w ++ ["[AuditLogger] Failed to write audit log: " ++ message e]%string)%list
    end.
Proof.
  unfold AuditLogger.log, AuditLogger.getClientInfo, Firestore.addAuditDoc. run_js.
  destruct (fault (env w) (storeCalls w)) as [e|]; simpl;
    do 2 eexists; (split; [reflexivity|]); simpl; repeat split; reflexivity.
Qed.

Lemma firstById_In (rows : list (string * ContentVersion.t)) (x : string * ContentVersion.t) :
  firstById rows = Some x -> In x rows.
Proof.
  revert x. induction rows as [|row rows IH]; intros x; simpl; [discriminate|].
  destruct (firstById rows) as [best|].
  - destruct (String.compare (fst row) (fst best)); intros H; inversion H; subst; auto.
  - intros H; inversion H; subst; auto.
Qed.

(** What [getVersion] returns is a stored row of that version, under its
    document id. *)
Lemma getVersion_stored (docPath : string) (v : Z) (w : World) (target : ContentVersion.t) :
  fst (getVersion docPath v w) = Ok (Some target) ->
  ContentVersion.version target = v /\
  exists row,
    In (ContentVersion.versionId target, row) (Firestore.rowsAt docPath w) /\
    ContentVersion.version row = v /\
    ContentVersion.contentSnapshot row = ContentVersion.contentSnapshot target.
Proof.
  unfold getVersion, Firestore.getVersionDocs. run_js.
  destruct (fault (env w) (storeCalls w)); simpl; [discriminate|].
  match goal with
  | |- context [firstById ?l] => destruct (firstById l) as [[docId row]|] eqn:Hfirst
  end; [|discriminate].
  intros H. inversion H; subst; clear H. simpl.
  apply firstById_In in Hfirst. apply filter_In in Hfirst. destruct Hfirst as (Hin & Hv).
  simpl in Hv. apply Z.eqb_eq in Hv.
  split; [exact Hv|]. exists row. repeat split; auto.
Qed.

(** What a rollback that reports success has done. *)
Lemma rollbackToVersion_success (w : World) (docPath contentType : string)
      (options : RollbackOptions) (userRole : string)
      (r : OperationResult (Z * Z)) (w' : World) :
  rollbackToVersion docPath contentType options userRole w = (Ok r, w') ->
  success r = true ->
  exists target doc m,
    fst (getVersion docPath (targetVersion options) w) = Ok (Some target) /\
    documents w !! docPath = Some doc /\ VersionedDocument._meta doc = Some m /\
    data r = Some ((Meta.version m + 1)%Z, targetVersion options) /\
    documents w' =
      <[docPath := VersionedDocument.mk (ContentVersion.contentSnapshot target)
                     (Some (Meta.mk (Meta.version m + 1) (Meta.status m) (Meta.createdAt m)
                              (Meta.createdBy m) (clock (env w) (clockReads w))
                              (rb_userId options)
                              (Meta.publishedAt m) (Meta.publishedBy m)))]> (documents w) /\
    versionRows w' =
      <[docPath := (Firestore.rowsAt docPath w ++
                    [(freshId (env w) (S (idsDrawn w)),
                      ContentVersion.mk (freshId (env w) (idsDrawn w))
                        (Meta.version m) (VersionedDocument.content doc)
                        (clock (env w) (S (clockReads w)))
                        (rb_userId options) (rb_userEmail options)
                        (Some ("Rollback to version " ++ pretty (targetVersion options))%string)
                        true (Some (targetVersion options)))])%list]> (versionRows w).
Proof.
  intros Hrun Hok. revert Hrun.
  unfold rollbackToVersion, getVersion, Firestore.getVersionDocs, Firestore.runTransaction,
    rollbackTransaction, createVersionSnapshot, Firestore.addVersionDoc,
    AuditLogger.logContentRollback.
  run_js.
  destruct (fault (env w) (storeCalls w)) as [e|] eqn:Hf; simpl.
  { intros H; inversion H; subst; discriminate. }
  match goal with
  | |- context [firstById ?l] => destruct (firstById l) as [[docId row]|] eqn:Hfirst
  end; simpl; [|intros H; inversion H; subst; discriminate].
  destruct (fault (env w) (S (storeCalls w))) as [e|] eqn:Hf1; simpl.
  { intros H; inversion H; subst; discriminate. }
  destruct (documents w !! docPath) as [[c [m|]]|] eqn:Hdoc; simpl.
  2,3: intros H; inversion H; subst; discriminate.
  destruct (fault (env w) (S (S (storeCalls w)))) as [e|] eqn:Hf2; simpl.
  { intros H; inversion H; subst; discriminate. }
  match goal with
  | |- context [AuditLogger.log ?i ?w0] =>
      destruct (log_spec i w0) as (logId & w2 & Hlog & He & Hd & Hv & _); rewrite Hlog
  end.
  intros H; inversion H; subst; clear H. simpl in *.
  do 3 eexists. repeat split; try reflexivity.
  - exact Hd.
  - exact Hv.
Qed.

(** C5. A rollback to version v that reports success found a stored
    snapshot for v and a live document at some version c; it returns
    (c+1, v); the live document is then at version c+1 with the content
    of that snapshot; the other [_meta] fields ([status], [createdAt],
    [createdBy], [publishedAt], [publishedBy]) are those of before, while
    [updatedAt]/[updatedBy] are the time and actor of the rollback; and
    the last snapshot row is the pre-rollback content under version c,
    flagged [isRollback] with [rolledBackFrom] = v. *)
Theorem rollback_restores_snapshot (w : World) (docPath contentType : string)
        (options : RollbackOptions) (userRole : string)
        (r : OperationResult (Z * Z)) (w' : World) :
  rollbackToVersion docPath contentType options userRole w = (Ok r, w') ->
  success r = true ->
  let v := targetVersion options in
  let c := liveVersion docPath w in
  exists target before after row,
    fst (getVersion docPath v w) = Ok (Some target) /\
    ContentVersion.version target = v /\
    (exists stored, In (ContentVersion.versionId target, stored) (Firestore.rowsAt docPath w) /\
                    ContentVersion.version stored = v /\
                    ContentVersion.contentSnapshot stored
                    = ContentVersion.contentSnapshot target) /\
    data r = Some ((c + 1)%Z, v) /\
    liveVersion docPath w' = (c + 1)%Z /\
    liveContent docPath w' = ContentVersion.contentSnapshot target /\
    liveMeta docPath w = Some before /\ liveMeta docPath w' = Some after /\
    Meta.status after = Meta.status before /\
    Meta.createdAt after = Meta.createdAt before /\
    Meta.createdBy after = Meta.createdBy before /\
    Meta.publishedAt after = Meta.publishedAt before /\
    Meta.publishedBy after = Meta.publishedBy before /\
    Meta.updatedBy after = rb_userId options /\
    Meta.updatedAt after = clock (env w) (clockReads w) /\
    lastSnapshot docPath w' = Some row /\
    ContentVersion.version row = c /\
    ContentVersion.contentSnapshot row = liveContent docPath w /\
    ContentVersion.isRollback row = true /\
    ContentVersion.rolledBackFrom row = Some v.
Proof.
  intros Hrun Hok v c.
  destruct (rollbackToVersion_success _ _ _ _ _ _ _ Hrun Hok)
    as (target & doc & m & Hget & Hdoc & Hmeta & Hdata & Hdocs & Hrows).
  destruct (getVersion_stored _ _ _ _ Hget) as (Hv & Hstored).
  assert (Hc : c = Meta.version m).
  { subst c. unfold liveVersion. rewrite Hdoc. simpl. rewrite Hmeta. reflexivity. }
  exists target, m. do 2 eexists.
  split; [exact Hget|]. split; [exact Hv|]. split; [exact Hstored|].
  split; [rewrite Hc; exact Hdata|].
  split; [unfold liveVersion; rewrite Hdocs, lookup_insert_eq, Hc; reflexivity|].
  split; [unfold liveContent; rewrite Hdocs, lookup_insert_eq; reflexivity|].
  split; [unfold liveMeta; rewrite Hdoc; exact Hmeta|].
  split; [unfold liveMeta; rewrite Hdocs, lookup_insert_eq; reflexivity|].
  simpl. do 7 (split; [reflexivity|]).
  split; [unfold lastSnapshot; rewrite (rowsAt_insert _ _ _ _ Hrows), last_snoc; reflexivity|].
  simpl. split; [auto|]. split; [|auto].
  unfold liveContent. rewrite Hdoc. reflexivity.
Qed.

Lemma rollback_restores_snapshot_witness :
  exists target before after row,
    fst (getVersion Scenario.page 1 Scenario.afterTwo) = Ok (Some target) /\
    ContentVersion.version target = 1%Z /\
    (exists stored,
        In (ContentVersion.versionId target, stored)
           (Firestore.rowsAt Scenario.page Scenario.afterTwo) /\
        ContentVersion.version stored = 1%Z /\
        ContentVersion.contentSnapshot stored = ContentVersion.contentSnapshot target) /\
    Some (3%Z, 1%Z) = Some ((liveVersion Scenario.page Scenario.afterTwo + 1)%Z, 1%Z) /\
    liveVersion Scenario.page Scenario.afterRollback
      = (liveVersion Scenario.page Scenario.afterTwo + 1)%Z /\
    liveContent Scenario.page Scenario.afterRollback = ContentVersion.contentSnapshot target /\
    liveMeta Scenario.page Scenario.afterTwo = Some before /\
    liveMeta Scenario.page Scenario.afterRollback = Some after /\
    Meta.status after = Meta.status before /\
    Meta.createdAt after = Meta.createdAt before /\
    Meta.createdBy after = Meta.createdBy before /\
    Meta.publishedAt after = Meta.publishedAt before /\
    Meta.publishedBy after = Meta.publishedBy before /\
    Meta.updatedBy after = "U2"%string /\
    Meta.updatedAt after = clock (env Scenario.afterTwo) (clockReads Scenario.afterTwo) /\
    lastSnapshot Scenario.page Scenario.afterRollback = Some row /\
    ContentVersion.version row = liveVersion Scenario.page Scenario.afterTwo /\
    ContentVersion.contentSnapshot row = liveContent Scenario.page Scenario.afterTwo /\
    ContentVersion.isRollback row = true /\
    ContentVersion.rolledBackFrom row = Some 1%Z.
Proof.
  apply (rollback_restores_snapshot Scenario.afterTwo Scenario.page "page"
           Scenario.rollbackTo1 "admin"
           (mkResult true (Some (3%Z, 1%Z)) None None) Scenario.afterRollback).
  - vm_compute. reflexivity.
  - reflexivity.
Defined.

End VersionManagerFacts.

(** ** Content Service and audit log *)

Section ContentServiceFacts.
Import ContentService.
Local Arguments Json.stringify : simpl never.
Variable schemas : Schemas.

(** The [try] block of [saveContent]: the result is that of the versioned
    write, whatever the audit logger meets.  A write that reports success is
    followed by one call of the logger, which is the last call made to
    the store; a write that reports failure is followed by none. *)
Lemma saveAndAudit_spec (docPath contentType : string) (previousContent : option JObject)
      (content : JObject) (options : SaveOptions) (w : World) :
  exists r w1 w',
    VersionManager.saveContent docPath contentType content
      (VersionManager.mkSaveOptions (AdminUser.id (user options)) (AdminUser.email (user options))
         (changeDescription options) (expectedVersion options) (publish options)) w
    = (Ok r, w1) /\
    saveAndAudit docPath contentType previousContent content options w = (Ok r, w') /\
    documents w' = documents w1 /\ versionRows w' = versionRows w1 /\ env w' = env w /\
    (success r = false -> w' = w1 /\ auditRows w' = auditRows w) /\
    (success r = true ->
     storeCalls w' = S (storeCalls w1) /\
     match fault (env w) (storeCalls w1) with
     | None =>
         exists docId entry,
           auditRows w' = (auditRows w ++ [(docId, entry)])%list /\
           AuditLog.success entry = true /\
           AuditLog.action entry = AuditAction.CONTENT_UPDATE /\
           AuditLog.userId entry = AdminUser.id (user options) /\
           AuditLog.resourcePath entry = Some docPath
     | Some e =>
         auditRows w' = auditRows w /\
         console w' =
           (console w1 ++ ["[AuditLogger] Failed to write audit log: " ++ message e]%string)%list
     end).
Proof.
  destruct (saveContent_returns w docPath contentType content
              (VersionManager.mkSaveOptions (AdminUser.id (user options))
                 (AdminUser.email (user options))
                 (changeDescription options) (expectedVersion options) (publish options)))
    as (r & w1 & Hrun & Ha & He & _ & _ & Hdata).
  exists r, w1. unfold saveAndAudit, tryCatch, bind at 1. rewrite Hrun.
  destruct (success r) eqn:Hs.
  - rewrite (bool_decide_eq_true_2 _ (proj1 (Hdata eq_refl))). simpl.
    unfold AuditLogger.logContentUpdate, bind, ret.
    match goal with
    | |- context [AuditLogger.log ?i w1] =>
        destruct (log_spec i w1) as (logId & w2 & Hlog & He2 & Hd & Hv & _ & Hcalls & Hrows);
        rewrite Hlog
    end.
    exists w2. split; [reflexivity|]. split; [reflexivity|].
    split; [exact Hd|]. split; [exact Hv|]. split; [congruence|].
    split; [discriminate|]. intros _. split; [exact Hcalls|].
    rewrite <- He.
    destruct (fault (env w1) (storeCalls w1)) as [e|].
    + destruct Hrows as (_ & Hrows & Hcons). rewrite Ha in Hrows. auto.
    + destruct Hrows as (Hrows & _). rewrite Ha in Hrows.
      do 2 eexists. split; [exact Hrows|]. simpl. auto.
  - simpl. exists w1. unfold ret. repeat split; auto; discriminate.
Qed.

(** The three ways through [ContentService.saveContent]: it throws (the
    permission guard, or the read of the previous document), it rejects the
    content, or it reaches the versioned write.  Nothing before the
    versioned write touches the audit log or the documents. *)
Lemma saveContent_routes (docPath contentType : string) (content : JObject)
      (options : SaveOptions) (w : World) :
  let res := saveContent schemas docPath contentType content options w in
  (exists e, fst res = Throw e /\
             auditRows (snd res) = auditRows w /\ documents (snd res) = documents w) \/
  (exists r, fst res = Ok r /\ success r = false /\
             (errorCode r = Some "VALIDATION_ERROR"%string \/
              errorCode r = Some "DANGEROUS_CONTENT"%string) /\
             auditRows (snd res) = auditRows w /\ documents (snd res) = documents w) \/
  (exists ws previousContent sanitized,
      res = saveAndAudit docPath contentType previousContent sanitized options ws /\
      auditRows ws = auditRows w /\ env ws = env w /\ documents ws = documents w /\
      versionRows ws = versionRows w /\ storeCalls ws = S (storeCalls w)).
Proof.
  unfold saveContent, ensurePermission, getContent, VersionManager.getCurrentContent,
    Firestore.getDoc, validateContentForType, sanitizeContentForType, withPatterns.
  run_js.
  repeat split_case.
  all: first
         [ left; eexists; split; [reflexivity|]; simpl; split; reflexivity
         | right; left; eexists; split; [reflexivity|]; simpl;
           repeat split; auto; fail
         | right; right; do 3 eexists; split; [reflexivity|]; simpl;
           repeat split; reflexivity ].
Qed.

(** C6 (amended). An invocation of [ContentService.saveContent] that is
    stopped by the permission guard (it throws), by validation or by the
    dangerous-content re-check writes no audit entry.  An invocation that
    reports success calls the audit logger exactly once, as its last call
    to the store: the audit log grows by one entry, recording a successful
    [content_update] of the path by the user, unless that append fails, in
    which case it does not grow. *)
Theorem audit_entries_of_saveContent (docPath contentType : string) (content : JObject)
        (options : SaveOptions) (w : World) :
  let res := saveContent schemas docPath contentType content options w in
  let w' := snd res in
  (forall e, fst res = Throw e -> auditRows w' = auditRows w) /\
  (forall r, fst res = Ok r ->
             errorCode r = Some "VALIDATION_ERROR"%string \/
             errorCode r = Some "DANGEROUS_CONTENT"%string ->
             auditRows w' = auditRows w) /\
  (forall r, fst res = Ok r -> success r = true ->
     exists entries,
       auditRows w' = (auditRows w ++ entries)%list /\
       length entries <= 1 /\
       Forall (fun e => AuditLog.success (snd e) = true /\
                        AuditLog.action (snd e) = AuditAction.CONTENT_UPDATE /\
                        AuditLog.resourcePath (snd e) = Some docPath /\
                        AuditLog.userId (snd e) = AdminUser.id (user options)) entries /\
       (fault (env w) (pred (storeCalls w')) = None -> length entries = 1)).
Proof.
  intros res w'. subst w'.
  destruct (saveContent_routes docPath contentType content options w)
    as [(e & Hres & Ha & _) | [(r & Hres & Hs & Hcode & Ha & _)
                              | (ws & prev & c & Hres & Ha & He & _)]];
    fold res in Hres, Ha.
  - repeat split.
    + intros _ _. exact Ha.
    + intros r Hr. congruence.
    + intros r Hr. congruence.
  - repeat split.
    + intros e He. congruence.
    + intros _ _ _. exact Ha.
    + intros r' Hr Hok. congruence.
  - destruct (saveAndAudit_spec docPath contentType prev c options ws)
      as (r & w1 & w2 & Hvm & Hrun & _ & _ & _ & Hfail & Hgood).
    rewrite Hres, Hrun. simpl.
    destruct (saveContent_returns ws docPath contentType c
                (VersionManager.mkSaveOptions (AdminUser.id (user options))
                   (AdminUser.email (user options))
                   (changeDescription options) (expectedVersion options) (publish options)))
      as (r0 & w0 & Hvm0 & _ & _ & _ & _ & Hok0).
    rewrite Hvm in Hvm0. inversion Hvm0; subst r0 w0; clear Hvm0.
    repeat split.
    + intros e He'. discriminate.
    + intros r' Hr Hcode. inversion Hr; subst r'; clear Hr.
      destruct (success r) eqn:Hs.
      * destruct (Hok0 eq_refl) as (_ & Hnone). rewrite Hnone in Hcode.
        destruct Hcode; discriminate.
      * destruct (Hfail eq_refl) as (_ & Hsame). congruence.
    + intros r' Hr Hok. inversion Hr; subst r'; clear Hr.
      destruct (Hgood Hok) as (Hcalls & Hrows).
      rewrite Hcalls. simpl. rewrite <- He.
      destruct (fault (env ws) (storeCalls w1)) as [e|].
      * destruct Hrows as (Hsame & _). exists []. rewrite app_nil_r.
        repeat split; auto; try congruence; try discriminate.
      * destruct Hrows as (docId & entry & Hrows & Hs & Hact & Hu & Hp).
        exists [(docId, entry)]. rewrite Hrows, Ha.
        repeat split; auto.
Qed.

(** C7. [AuditLogger.log] never throws: it always returns, and when the
    append to the audit collection fails it returns the empty string, leaves
    the audit log, the documents and the snapshots as they were and writes
    one line to the console.  Consequently, when the versioned write of
    [saveContent] has reported success, the [try] block of the Content
    Service returns that very result, with the documents and snapshots the
    write left, whether or not the store takes the audit entry. *)
Theorem audit_failure_never_propagates :
  (forall (input : AuditLogger.AuditLogInput) (w : World),
      exists docId w',
        AuditLogger.log input w = (Ok docId, w') /\
        documents w' = documents w /\ versionRows w' = versionRows w /\
        (forall e, fault (env w) (storeCalls w) = Some e ->
                   docId = EmptyString /\ auditRows w' = auditRows w /\
                   console w' =
                     (console w ++
                      ["[AuditLogger] Failed to write audit log: " ++ message e]%string)%list)) /\
  (forall (docPath contentType : string) (previousContent : option JObject)
          (content : JObject) (options : SaveOptions) (w : World)
          (r : OperationResult Z) (w1 : World),
      VersionManager.saveContent docPath contentType content
        (VersionManager.mkSaveOptions (AdminUser.id (user options))
           (AdminUser.email (user options))
           (changeDescription options) (expectedVersion options) (publish options)) w
      = (Ok r, w1) ->
      success r = true ->
      exists w',
        saveAndAudit docPath contentType previousContent content options w = (Ok r, w') /\
        documents w' = documents w1 /\ versionRows w' = versionRows w1).
Proof.
  split.
  - intros input w.
    destruct (log_spec input w) as (docId & w' & Hlog & _ & Hd & Hv & _ & _ & Hrows).
    exists docId, w'. split; [exact Hlog|]. split; [exact Hd|]. split; [exact Hv|].
    intros e He. rewrite He in Hrows. exact Hrows.
  - intros docPath contentType prev content options w r w1 Hvm Hok.
    destruct (saveAndAudit_spec docPath contentType prev content options w)
      as (r' & w1' & w' & Hvm' & Hrun & Hd & Hv & _).
    rewrite Hvm in Hvm'. inversion Hvm'; subst r' w1'.
    exists w'. auto.
Qed.

End ContentServiceFacts.

Section ContentServiceExamples.
Import ContentService.

Lemma audit_entries_of_saveContent_witness :
  exists entries,
    auditRows (snd (saveContent Scenario.accepting Scenario.page "page"
                      (Scenario.titled "Chariotek")
                      (Scenario.serviceOptions Scenario.U1 false false) Scenario.start))
    = (auditRows Scenario.start ++ entries)%list /\
    length entries <= 1 /\
    Forall (fun e => AuditLog.success (snd e) = true /\
                     AuditLog.action (snd e) = AuditAction.CONTENT_UPDATE /\
                     AuditLog.resourcePath (snd e) = Some Scenario.page /\
                     AuditLog.userId (snd e) = "U1"%string) entries /\
    (fault (env Scenario.start)
           (pred (storeCalls (snd (saveContent Scenario.accepting Scenario.page "page"
                                     (Scenario.titled "Chariotek")
                                     (Scenario.serviceOptions Scenario.U1 false false)
                                     Scenario.start)))) = None ->
     length entries = 1).
Proof.
  apply (proj2 (proj2 (audit_entries_of_saveContent Scenario.accepting Scenario.page "page"
                         (Scenario.titled "Chariotek")
                         (Scenario.serviceOptions Scenario.U1 false false) Scenario.start))
               (mkResult true (Some 1%Z) None None)).
  - vm_compute. reflexivity.
  - reflexivity.
Defined.

(** C6 as stated fails, whatever the schemas are.  Content that the
    re-check after sanitization flags is answered with [DANGEROUS_CONTENT],
    and an editor who asks to publish is stopped by the permission guard:
    in both runs, which start from an empty audit log, the log has no entry
    for the attempt. *)
Lemma stopped_saves_leave_no_audit_entry :
  (forall schemas : Schemas,
      let res := saveContent schemas Scenario.page "page" Scenario.handlerKey
                   (Scenario.serviceOptions Scenario.U1 false true) Scenario.start in
      fst res = Ok (mkResult false None
                      (Some "Content contains potentially dangerous patterns"%string)
                      (Some "DANGEROUS_CONTENT"%string)) /\
      auditRows (snd res) = []) /\
  (forall schemas : Schemas,
      let res := saveContent schemas Scenario.page "hero" (Scenario.titled "Chariotek")
                   (Scenario.serviceOptions Scenario.anEditor true false) Scenario.start in
      fst res = Throw (Error "Insufficient permissions: content:publish required") /\
      auditRows (snd res) = []) /\
  auditRows Scenario.start = [].
Proof.
  split; [|split].
  - intros schemas. vm_compute. split; reflexivity.
  - intros schemas. vm_compute. split; reflexivity.
  - reflexivity.
Qed.

(** The store fails from its third call on, which is the append to the
    audit log ([runTransaction] and the query of the clean-up come first):
    the [try] block still returns the successful result of the write. *)
Lemma audit_failure_never_propagates_witness :
  let w := Scenario.emptyWorld (Scenario.failingFrom 2) in
  let options := Scenario.serviceOptions Scenario.U1 false true in
  let vm := VersionManager.saveContent Scenario.page "page" (Scenario.titled "Chariotek")
              (VersionManager.mkSaveOptions "U1" "u1@chariotek.test" None None false) w in
  exists w',
    saveAndAudit Scenario.page "page" None (Scenario.titled "Chariotek") options w
    = (Ok (mkResult true (Some 1%Z) None None), w') /\
    documents w' = documents (snd vm) /\ versionRows w' = versionRows (snd vm).
Proof.
  apply (proj2 audit_failure_never_propagates Scenario.page "page" None
           (Scenario.titled "Chariotek") (Scenario.serviceOptions Scenario.U1 false true)
           (Scenario.emptyWorld (Scenario.failingFrom 2))).
  - vm_compute. reflexivity.
  - reflexivity.
Defined.

(** The same through the whole of [ContentService.saveContent], where the
    read of the previous document comes first and the append to the audit
    log is the fourth call: the save reports version 1, the page is
    stored, the audit log stays empty and the console carries the warning. *)
Example save_succeeds_while_audit_store_is_down :
  let res := saveContent Scenario.accepting Scenario.page "page" (Scenario.titled "Chariotek")
               (Scenario.serviceOptions Scenario.U1 false false)
               (Scenario.emptyWorld (Scenario.failingFrom 3)) in
  fst res = Ok (mkResult true (Some 1%Z) None None) /\
  liveContent Scenario.page (snd res) = Some (Scenario.titled "Chariotek") /\
  auditRows (snd res) = [] /\
  console (snd res) = ["[AuditLogger] Failed to write audit log: store unavailable"%string].
Proof.
  vm_compute. repeat split; reflexivity.
Qed.

End ContentServiceExamples.

(* ===================================================================== *)
(** * Further properties of the modelled code                             *)
(* ===================================================================== *)

(** ** RBAC: the permission table and the role hierarchy *)

Section RbacFacts.
Import Rbac.

Lemma RoleHierarchy_Some (r : string) (n : nat) :
  RoleHierarchy r = Some n ->
  (r = UserRole.EDITOR /\ n = 1) \/ (r = UserRole.ADMIN /\ n = 2) \/
  (r = UserRole.SUPER_ADMIN /\ n = 3).
Proof.
  unfold RoleHierarchy.
  destruct (String.eqb r UserRole.EDITOR) eqn:E1.
  { apply String.eqb_eq in E1. intros H; inversion H; auto. }
  destruct (String.eqb r UserRole.ADMIN) eqn:E2.
  { apply String.eqb_eq in E2. intros H; inversion H; auto. }
  destruct (String.eqb r UserRole.SUPER_ADMIN) eqn:E3; [|discriminate].
  apply String.eqb_eq in E3. intros H; inversion H; auto.
Qed.

Lemma RolePermissions_Some (r : string) (ps : list PermissionType) :
  RolePermissions r = Some ps ->
  r = UserRole.SUPER_ADMIN \/ r = UserRole.ADMIN \/ r = UserRole.EDITOR.
Proof.
  unfold RolePermissions.
  destruct (String.eqb r UserRole.SUPER_ADMIN) eqn:E1.
  { apply String.eqb_eq in E1. auto. }
  destruct (String.eqb r UserRole.ADMIN) eqn:E2.
  { apply String.eqb_eq in E2. auto. }
  destruct (String.eqb r UserRole.EDITOR) eqn:E3; [|discriminate].
  apply String.eqb_eq in E3. auto.
Qed.

Lemma hasPermission_known (r : string) (p : PermissionType) :
  hasPermission r p = true ->
  r = UserRole.SUPER_ADMIN \/ r = UserRole.ADMIN \/ r = UserRole.EDITOR.
Proof.
  unfold hasPermission. destruct (RolePermissions r) as [ps|] eqn:E; [|discriminate].
  intros _. exact (RolePermissions_Some r ps E).
Qed.

Lemma hasPermission_monotone (r1 r2 : string) (p : PermissionType) :
  isRoleAtLeast r1 r2 = true -> hasPermission r2 p = true -> hasPermission r1 p = true.
Proof.
  unfold isRoleAtLeast.
  destruct (RoleHierarchy r1) as [n1|] eqn:H1; [|discriminate].
  destruct (RoleHierarchy r2) as [n2|] eqn:H2; [|discriminate].
  apply RoleHierarchy_Some in H1, H2.
  destruct H1 as [[-> ->]|[[-> ->]|[-> ->]]], H2 as [[-> ->]|[[-> ->]|[-> ->]]];
    simpl; try discriminate; intros _; destruct p; vm_compute; congruence.
Qed.

Lemma hasPermission_invalid (r : string) (p : PermissionType) :
  isValidRole r = false -> Js.inherited r = false -> hasPermission r p = false.
Proof.
  intros Hr _. destruct (hasPermission r p) eqn:E; [|reflexivity].
  apply hasPermission_known, isValidRole_spec in E. congruence.
Qed.

(** X1. [hasPermission]: the super administrator holds every permission; a
    role that is neither a key of the table nor the name of a member of
    [Object.prototype] holds none (the lookup is [undefined]); and a role
    that holds a permission is always one of the three of the table. *)
Theorem hasPermission_table_bounds :
  (forall p, hasPermission UserRole.SUPER_ADMIN p = true) /\
  (forall r p, isValidRole r = false -> Js.inherited r = false -> hasPermission r p = false) /\
  (forall r p, hasPermission r p = true -> isValidRole r = true /\ Js.inherited r = false).
Proof.
  split; [intros p; destruct p; reflexivity|].
  assert (H : forall r p, hasPermission r p = true -> isValidRole r = true).
  { intros r p Hp. apply isValidRole_spec. exact (hasPermission_known r p Hp). }
  split.
  - intros r p Hr Hi. destruct (hasPermission r p) eqn:E; [|reflexivity].
    rewrite (H r p E) in Hr. discriminate.
  - intros r p Hp. split; [exact (H r p Hp)|].
    destruct (hasPermission_known r p Hp) as [->|[->| ->]]; reflexivity.
Qed.

Lemma hasPermission_table_bounds_witness :
  hasPermission "owner" Permission.CONTENT_READ = false /\
  (isValidRole "editor" = true /\ Js.inherited "editor" = false).
Proof.
  split.
  - apply (proj1 (proj2 hasPermission_table_bounds) "owner"%string Permission.CONTENT_READ);
      reflexivity.
  - apply (proj2 (proj2 hasPermission_table_bounds) "editor"%string Permission.CONTENT_READ).
    reflexivity.
Defined.

(** X2. The table is monotone in the hierarchy: a role that is at least
    another role holds every permission the other holds. *)
Theorem permissions_grow_with_role (r1 r2 : string) (p : PermissionType) :
  isRoleAtLeast r1 r2 = true -> hasPermission r2 p = true -> hasPermission r1 p = true.
Proof.
  unfold isRoleAtLeast.
  destruct (RoleHierarchy r1) as [n1|] eqn:H1; [|discriminate].
  destruct (RoleHierarchy r2) as [n2|] eqn:H2; [|discriminate].
  apply RoleHierarchy_Some in H1, H2.
  destruct H1 as [[-> ->]|[[-> ->]|[-> ->]]], H2 as [[-> ->]|[[-> ->]|[-> ->]]];
    simpl; try discriminate; intros _; destruct p; vm_compute; congruence.
Qed.

Lemma permissions_grow_with_role_witness :
  hasPermission "admin" Permission.CONTENT_UPDATE = true.
Proof.
  apply (permissions_grow_with_role "admin" "editor" Permission.CONTENT_UPDATE);
    reflexivity.
Defined.

(** X3. [isRoleAtLeast] orders the three roles totally: it is reflexive on
    them, transitive, and any two of them are comparable.  When at least
    one side is not the name of a member of [Object.prototype], two roles
    that are at least each other are the same role, and the comparison is
    true only between roles of the table: against [undefined] it is false.
    (Two names of members of [Object.prototype] are compared through the
    members themselves, as strings; nothing is said of that case.) *)
Theorem isRoleAtLeast_total_order :
  (forall r, isValidRole r = true -> isRoleAtLeast r r = true) /\
  (forall a b c, isRoleAtLeast a b = true -> isRoleAtLeast b c = true ->
                 isRoleAtLeast a c = true) /\
  (forall a b, isValidRole a = true -> isValidRole b = true ->
               isRoleAtLeast a b = true \/ isRoleAtLeast b a = true) /\
  (forall a b, Js.inherited a = false \/ Js.inherited b = false ->
               isRoleAtLeast a b = true -> isRoleAtLeast b a = true -> a = b) /\
  (forall a b, Js.inherited a = false \/ Js.inherited b = false ->
               isRoleAtLeast a b = true -> isValidRole a = true /\ isValidRole b = true).
Proof.
  split; [|split; [|split; [|split]]].
  - intros r Hr. apply isValidRole_spec in Hr.
    destruct Hr as [->|[->| ->]]; reflexivity.
  - intros a b c. unfold isRoleAtLeast.
    destruct (RoleHierarchy a), (RoleHierarchy b), (RoleHierarchy c); try discriminate.
    rewrite !Nat.leb_le. lia.
  - intros a b Ha Hb. apply isValidRole_spec in Ha, Hb.
    destruct Ha as [->|[->| ->]], Hb as [->|[->| ->]]; vm_compute; auto.
  - intros a b _. unfold isRoleAtLeast.
    destruct (RoleHierarchy a) as [n|] eqn:Ha; [|discriminate].
    destruct (RoleHierarchy b) as [m|] eqn:Hb; [|discriminate].
    apply RoleHierarchy_Some in Ha, Hb. rewrite !Nat.leb_le. intros H1 H2.
    destruct Ha as [[-> ->]|[[-> ->]|[-> ->]]], Hb as [[-> ->]|[[-> ->]|[-> ->]]];
      try reflexivity; lia.
  - intros a b _ H. unfold isRoleAtLeast in H.
    destruct (RoleHierarchy a) as [n|] eqn:Ha; [|discriminate].
    destruct (RoleHierarchy b) as [m|] eqn:Hb; [|discriminate].
    apply RoleHierarchy_Some in Ha, Hb. split; apply isValidRole_spec; tauto.
Qed.

Lemma isRoleAtLeast_total_order_witness :
  isRoleAtLeast "super_admin" "editor" = true /\
  (isValidRole "admin" = true /\ isValidRole "editor" = true).
Proof.
  split.
  - apply (proj1 (proj2 isRoleAtLeast_total_order) "super_admin"%string "admin"%string
             "editor"%string); reflexivity.
  - apply (proj2 (proj2 (proj2 (proj2 isRoleAtLeast_total_order)))
             "admin"%string "editor"%string).
    + left. reflexivity.
    + reflexivity.
Defined.

(** X4. [canManageRole]: the super administrator manages every target,
    whatever string it is; an editor manages none; and a manager that is
    not the super administrator manages only roles strictly below its
    own. *)
Theorem canManageRole_only_downwards :
  (forall t, canManageRole UserRole.SUPER_ADMIN t = true) /\
  (forall t, canManageRole UserRole.EDITOR t = false) /\
  (forall m t, canManageRole m t = true -> m <> UserRole.SUPER_ADMIN ->
               isRoleAtLeast m t = true /\ isRoleAtLeast t m = false).
Proof.
  repeat split.
  - revert H. unfold canManageRole.
    destruct (String.eqb m UserRole.SUPER_ADMIN) eqn:E1.
    { apply String.eqb_eq in E1. congruence. }
    destruct (String.eqb m UserRole.ADMIN) eqn:E2; [|discriminate].
    apply String.eqb_eq in E2. rewrite String.eqb_eq. intros ->. subst m. reflexivity.
  - revert H. unfold canManageRole.
    destruct (String.eqb m UserRole.SUPER_ADMIN) eqn:E1.
    { apply String.eqb_eq in E1. congruence. }
    destruct (String.eqb m UserRole.ADMIN) eqn:E2; [|discriminate].
    apply String.eqb_eq in E2. rewrite String.eqb_eq. intros ->. subst m. reflexivity.
Qed.

Lemma canManageRole_only_downwards_witness :
  isRoleAtLeast "admin" "editor" = true /\ isRoleAtLeast "editor" "admin" = false.
Proof.
  apply (proj2 (proj2 canManageRole_only_downwards) "admin"%string "editor"%string).
  - reflexivity.
  - discriminate.
Defined.

(** X5. Who may do what, role by role.  Managing administrators is the
    super administrator's alone; the audit log, restoring versions and
    deleting, publishing and rolling back content are for the administrator
    and the super administrator; reading, creating and updating content and
    reading the version history are for every role of the table and for
    nobody else. *)
Theorem shortcuts_by_role (r : string) :
  (canManageAdmins r = true <-> r = UserRole.SUPER_ADMIN) /\
  (canViewAuditLogs r = true <-> r = UserRole.SUPER_ADMIN \/ r = UserRole.ADMIN) /\
  (canRestoreVersions r = true <-> r = UserRole.SUPER_ADMIN \/ r = UserRole.ADMIN) /\
  (canViewVersionHistory r = true <-> isValidRole r = true) /\
  (forall a, canPerformContentAction r a = true <->
             r = UserRole.SUPER_ADMIN \/ r = UserRole.ADMIN \/
             (r = UserRole.EDITOR /\ (a = ActRead \/ a = ActCreate \/ a = ActUpdate))).
Proof.
  assert (Hknown : forall p, hasPermission r p = true ->
                             r = UserRole.SUPER_ADMIN \/ r = UserRole.ADMIN \/ r = UserRole.EDITOR)
    by (intros p; apply hasPermission_known).
  repeat split.
  - unfold canManageAdmins. rewrite !orb_true_iff.
    intros [[H|H]|H]; destruct (Hknown _ H) as [->|[->| ->]]; auto; discriminate.
  - intros ->. reflexivity.
  - unfold canViewAuditLogs. intros H.
    destruct (Hknown _ H) as [->|[->| ->]]; auto; discriminate.
  - intros [->| ->]; reflexivity.
  - unfold canRestoreVersions. intros H.
    destruct (Hknown _ H) as [->|[->| ->]]; auto; discriminate.
  - intros [->| ->]; reflexivity.
  - unfold canViewVersionHistory. intros H. apply isValidRole_spec. exact (Hknown _ H).
  - intros H. apply isValidRole_spec in H. destruct H as [->|[->| ->]]; reflexivity.
  - unfold canPerformContentAction. intros H.
    destruct (Hknown _ H) as [->|[->| ->]]; auto.
    right. right. split; [reflexivity|]. destruct a; auto; discriminate.
  - intros [->|[->|[-> [->|[->| ->]]]]]; try reflexivity; destruct a; reflexivity.
Qed.

(** X6. A guard made by [createPermissionGuard] refuses an absent or empty
    role, admits the super administrator whatever it requires, and, once it
    admits a role, admits every role at least as high. *)
Theorem createPermissionGuard_monotone (required : list PermissionType) :
  createPermissionGuard required None = false /\
  createPermissionGuard required (Some EmptyString) = false /\
  createPermissionGuard required (Some UserRole.SUPER_ADMIN) = true /\
  (forall r1 r2, createPermissionGuard required (Some r2) = true ->
                 isRoleAtLeast r1 r2 = true ->
                 createPermissionGuard required (Some r1) = true).
Proof.
  repeat split.
  - unfold createPermissionGuard, hasAllPermissions. simpl.
    apply forallb_forall. intros p _. destruct p; reflexivity.
  - intros r1 r2 Hguard Hle. unfold createPermissionGuard in *.
    assert (Hr1 : (Js.strlen r1 =? 0) = false).
    { unfold isRoleAtLeast in Hle.
      destruct (RoleHierarchy r1) as [n|] eqn:H1; [|discriminate].
      apply RoleHierarchy_Some in H1. destruct H1 as [[-> _]|[[-> _]|[-> _]]]; reflexivity. }
    rewrite Hr1. destruct (Js.strlen r2 =? 0); [discriminate|].
    unfold hasAllPermissions in *. rewrite forallb_forall in *.
    intros p Hp. apply (hasPermission_monotone r1 r2 p Hle). apply Hguard. exact Hp.
Qed.

Lemma createPermissionGuard_monotone_witness :
  createPermissionGuard [Permission.CONTENT_READ; Permission.VERSION_READ] (Some "admin"%string)
  = true.
Proof.
  apply (proj2 (proj2 (proj2 (createPermissionGuard_monotone
            [Permission.CONTENT_READ; Permission.VERSION_READ]))) "admin"%string "editor"%string);
    reflexivity.
Defined.

(** X7. The guard of the Content Service and [makeAccessDecision] agree
    for every user who is inactive or whose role is not the name of a
    member of [Object.prototype]: [checkPermission] holds exactly when the
    decision for the same user and permission is [allowed], and
    [ensurePermission] then returns without touching anything; otherwise it
    throws the message naming the permission, again without touching
    anything.  (For an active user with such a name as role the decision
    is a refusal, while the guard's lookup in [RolePermissions] throws.) *)
Theorem service_guard_agrees_with_decision (u : AdminUser.t) (p : PermissionType) (w : World) :
  (AdminUser.isActive u = true -> Js.inherited (AdminUser.role u) = false) ->
  ContentService.checkPermission u p = allowed (makeAccessDecision (Some u) p) /\
  ContentService.ensurePermission u p w =
    if allowed (makeAccessDecision (Some u) p) then (Ok tt, w)
    else (Throw (Error ("Insufficient permissions: " ++ Permission.name p ++ " required")%string),
          w).
Proof.
  intros Hdomain.
  assert (H : ContentService.checkPermission u p = allowed (makeAccessDecision (Some u) p)).
  { unfold ContentService.checkPermission, makeAccessDecision.
    destruct (AdminUser.isActive u); simpl; [|reflexivity].
    destruct (isValidRole (AdminUser.role u)) eqn:Hv; simpl.
    - destruct (hasPermission (AdminUser.role u) p); reflexivity.
    - apply hasPermission_invalid; [exact Hv|exact (Hdomain eq_refl)]. }
  split; [exact H|].
  unfold ContentService.ensurePermission. rewrite H.
  destruct (allowed (makeAccessDecision (Some u) p)); reflexivity.
Qed.

Lemma service_guard_agrees_with_decision_witness :
  (ContentService.checkPermission Scenario.anEditor Permission.CONTENT_PUBLISH = false /\
   ContentService.ensurePermission Scenario.anEditor Permission.CONTENT_PUBLISH Scenario.start =
     (Throw (Error "Insufficient permissions: content:publish required"), Scenario.start)) /\
  (ContentService.checkPermission (AdminUser.mk "X" "x@chariotek.test" "owner" true)
     Permission.CONTENT_READ = false) /\
  (ContentService.checkPermission Scenario.U1 Permission.CONTENT_PUBLISH = true /\
   ContentService.ensurePermission Scenario.U1 Permission.CONTENT_PUBLISH Scenario.start =
     (Ok tt, Scenario.start)).
Proof.
  split; [|split].
  - apply (service_guard_agrees_with_decision Scenario.anEditor Permission.CONTENT_PUBLISH
             Scenario.start).
    intros _. reflexivity.
  - apply (proj1 (service_guard_agrees_with_decision
                    (AdminUser.mk "X" "x@chariotek.test" "owner" true)
                    Permission.CONTENT_READ Scenario.start (fun _ => eq_refl))).
  - apply (service_guard_agrees_with_decision Scenario.U1 Permission.CONTENT_PUBLISH
             Scenario.start).
    intros _. reflexivity.
Defined.

(** X8. The flags the admin role hook hands to the pages agree with what
    the Content Service enforces: for a loaded admin user each of
    [canEditContent], [canPublishContent], [canDeleteContent] and
    [canRollbackContent] is the service's [checkPermission] for the matching
    permission, the hook's own [checkPermission] is the service's, and with
    no admin user every flag is off. *)
Theorem hook_flags_agree_with_service (u : AdminUser.t) :
  let f := UseAdminRole.flags (Some u) in
  UseAdminRole.canEditContent f = ContentService.checkPermission u Permission.CONTENT_UPDATE /\
  UseAdminRole.canPublishContent f = ContentService.checkPermission u Permission.CONTENT_PUBLISH /\
  UseAdminRole.canDeleteContent f = ContentService.checkPermission u Permission.CONTENT_DELETE /\
  UseAdminRole.canRollbackContent f
    = ContentService.checkPermission u Permission.CONTENT_ROLLBACK /\
  (forall p, UseAdminRole.checkPermission (Some u) p = ContentService.checkPermission u p) /\
  UseAdminRole.flags None =
    UseAdminRole.mkFlags false false false false false false false false false false false false.
Proof.
  assert (H : forall p, UseAdminRole.checkPermission (Some u) p
                        = ContentService.checkPermission u p).
  { intros p. unfold UseAdminRole.checkPermission, UseAdminRole.roleOf, UseAdminRole.activeOf,
      ContentService.checkPermission.
    destruct (Js.strlen (AdminUser.role u) =? 0) eqn:E.
    - destruct (AdminUser.isActive u); simpl; [|reflexivity].
      symmetry.
      destruct (AdminUser.role u); [|discriminate].
      apply hasPermission_invalid; reflexivity.
    - destruct (AdminUser.isActive u); reflexivity. }
  simpl. repeat split; try (rewrite <- H; reflexivity). exact H.
Qed.

End RbacFacts.

(** ** The regular expression engine on a single character class *)

Section RegexFacts.
Import Regex.

Lemma matchAt_Sym (p : ascii -> bool) (input : list ascii) (i : nat) :
  matchAt (Sym p) input i =
  match input !! i with
  | Some c => if p c then Some (S i) else None
  | None => None
  end.
Proof. reflexivity. Qed.

Lemma searchFrom_Sym (p : ascii -> bool) (input : list ascii) :
  forall tries start,
    length (drop start input) <= tries ->
    searchFrom (Sym p) input start tries =
    (fun j => (j, S j)) <$> firstHit p (drop start input) start.
Proof.
  induction tries as [|tries IH]; intros start Hlen.
  - destruct (drop start input); [reflexivity|simpl in Hlen; lia].
  - cbn [searchFrom]. rewrite matchAt_Sym.
    destruct (input !! start) as [c|] eqn:Hc.
    + rewrite (drop_S _ _ _ Hc) in *. simpl in *.
      destruct (p c); [reflexivity|]. apply IH. lia.
    + apply lookup_ge_None in Hc.
      rewrite (drop_ge input start Hc). simpl.
      rewrite IH; [|rewrite drop_ge; simpl; lia].
      rewrite drop_ge by lia. reflexivity.
Qed.

Lemma firstHit_None (p : ascii -> bool) (l : list ascii) :
  forall i, firstHit p l i = None <-> existsb p l = false.
Proof.
  induction l as [|c l IH]; intros i; simpl; [tauto|].
  destruct (p c); simpl; [split; discriminate|]. apply IH.
Qed.

Lemma firstHit_Some (p : ascii -> bool) (l : list ascii) :
  forall i j, firstHit p l i = Some j ->
    exists pre c post,
      l = (pre ++ c :: post)%list /\ existsb p pre = false /\ p c = true /\
      j = i + length pre.
Proof.
  induction l as [|c l IH]; intros i j; simpl; [discriminate|].
  destruct (p c) eqn:Hp.
  - intros H; inversion H; subst. exists [], c, l. simpl. repeat split; auto; lia.
  - intros H. destruct (IH _ _ H) as (pre & c' & post & -> & Hpre & Hc & ->).
    exists (c :: pre), c', post. simpl. rewrite Hp. repeat split; auto; lia.
Qed.

(** A [test] from index 0 of a pattern that is one character class finds a
    match exactly when some character of the input is in the class. *)
Lemma test_Sym (p : ascii -> bool) (s : string) :
  fst (test (Sym p) s O) = existsb p (list_ascii_of_string s).
Proof.
  unfold test, exec. simpl (_ <? 0). cbn iota.
  rewrite searchFrom_Sym by (rewrite drop_0; lia).
  rewrite drop_0.
  destruct (firstHit p (list_ascii_of_string s) 0) as [j|] eqn:E; simpl.
  - destruct (existsb p (list_ascii_of_string s)) eqn:Ex; [reflexivity|].
    apply (firstHit_None p _ 0) in Ex. congruence.
  - apply firstHit_None in E. rewrite E. reflexivity.
Qed.

Lemma filter_id_of_none (p : ascii -> bool) (l : list ascii) :
  existsb p l = false -> List.filter (fun c => negb (p c)) l = l.
Proof.
  induction l as [|c l IH]; simpl; [reflexivity|].
  destruct (p c); simpl; [discriminate|]. intros H. rewrite IH; auto.
Qed.

Lemma replaceLoop_Sym (p : ascii -> bool) (input : list ascii) :
  forall fuel k,
    k <= length input -> length input - k < fuel ->
    replaceLoop (Sym p) input [] k k fuel =
    List.filter (fun c => negb (p c)) (drop k input).
Proof.
  induction fuel as [|fuel IH]; intros k Hk Hfuel; [lia|].
  cbn [replaceLoop]. unfold exec.
  replace (length input <? k) with false by (symmetry; apply Nat.ltb_ge; lia).
  rewrite searchFrom_Sym by (rewrite length_drop; lia).
  destruct (firstHit p (drop k input) k) as [j|] eqn:E;
    cbn -[Nat.eqb Nat.leb Nat.sub replaceLoop take drop].
  - destruct (firstHit_Some _ _ _ _ E) as (pre & c & post & Hl & Hpre & Hc & ->).
    replace (S (k + length pre) =? k + length pre) with false
      by (symmetry; apply Nat.eqb_neq; lia).
    replace (k <=? k + length pre) with true by (symmetry; apply Nat.leb_le; lia).
    assert (Hpost : drop (S (k + length pre)) input = post).
    { replace (S (k + length pre)) with (k + length (pre ++ [c])%list)
        by (rewrite length_app; simpl; lia).
      rewrite <- drop_drop, Hl.
      change (pre ++ c :: post)%list with (pre ++ [c] ++ post)%list.
      rewrite app_assoc, drop_app_length. reflexivity. }
    assert (Hlen : length input = k + length pre + S (length post)).
    { assert (Hd : length (drop k input) = length pre + S (length post))
        by (rewrite Hl, length_app; reflexivity).
      rewrite length_drop in Hd. lia. }
    rewrite IH by lia. rewrite Hpost, Hl.
    replace (k + length pre - k) with (length pre) by lia.
    rewrite take_app_length, List.filter_app. simpl. rewrite Hc. simpl.
    rewrite (filter_id_of_none p pre Hpre). reflexivity.
  - apply firstHit_None in E. symmetry. apply filter_id_of_none. exact E.
Qed.

(** Replacing, globally, every match of a one-class pattern by nothing is
    filtering the characters of the class out. *)
Lemma replaceAll_Sym (p : ascii -> bool) (s : string) :
  list_ascii_of_string (replaceAll (Sym p) s EmptyString) =
  List.filter (fun c => negb (p c)) (list_ascii_of_string s).
Proof.
  unfold replaceAll. rewrite list_ascii_of_string_of_list_ascii.
  change (list_ascii_of_string EmptyString) with (@nil ascii).
  rewrite replaceLoop_Sym by lia. rewrite drop_0. reflexivity.
Qed.

End RegexFacts.

(** ** Sanitizer: what the pure functions guarantee for every input *)

Section SanitizerMore.
Import Sanitizer.

Lemma chars_app (a b : string) :
  list_ascii_of_string (a ++ b) = (list_ascii_of_string a ++ list_ascii_of_string b)%list.
Proof. induction a as [|c a IH]; simpl; [reflexivity|]. rewrite IH. reflexivity. Qed.

Lemma allChars_app (p : ascii -> bool) (a b : string) :
  allChars p (a ++ b) = allChars p a && allChars p b.
Proof. unfold allChars. rewrite chars_app. apply forallb_app. Qed.

Lemma allChars_substring (p : ascii -> bool) (s : string) :
  forall n m, allChars p s = true -> allChars p (String.substring n m s) = true.
Proof.
  unfold allChars. induction s as [|c s IH]; intros n m H.
  - destruct n, m; reflexivity.
  - simpl in H. apply andb_true_iff in H. destruct H as [Hc Hs].
    destruct n as [|n].
    + destruct m as [|m]; simpl; [reflexivity|]. rewrite Hc. apply (IH 0 m Hs).
    + simpl. apply IH. exact Hs.
Qed.

Lemma allChars_capLength (p : ascii -> bool) (n : nat) (s : string) :
  allChars p s = true -> allChars p (capLength n s) = true.
Proof.
  intros H. unfold capLength, Js.substring0.
  destruct (n <? Js.strlen s); [apply allChars_substring|]; exact H.
Qed.

Lemma htmlEntity_markupFree (c : ascii) : markupFree (htmlEntity c) = true.
Proof.
  unfold htmlEntity.
  repeat match goal with
         | |- context [if (?a =? ?b) then _ else _] =>
             destruct (a =? b) eqn:?; [reflexivity|]
         end.
  unfold markupFree, markupChars. simpl.
  repeat match goal with H : (_ =? _) = false |- _ => rewrite H; clear H end.
  reflexivity.
Qed.

Lemma string_app_assoc (a b c : string) : ((a ++ b) ++ c = a ++ (b ++ c))%string.
Proof.
  induction a as [|x a IH]; [reflexivity|].
  change (String x ((a ++ b) ++ c) = String x (a ++ (b ++ c)))%string.
  f_equal. exact IH.
Qed.

Lemma escapeHtml_markupFree (input : string) : markupFree (escapeHtml input) = true.
Proof.
  induction input as [|c rest IH]; [reflexivity|].
  simpl. unfold markupFree in *. rewrite chars_app, forallb_app, IH, andb_true_r.
  apply htmlEntity_markupFree.
Qed.

(** X9. Whatever the input, the result of [escapeHtml] holds none of the
    characters that open or close markup or an attribute value: no angle
    bracket, no quote of either kind, no slash, no backtick, no equals sign.
    Text that holds none of the eight characters it rewrites comes back
    unchanged, and escaping is done character by character: the result for
    a concatenation is the concatenation of the results. *)
Theorem escapeHtml_leaves_no_markup :
  (forall input, markupFree (escapeHtml input) = true) /\
  (forall input,
      allChars (fun c => negb (existsb (Nat.eqb (nat_of_ascii c)) (38 :: markupChars))) input
      = true -> escapeHtml input = input) /\
  (forall a b, escapeHtml (a ++ b) = (escapeHtml a ++ escapeHtml b)%string).
Proof.
  repeat split.
  - apply escapeHtml_markupFree.
  - intros input. unfold allChars. induction input as [|c rest IH]; [reflexivity|].
    simpl. rewrite andb_true_iff, negb_true_iff, !orb_false_iff.
    intros [(H38 & H60 & H62 & H34 & H39 & H47 & H96 & H61 & _) Hrest].
    unfold htmlEntity. rewrite H38, H60, H62, H34, H39, H47, H96, H61.
    simpl. rewrite IH; auto.
  - intros a b. induction a as [|c a IH]; [reflexivity|].
    change (escapeHtml (String c a ++ b))
      with (htmlEntity c ++ escapeHtml (a ++ b))%string.
    change (escapeHtml (String c a)) with (htmlEntity c ++ escapeHtml a)%string.
    rewrite IH, string_app_assoc. reflexivity.
Qed.

Lemma escapeHtml_leaves_no_markup_witness :
  escapeHtml "Chariotek Studio 2026" = "Chariotek Studio 2026"%string.
Proof.
  apply (proj1 (proj2 escapeHtml_leaves_no_markup)). reflexivity.
Defined.

(** X10. For every input and every state of the patterns, the title that
    [sanitizeTitle] returns holds no angle bracket, quote, slash, backtick or
    equals sign, so no tag and no attribute can begin in it; and an empty
    input gives the empty title without touching the patterns. *)
Theorem sanitizeTitle_never_returns_markup :
  (forall input st, markupFree (fst (sanitizeTitle input st)) = true) /\
  (forall st, sanitizeTitle EmptyString st = (EmptyString, st)).
Proof.
  split; [|reflexivity].
  intros input st. unfold sanitizeTitle.
  destruct (Js.strlen input =? 0); [reflexivity|].
  destruct (removeDangerousContent _ st) as [result st']. simpl.
  apply (allChars_capLength _ ContentLimits.TITLE).
  apply escapeHtml_markupFree.
Qed.

Lemma replaceEach_state (ps : list Regex.regex) :
  forall input st,
    length st <= length ps -> snd (replaceEach ps input st) = repeat O (length ps).
Proof.
  induction ps as [|p ps IH]; intros input st Hlen; simpl in *.
  - destruct st; [reflexivity|simpl in Hlen; lia].
  - specialize (IH (Regex.replaceAll p input EmptyString) (tl st)).
    destruct (replaceEach ps _ (tl st)). simpl in *. f_equal. apply IH.
    destruct st; simpl in *; lia.
Qed.

Lemma test_false_resets (r : Regex.regex) (s : string) (i li : nat) :
  Regex.test r s i = (false, li) -> li = O.
Proof.
  unfold Regex.test, Regex.exec.
  destruct (length (list_ascii_of_string s) <? i).
  - intros H; inversion H; reflexivity.
  - destruct (Regex.searchFrom _ _ _ _) as [[a b]|]; intros H; inversion H; reflexivity.
Qed.

Lemma someTest_false_resets (ps : list Regex.regex) (s : string) :
  forall st st',
    length st <= length ps -> someTest ps s st = (false, st') ->
    st' = repeat O (length ps).
Proof.
  induction ps as [|p ps IH]; intros st st' Hlen; simpl in *.
  - intros H; inversion H; subst. destruct st'; [reflexivity|simpl in Hlen; lia].
  - destruct (Regex.test p s (hd 0 st)) as [b li] eqn:Ht.
    destruct b; [discriminate|].
    destruct (someTest ps s (tl st)) as [b' st1] eqn:Hs.
    intros H; inversion H; subst. f_equal.
    + exact (test_false_resets _ _ _ _ Ht).
    + apply (IH (tl st)); [destruct st; simpl in *; lia|exact Hs].
Qed.

(** X11. [removeDangerousContent] is safe to call in any state of the
    shared patterns: the text it returns does not depend on that state, and
    it leaves every pattern at [lastIndex] 0, as freshly loaded. *)
Theorem removeDangerousContent_resets_patterns (input : string) (st : PatternState) :
  length st <= length DANGEROUS_PATTERNS ->
  snd (removeDangerousContent input st) = freshPatterns /\
  fst (removeDangerousContent input st) = fst (removeDangerousContent input freshPatterns).
Proof.
  intros Hlen. unfold removeDangerousContent. split.
  - apply replaceEach_state. exact Hlen.
  - apply replaceEach_text.
Qed.

Lemma removeDangerousContent_resets_patterns_witness :
  snd (removeDangerousContent "javascript:alert(1)"
         (snd (containsDangerousContent "javascript:alert(1)" freshPatterns))) = freshPatterns /\
  fst (removeDangerousContent "javascript:alert(1)"
         (snd (containsDangerousContent "javascript:alert(1)" freshPatterns)))
  = fst (removeDangerousContent "javascript:alert(1)" freshPatterns).
Proof.
  apply (removeDangerousContent_resets_patterns "javascript:alert(1)"
           (snd (containsDangerousContent "javascript:alert(1)" freshPatterns))).
  vm_compute. lia.
Defined.

(** X12. A call of [containsDangerousContent] that answers [false] leaves
    every pattern at [lastIndex] 0.  So on an input for which freshly loaded
    patterns answer [false], any number of calls in a row all answer [false]
    and leave the patterns fresh: the answer can only change after a call
    that answered [true]. *)
Theorem containsDangerousContent_false_is_stable (input : string) :
  (forall st st', length st <= length DANGEROUS_PATTERNS ->
                  containsDangerousContent input st = (false, st') -> st' = freshPatterns) /\
  (fst (containsDangerousContent input freshPatterns) = false ->
   forall n, repeatedChecks n input freshPatterns = (repeat false n, freshPatterns)).
Proof.
  assert (Hreset : forall st st', length st <= length DANGEROUS_PATTERNS ->
             containsDangerousContent input st = (false, st') -> st' = freshPatterns).
  { intros st st' Hlen H. exact (someTest_false_resets _ _ _ _ Hlen H). }
  split; [exact Hreset|].
  intros Hfalse n. induction n as [|n IH]; [reflexivity|].
  cbn [repeatedChecks].
  destruct (containsDangerousContent input freshPatterns) as [b st1] eqn:Hc.
  simpl in Hfalse. subst b.
  rewrite (Hreset freshPatterns st1 (Nat.le_refl _) Hc), IH. reflexivity.
Qed.

Lemma containsDangerousContent_false_is_stable_witness :
  repeatedChecks 3 "Chariotek Studio" freshPatterns = ([false; false; false], freshPatterns).
Proof.
  apply (proj2 (containsDangerousContent_false_is_stable "Chariotek Studio")).
  vm_compute. reflexivity.
Defined.

Lemma sanitizeText_cap (input : string) (maxLength : nat) (st : PatternState) :
  Js.strlen (fst (sanitizeText input maxLength st)) <= maxLength.
Proof.
  unfold sanitizeText. destruct (Js.strlen input =? 0); [simpl; lia|].
  destruct (removeDangerousContent _ st). simpl. apply capLength_le.
Qed.

Lemma sanitizeValue_shape (value : Json) (st : PatternState) :
  match value with
  | JStr s => exists s', fst (sanitizeValue value st) = JStr s' /\
                         Js.strlen s' <= ContentLimits.DESCRIPTION
  | JArr items => exists items', fst (sanitizeValue value st) = JArr items'
  | JObj fields => exists fields', fst (sanitizeValue value st) = JObj fields'
  | other => sanitizeValue value st = (other, st)
  end.
Proof.
  destruct value as [| | b | n | s | items | fields]; try reflexivity.
  - cbn [sanitizeValue].
    pose proof (sanitizeText_cap s ContentLimits.DESCRIPTION st) as Hcap.
    destruct (sanitizeText s ContentLimits.DESCRIPTION st) as [s' st'].
    exists s'. split; [reflexivity|exact Hcap].
  - cbn [sanitizeValue].
    match goal with |- context [let '(_, _) := ?x in _] => destruct x as [items' st'] end.
    exists items'. reflexivity.
  - cbn [sanitizeValue].
    match goal with |- context [let '(_, _) := ?x in _] => destruct x as [fields' st'] end.
    exists fields'. reflexivity.
Qed.

(** X13. [sanitizeObject] keeps the properties of the object it is given,
    under their names and in their order, except a property named
    [__proto__], which is lost: the assignment to [result['__proto__']]
    sets the prototype instead of defining a property.  No property is
    added or renamed (property names are not sanitized); numbers, booleans,
    [null] and [undefined] under any other name come back as they were;
    and every string value is cut to the description limit of 2000 code
    units. *)
Theorem sanitizeObject_keeps_shape (obj : JObject) (st : PatternState) :
  let out := fst (sanitizeObject obj st) in
  map fst out = List.filter (fun key => negb (String.eqb key "__proto__")) (map fst obj) /\
  (forall key v, In (key, v) obj -> key <> "__proto__"%string ->
     match v with
     | JStr _ | JArr _ | JObj _ => True
     | _ => In (key, v) out
     end) /\
  (forall key s, In (key, JStr s) out -> Js.strlen s <= 2000).
Proof.
  revert st. induction obj as [|[key value] obj IH]; intros st; simpl.
  - repeat split; tauto.
  - pose proof (sanitizeValue_shape value st) as Hshape.
    destruct (sanitizeValue value st) as [value' st1] eqn:Hv.
    specialize (IH st1).
    destruct (sanitizeObject obj st1) as [rest st2]. simpl in *.
    destruct IH as (IHkeys & IHscalars & IHstrings).
    unfold assign.
    destruct (String.eqb_spec key "__proto__") as [Hproto|Hkey]; simpl.
    + split; [exact IHkeys|]. split; [|exact IHstrings].
      intros k v [Heq|Hin] Hk.
      * inversion Heq; subst k v. contradiction.
      * exact (IHscalars k v Hin Hk).
    + split; [f_equal; exact IHkeys|]. split.
      * intros k v [Heq|Hin] Hk.
        -- inversion Heq; subst k v.
           destruct value; try exact I; inversion Hshape; subst; left; reflexivity.
        -- specialize (IHscalars k v Hin Hk). destruct v; auto.
      * intros k s [Heq|Hin]; [|exact (IHstrings k s Hin)].
        inversion Heq; subst k value'.
        destruct value; try (inversion Hshape; fail).
        -- destruct Hshape as (s' & Hs' & Hcap). inversion Hs'; subst. exact Hcap.
        -- destruct Hshape as (x & Hx). discriminate.
        -- destruct Hshape as (x & Hx). discriminate.
Qed.

Lemma sanitizeObject_keeps_shape_witness :
  let obj := [("__proto__"%string, JObj [("isAdmin"%string, JBool true)]);
              ("title"%string, JStr "Chariotek"); ("order"%string, JNum 1)] in
  map fst (fst (sanitizeObject obj freshPatterns)) = ["title"%string; "order"%string] /\
  In ("order"%string, JNum 1) (fst (sanitizeObject obj freshPatterns)).
Proof.
  intros obj.
  destruct (sanitizeObject_keeps_shape obj freshPatterns) as (Hkeys & Hscalars & _).
  split.
  - exact Hkeys.
  - apply (Hscalars "order"%string (JNum 1)).
    + right. right. left. reflexivity.
    + discriminate.
Defined.

Lemma dropSpaces_allChars (p : ascii -> bool) (l : list ascii) :
  forallb p l = true -> forallb p (Js.dropSpaces l) = true.
Proof.
  induction l as [|c l IH]; simpl; [reflexivity|].
  intros H. destruct (Regex.isSpace c); [|exact H].
  apply andb_true_iff in H. apply IH. tauto.
Qed.

Lemma forallb_rev' (p : ascii -> bool) (l : list ascii) :
  forallb p l = true -> forallb p (rev l) = true.
Proof.
  rewrite !forallb_forall. intros H c Hc. apply H. apply in_rev. exact Hc.
Qed.

Lemma trim_allChars (p : ascii -> bool) (s : string) :
  allChars p s = true -> allChars p (Js.trim s) = true.
Proof.
  unfold allChars, Js.trim. intros H.
  rewrite list_ascii_of_string_of_list_ascii.
  apply forallb_rev', dropSpaces_allChars, forallb_rev', dropSpaces_allChars. exact H.
Qed.

(** X14. For every input, [sanitizePhone] returns at most 30 code units,
    each of them a digit, white space, a dash, a parenthesis or the plus
    sign. *)
Theorem sanitizePhone_only_dial_characters (input : string) :
  allChars isPhoneChar (sanitizePhone input) = true /\
  Js.strlen (sanitizePhone input) <= 30.
Proof.
  unfold sanitizePhone. destruct (Js.strlen input =? 0); [split; [reflexivity|simpl; lia]|].
  split; [|apply (capLength_le ContentLimits.PHONE)].
  apply allChars_capLength, trim_allChars.
  unfold allChars. rewrite replaceAll_Sym.
  apply forallb_forall. intros c Hc. apply filter_In in Hc.
  destruct Hc as [_ Hc]. rewrite negb_involutive in Hc. exact Hc.
Qed.

(** X15. [validateContent]: the verdict depends on the required fields alone.
    A required field is missing when the content has it as an own property
    holding [undefined], [null] or the empty string, or has no such
    property and the name is not that of a member of [Object.prototype]
    (such a name is read from the prototype and is never missing).  The
    content is valid exactly when no required field is missing, there is
    one error per missing field, in the order of the list, and dangerous
    content never makes the content invalid: it only adds a warning.
    Without required fields the content is always valid. *)
Theorem validateContent_checks_required_fields_only
        (content : JObject) (requiredFields : list string) (st : PatternState) :
  let v := fst (validateContent content requiredFields st) in
  isValid v = forallb (fun field => negb (fieldMissing field content)) requiredFields /\
  errors v = map (fun field => (field ++ " is required")%string)
                 (List.filter (fun field => fieldMissing field content) requiredFields) /\
  length (warnings v) <= 1 /\
  (requiredFields = [] -> isValid v = true).
Proof.
  unfold validateContent.
  destruct (containsDangerousContent (stringify (JObj content)) st) as [dangerous st'].
  cbn [fst isValid errors warnings].
  assert (Herr : flat_map (fun field => if fieldMissing field content
                                       then [(field ++ " is required")%string] else [])
                          requiredFields
                 = map (fun field => (field ++ " is required")%string)
                       (List.filter (fun field => fieldMissing field content)
                                    requiredFields)).
  { induction requiredFields as [|f fs IH]; [reflexivity|].
    simpl. rewrite IH. destruct (fieldMissing f content); reflexivity. }
  rewrite Herr. repeat split.
  - rewrite length_map. induction requiredFields as [|f fs IH]; [reflexivity|].
    simpl. destruct (fieldMissing f content); simpl; [reflexivity|].
    apply IH. clear. induction fs as [|g gs IHg]; [reflexivity|].
    simpl. rewrite IHg. destruct (fieldMissing g content); reflexivity.
  - destruct dangerous; simpl; lia.
  - intros ->. reflexivity.
Qed.

Lemma validateContent_checks_required_fields_only_witness :
  let content := [("title"%string, JStr "Chariotek"); ("tagline"%string, JStr EmptyString);
                  ("order"%string, JNull)] in
  let required := ["title"; "tagline"; "order"; "body"; "constructor"]%string in
  isValid (fst (validateContent content required freshPatterns)) = false /\
  errors (fst (validateContent content required freshPatterns)) =
    ["tagline is required"; "order is required"; "body is required"]%string.
Proof.
  intros content required.
  destruct (validateContent_checks_required_fields_only content required freshPatterns)
    as (Hvalid & Herrors & _).
  split; [exact Hvalid|exact Herrors].
Defined.

(** X16. [validateFile] accepts a file exactly when it is at most 10 MB, its
    type is on the list in force (images, plus documents when allowed) and
    its name holds none of the nine refused characters.  A file over the
    limit gets the size message whatever its type and name, and allowing
    documents never turns an accepted file into a refused one. *)
Theorem validateFile_accepts_exactly (file : Upload.File) (allowDocuments : bool) :
  (Upload.validateFile file allowDocuments = None <->
   (Upload.size file <= Upload.MAX_FILE_SIZE)%Z /\
   In (Upload.type file)
      (if allowDocuments then Upload.ALLOWED_IMAGE_TYPES ++ Upload.ALLOWED_DOCUMENT_TYPES
       else Upload.ALLOWED_IMAGE_TYPES)%list /\
   (forall c, In c (list_ascii_of_string (Upload.name file)) ->
              ~ In c Upload.invalidNameChars)) /\
  ((Upload.MAX_FILE_SIZE < Upload.size file)%Z ->
   Upload.validateFile file allowDocuments = Some "File size exceeds 10MB limit"%string) /\
  (Upload.validateFile file false = None -> Upload.validateFile file true = None).
Proof.
  assert (Hmain : forall d,
    Upload.validateFile file d = None <->
    (Upload.size file <= Upload.MAX_FILE_SIZE)%Z /\
    In (Upload.type file)
       (if d then Upload.ALLOWED_IMAGE_TYPES ++ Upload.ALLOWED_DOCUMENT_TYPES
        else Upload.ALLOWED_IMAGE_TYPES)%list /\
    (forall c, In c (list_ascii_of_string (Upload.name file)) ->
               ~ In c Upload.invalidNameChars)).
  { intros d. unfold Upload.validateFile.
    destruct (Upload.MAX_FILE_SIZE <? Upload.size file)%Z eqn:Hsize.
    { apply Z.ltb_lt in Hsize. split; [discriminate|]. intros (H & _). lia. }
    apply Z.ltb_ge in Hsize.
    set (allowed := (if d then _ else _)%list).
    destruct (existsb (String.eqb (Upload.type file)) allowed) eqn:Htype; simpl.
    - apply existsb_exists in Htype. destruct Htype as (t & Hin & Heq).
      apply String.eqb_eq in Heq. subst t.
      unfold Regex.oneOf. rewrite test_Sym.
      destruct (existsb _ (list_ascii_of_string (Upload.name file))) eqn:Hname.
      + split; [discriminate|]. intros (_ & _ & Hchars).
        apply existsb_exists in Hname. destruct Hname as (c & Hc & Hbad).
        apply existsb_exists in Hbad. destruct Hbad as (x & Hx & Heq).
        apply Ascii.eqb_eq in Heq. subst x. exfalso. exact (Hchars c Hc Hx).
      + split; [|reflexivity]. intros _. repeat split; auto.
        intros c Hc Hbad.
        assert (Hex : existsb (fun d0 => existsb (Ascii.eqb d0) Upload.invalidNameChars)
                              (list_ascii_of_string (Upload.name file)) = true).
        { apply existsb_exists. exists c. split; [exact Hc|].
          apply existsb_exists. exists c. split; [exact Hbad|apply Ascii.eqb_refl]. }
        congruence.
    - split; [discriminate|]. intros (_ & Hin & _).
      assert (Hex : existsb (String.eqb (Upload.type file)) allowed = true).
      { apply existsb_exists. exists (Upload.type file). split; [exact Hin|apply String.eqb_refl]. }
      congruence. }
  split; [apply Hmain|]. split.
  - intros Hbig. unfold Upload.validateFile.
    apply Z.ltb_lt in Hbig. rewrite Hbig. reflexivity.
  - intros H. apply Hmain in H. apply Hmain.
    destruct H as (Hs & Ht & Hn). repeat split; auto.
    apply in_or_app. left. exact Ht.
Qed.

Lemma validateFile_accepts_exactly_witness :
  Upload.validateFile (Upload.mkFile 20971520 "image/png" "logo.png") false
  = Some "File size exceeds 10MB limit"%string /\
  Upload.validateFile (Upload.mkFile 2048 "image/png" "logo.png") true = None.
Proof.
  split.
  - apply (proj1 (proj2 (validateFile_accepts_exactly
                           (Upload.mkFile 20971520 "image/png" "logo.png") false))).
    reflexivity.
  - apply (proj2 (proj2 (validateFile_accepts_exactly
                           (Upload.mkFile 2048 "image/png" "logo.png") false))).
    reflexivity.
Defined.

End SanitizerMore.

(** ** Version Manager: liveness, metadata, history and rollback *)

Section VersionManagerMore.
Import VersionManager.

(** X17. With a store that takes the transaction and, where there is a
    pre-image to set aside, the snapshot row, a save that gives no
    [expectedVersion] or the current one reports success with the next
    version number.  Together with the refusal of stale saves: against a
    reachable store a save succeeds exactly when it is not stale. *)
Theorem fresh_save_succeeds (w : World) (docPath contentType : string) (content : JObject)
        (options : SaveContentOptions) :
  fault (env w) (storeCalls w) = None ->
  (is_Some (liveContent docPath w) -> fault (env w) (S (storeCalls w)) = None) ->
  (forall expected, expectedVersion options = Some expected ->
                    expected = liveVersion docPath w) ->
  exists w',
    saveContent docPath contentType content options w
    = (Ok (mkResult true (Some (liveVersion docPath w + 1)%Z) None None), w').
Proof.
  intros Htx Hsnap Hexp.
  unfold saveContent, Firestore.runTransaction, saveTransaction, createVersionSnapshot,
    Firestore.addVersionDoc, liveContent, liveVersion in *.
  run_js. rewrite Htx. simpl.
  assert (Hgo : match expectedVersion options with
                | Some expected =>
                    (currentVersionOf (documents w !! docPath) =? expected)%Z = true
                | None => True
                end).
  { destruct (expectedVersion options) as [expected|]; [|exact I].
    rewrite (Hexp expected eq_refl). apply Z.eqb_refl. }
  destruct (expectedVersion options) as [expected|]; [rewrite Hgo|]; simpl.
  all: destruct (documents w !! docPath) as [[[previous|] m]|] eqn:Hdoc; simpl in *.
  all: try (rewrite (Hsnap (ltac:(eexists; reflexivity))); simpl).
  all: match goal with
       | |- context [cleanupQuietly ?p ?w0] =>
           destruct (cleanupQuietly_spec p w0) as (w2 & Hc & _); rewrite Hc
       end.
  all: eexists; reflexivity.
Qed.

Lemma fresh_save_succeeds_witness :
  exists w',
    saveContent Scenario.page "page" (Scenario.titled "Third")
                (Scenario.by_ Scenario.U1 (Some 2%Z)) Scenario.afterTwo
    = (Ok (mkResult true (Some (liveVersion Scenario.page Scenario.afterTwo + 1)%Z) None None),
       w').
Proof.
  apply (fresh_save_succeeds Scenario.afterTwo Scenario.page "page" (Scenario.titled "Third")
           (Scenario.by_ Scenario.U1 (Some 2%Z))).
  - reflexivity.
  - intros _. reflexivity.
  - intros expected H. inversion H. vm_compute. reflexivity.
Defined.

Lemma nextDocument_keeps_origin (w w' : World) (docPath : string) (content : JObject)
      (options : SaveContentOptions) (now : Z) (m : Meta.t) :
  liveMeta docPath w = Some m ->
  Meta.createdAt m <> 0%Z ->
  Js.strlen (Meta.createdBy m) <> O ->
  documents w' = <[docPath := nextDocument (documents w !! docPath) content options now]>
                   (documents w) ->
  exists m',
    liveMeta docPath w' = Some m' /\
    Meta.createdAt m' = Meta.createdAt m /\
    Meta.createdBy m' = Meta.createdBy m /\
    Meta.status m' = (if publish options then ContentStatus.PUBLISHED else Meta.status m) /\
    (publish options = false ->
     Meta.publishedAt m' = Meta.publishedAt m /\ Meta.publishedBy m' = Meta.publishedBy m).
Proof.
  unfold liveMeta. intros Hm Hat Hby Hd.
  rewrite Hd, lookup_insert_eq.
  destruct (documents w !! docPath) as [[x mm]|]; simpl in Hm; [|discriminate].
  subst mm. simpl.
  eexists. split; [reflexivity|]. simpl.
  destruct (Z.eqb_spec (Meta.createdAt m) 0) as [E|_]; [contradiction|].
  destruct (Nat.eqb_spec (Js.strlen (Meta.createdBy m)) 0) as [E|_]; [contradiction|].
  split; [reflexivity|]. split; [reflexivity|]. split; [reflexivity|].
  intros Hp. rewrite Hp. split; reflexivity.
Qed.

(** X18. Once a document has a creation time and a creator, no run of
    successful saves changes them; its status moves to [published] when one
    of the saves publishes and is otherwise left as it was (no save archives
    or unpublishes), and the publication stamp is untouched by saves that
    do not publish. *)
Theorem saves_keep_origin_and_only_publish (docPath contentType : string)
        (calls : list (JObject * SaveContentOptions)) :
  forall (w : World) (m : Meta.t),
    liveMeta docPath w = Some m ->
    Meta.createdAt m <> 0%Z ->
    Js.strlen (Meta.createdBy m) <> O ->
    Forall succeeded (fst (saveAll docPath contentType calls w)) ->
    exists m',
      liveMeta docPath (snd (saveAll docPath contentType calls w)) = Some m' /\
      Meta.createdAt m' = Meta.createdAt m /\
      Meta.createdBy m' = Meta.createdBy m /\
      Meta.status m' =
        (if existsb (fun call => publish (snd call)) calls
         then ContentStatus.PUBLISHED else Meta.status m) /\
      (existsb (fun call => publish (snd call)) calls = false ->
       Meta.publishedAt m' = Meta.publishedAt m /\ Meta.publishedBy m' = Meta.publishedBy m).
Proof.
  induction calls as [|[content options] calls IH]; intros w m Hm Hat Hby Hall.
  - exists m. simpl. repeat split; try assumption.
  - simpl in Hall |- *.
    destruct (saveContent docPath contentType content options w) as [r w1] eqn:Hsave.
    destruct (saveAll docPath contentType calls w1) as [rs w2] eqn:Hrest.
    simpl in Hall |- *. inversion Hall as [|? ? Hr Hrs]; subst.
    destruct r as [res|]; [|contradiction]. simpl in Hr.
    destruct (saveContent_success _ _ _ _ _ _ _ Hsave Hr) as (_ & Hdocs & _).
    destruct (nextDocument_keeps_origin _ _ _ _ _ _ _ Hm Hat Hby Hdocs)
      as (m1 & Hm1 & Hat1 & Hby1 & Hst1 & Hpub1).
    specialize (IH w1 m1 Hm1). rewrite Hrest in IH. simpl in IH.
    destruct IH as (m2 & Hm2 & Hat2 & Hby2 & Hst2 & Hpub2);
      [congruence | congruence | exact Hrs |].
    exists m2. split; [exact Hm2|]. split; [congruence|]. split; [congruence|].
    split.
    + rewrite Hst2, Hst1.
      destruct (publish options); simpl;
        destruct (existsb (fun call => publish (snd call)) calls); reflexivity.
    + intros Hnone. apply orb_false_iff in Hnone as [Hp Hq].
      destruct (Hpub1 Hp) as [E1 E2]. destruct (Hpub2 Hq) as [E3 E4].
      split; congruence.
Qed.

Lemma saves_keep_origin_and_only_publish_witness :
  exists m',
    liveMeta Scenario.page
      (snd (saveAll Scenario.page "page"
              [(Scenario.titled "Chariotek Studio", Scenario.by_ Scenario.U2 (Some 1%Z));
               (Scenario.titled "Studio",
                mkSaveOptions "U2" "u2@chariotek.test" None None true)]
              Scenario.afterFirst)) = Some m' /\
    Meta.createdAt m' = 1000%Z /\
    Meta.createdBy m' = "U1"%string /\
    Meta.status m' = ContentStatus.PUBLISHED.
Proof.
  destruct (saves_keep_origin_and_only_publish Scenario.page "page"
              [(Scenario.titled "Chariotek Studio", Scenario.by_ Scenario.U2 (Some 1%Z));
               (Scenario.titled "Studio",
                mkSaveOptions "U2" "u2@chariotek.test" None None true)]
              Scenario.afterFirst
              (Meta.mk 1 ContentStatus.DRAFT 1000 "U1" 1000 "U1" None None))
    as (m' & H1 & H2 & H3 & H4 & _).
  - vm_compute. reflexivity.
  - simpl. lia.
  - vm_compute. lia.
  - vm_compute. repeat constructor.
  - exists m'. repeat split; assumption.
Defined.

Lemma combine_In_lookup {A B : Type} (l : list A) :
  forall (l' : list B) (a : A) (b : B),
    In (a, b) (combine l l') -> exists i, l !! i = Some a /\ l' !! i = Some b.
Proof.
  induction l as [|x l IH]; intros [|y l'] a b Hin; simpl in Hin; try contradiction.
  destruct Hin as [E|Hin].
  - inversion E; subst. exists O. split; reflexivity.
  - destruct (IH l' a b Hin) as (i & H1 & H2). exists (S i). split; assumption.
Qed.

Lemma combine_lookup_In {A B : Type} (l : list A) :
  forall (l' : list B) (i : nat) (a : A) (b : B),
    l !! i = Some a -> l' !! i = Some b -> In (a, b) (combine l l').
Proof.
  induction l as [|x l IH]; intros [|y l'] [|i] a b H1 H2; simpl in *; try discriminate.
  - inversion H1; inversion H2; subst. left. reflexivity.
  - right. exact (IH l' i a b H1 H2).
Qed.

Lemma versionsUpTo_lookup (n i : nat) (v : Z) :
  versionsUpTo n !! i = Some v <-> (i < n /\ v = Z.of_nat (S i)).
Proof.
  unfold versionsUpTo.
  change (map Z.of_nat (seq 1 n)) with (Z.of_nat <$> seq 1 n).
  rewrite list_lookup_fmap. split.
  - intros H. destruct (seq 1 n !! i) as [k|] eqn:Hk; simpl in H; [|discriminate].
    apply lookup_seq in Hk as [-> Hlt]. inversion H. split; [exact Hlt|reflexivity].
  - intros [Hlt ->]. rewrite (lookup_seq_lt 1 n i Hlt). reflexivity.
Qed.

Lemma firstById_None (rows : list (string * ContentVersion.t)) :
  firstById rows = None -> rows = [].
Proof.
  destruct rows as [|row rows]; [reflexivity|]. simpl.
  destruct (firstById rows) as [best|]; [|discriminate].
  destruct (String.compare (fst row) (fst best)); discriminate.
Qed.

Lemma getVersion_reachable (docPath : string) (v : Z) (w : World) :
  fault (env w) (storeCalls w) = None ->
  fst (getVersion docPath v w) =
    Ok (withDocId <$>
        firstById (List.filter (fun row => Z.eqb (ContentVersion.version (snd row)) v)
                               (Firestore.rowsAt docPath w))).
Proof.
  intros Hf. unfold getVersion, Firestore.getVersionDocs, Firestore.call.
  run_js. rewrite Hf. simpl.
  destruct (firstById _) as [[docId row]|]; reflexivity.
Qed.

(** The snapshot rows a run of successful saves leaves at a fresh path. *)
Lemma snapshots_after_saves (docPath contentType : string)
      (calls : list (JObject * SaveContentOptions)) (w : World) :
  documents w !! docPath = None ->
  Firestore.rowsAt docPath w = [] ->
  Forall succeeded (fst (saveAll docPath contentType calls w)) ->
  snapshotsAt docPath (snd (saveAll docPath contentType calls w)) =
    combine (versionsUpTo (length calls - 1)) (map (fun call => Some (fst call)) calls) /\
  liveVersion docPath (snd (saveAll docPath contentType calls w)) = Z.of_nat (length calls) /\
  liveContent docPath (snd (saveAll docPath contentType calls w)) = fst <$> last calls.
Proof.
  intros Hdoc Hrows Hall.
  destruct (saveAll_successes docPath contentType calls w Hall) as (_ & Hv & Hs & Hc).
  unfold liveVersion, liveContent, snapshotsAt in *.
  rewrite Hdoc, Hrows in *. simpl in *.
  rewrite Hs, Hv, Hc, preimages_fresh.
  split; [reflexivity|]. split; [reflexivity|].
  destruct (last calls); reflexivity.
Qed.

(** X19. After [n] successful saves at a fresh path, [getVersion] against
    a reachable store returns, for each [v] from 1 to [n - 1], a row of
    version [v] holding the content of the [v]-th save, and nothing for any
    other [v]: the content of the live version [n] has no row yet. *)
Theorem getVersion_after_saves (docPath contentType : string)
        (calls : list (JObject * SaveContentOptions)) (w : World) (v : Z) :
  documents w !! docPath = None ->
  Firestore.rowsAt docPath w = [] ->
  Forall succeeded (fst (saveAll docPath contentType calls w)) ->
  let w' := snd (saveAll docPath contentType calls w) in
  fault (env w') (storeCalls w') = None ->
  ((1 <= v < Z.of_nat (length calls))%Z ->
   exists row content,
     fst (getVersion docPath v w') = Ok (Some row) /\
     ContentVersion.version row = v /\
     calls !! (Z.to_nat v - 1) = Some content /\
     ContentVersion.contentSnapshot row = Some (fst content)) /\
  (~ (1 <= v < Z.of_nat (length calls))%Z ->
   fst (getVersion docPath v w') = Ok None).
Proof.
  intros Hdoc Hrows Hall w' Hf.
  destruct (snapshots_after_saves docPath contentType calls w Hdoc Hrows Hall) as (Hs & _).
  fold w' in Hs.
  rewrite (getVersion_reachable docPath v w' Hf).
  set (matching := List.filter _ _).
  assert (Hin : forall d, In d matching ->
                  exists i, (i < length calls - 1)%nat /\ v = Z.of_nat (S i) /\
                    map (fun call => Some (fst call)) calls !! i
                    = Some (ContentVersion.contentSnapshot (snd d))).
  { intros d Hd. apply filter_In in Hd as [Hd Hv]. apply Z.eqb_eq in Hv.
    assert (Hp : In (ContentVersion.version (snd d), ContentVersion.contentSnapshot (snd d))
                    (snapshotsAt docPath w')).
    { unfold snapshotsAt. apply in_map_iff. exists d. split; [reflexivity|exact Hd]. }
    rewrite Hs in Hp. apply combine_In_lookup in Hp as (i & H1 & H2).
    apply versionsUpTo_lookup in H1 as [Hlt Hi].
    exists i. split; [exact Hlt|]. split; [congruence|exact H2]. }
  split.
  - intros Hrange.
    destruct (lookup_lt_is_Some_2 calls (Z.to_nat v - 1) ltac:(lia)) as [content Hcontent].
    assert (Hne : matching <> []).
    { assert (Hp : In (v, Some (fst content)) (snapshotsAt docPath w')).
      { rewrite Hs. apply (combine_lookup_In _ _ (Z.to_nat v - 1)).
        - apply versionsUpTo_lookup. split; lia.
        - change (map (fun call => Some (fst call)) calls)
            with ((fun call : JObject * SaveContentOptions => Some (fst call)) <$> calls).
          rewrite list_lookup_fmap, Hcontent. reflexivity. }
      unfold snapshotsAt in Hp. apply in_map_iff in Hp as (d & Hd & Hdin).
      inversion Hd as [[Hdv Hdc]].
      intros Hnil.
      assert (Hm : In d matching).
      { apply filter_In. split; [exact Hdin|]. apply Z.eqb_eq. exact Hdv. }
      rewrite Hnil in Hm. exact Hm. }
    destruct (firstById matching) as [d|] eqn:Hfirst;
      [|apply firstById_None in Hfirst; contradiction].
    destruct (Hin d (firstById_In _ _ Hfirst)) as (i & Hlt & Hv & Hc).
    exists (withDocId d), content. simpl.
    split; [reflexivity|].
    assert (Hd : In d matching) by exact (firstById_In _ _ Hfirst).
    apply filter_In in Hd as [_ Hdv]. apply Z.eqb_eq in Hdv.
    split; [exact Hdv|]. split; [exact Hcontent|].
    replace (Z.to_nat v - 1)%nat with i in Hcontent by lia.
    change (map (fun call => Some (fst call)) calls)
      with ((fun call : JObject * SaveContentOptions => Some (fst call)) <$> calls) in Hc.
    rewrite list_lookup_fmap, Hcontent in Hc. simpl in Hc. congruence.
  - intros Hout.
    destruct (firstById matching) as [d|] eqn:Hfirst; [|reflexivity].
    destruct (Hin d (firstById_In _ _ Hfirst)) as (i & Hlt & Hv & _).
    exfalso. apply Hout. lia.
Qed.

Lemma getVersion_after_saves_witness :
  (exists row content,
      fst (getVersion Scenario.page 1 Scenario.afterTwo) = Ok (Some row) /\
      ContentVersion.version row = 1%Z /\
      Scenario.twoSaves !! (Z.to_nat 1 - 1)%nat = Some content /\
      ContentVersion.contentSnapshot row = Some (fst content)) /\
  fst (getVersion Scenario.page 2 Scenario.afterTwo) = Ok None.
Proof.
  split.
  - apply (getVersion_after_saves Scenario.page "page" Scenario.twoSaves Scenario.start 1).
    + reflexivity.
    + reflexivity.
    + vm_compute. repeat constructor.
    + reflexivity.
    + simpl. lia.
  - apply (getVersion_after_saves Scenario.page "page" Scenario.twoSaves Scenario.start 2).
    + reflexivity.
    + reflexivity.
    + vm_compute. repeat constructor.
    + reflexivity.
    + simpl. lia.
Defined.

Lemma newerFirst_true (a b : string * ContentVersion.t) :
  newerFirst a b = true ->
  (ContentVersion.version (snd b) <= ContentVersion.version (snd a))%Z.
Proof.
  unfold newerFirst. intros H. apply orb_true_iff in H as [H|H].
  - apply Z.ltb_lt in H. lia.
  - apply andb_true_iff in H as [H _]. apply Z.eqb_eq in H. lia.
Qed.

Lemma newerFirst_false (a b : string * ContentVersion.t) :
  newerFirst a b = false ->
  (ContentVersion.version (snd a) <= ContentVersion.version (snd b))%Z.
Proof.
  unfold newerFirst. intros H. apply orb_false_iff in H as [H _].
  apply Z.ltb_ge in H. exact H.
Qed.

Lemma insertRow_In (row x : string * ContentVersion.t) (l : list (string * ContentVersion.t)) :
  In x (insertRow row l) <-> x = row \/ In x l.
Proof.
  induction l as [|r l IH]; simpl.
  - split; intros [H|H]; auto; contradiction.
  - destruct (newerFirst row r); simpl.
    + split; intros [H|H]; auto.
    + rewrite IH. split; intros H; decompose [or] H; auto.
Qed.

Lemma sortRows_In (x : string * ContentVersion.t) (rows : list (string * ContentVersion.t)) :
  In x (sortRows rows) <-> In x rows.
Proof.
  induction rows as [|r rows IH]; simpl; [reflexivity|].
  rewrite insertRow_In, IH. split; intros [H|H]; auto.
Qed.

Lemma insertRow_length (row : string * ContentVersion.t) (l : list (string * ContentVersion.t)) :
  length (insertRow row l) = S (length l).
Proof.
  induction l as [|r l IH]; simpl; [reflexivity|].
  destruct (newerFirst row r); simpl; [reflexivity|]. rewrite IH. reflexivity.
Qed.

Lemma sortRows_length (rows : list (string * ContentVersion.t)) :
  length (sortRows rows) = length rows.
Proof.
  induction rows as [|r rows IH]; simpl; [reflexivity|].
  rewrite insertRow_length, IH. reflexivity.
Qed.

Lemma insertRow_sorted (row : string * ContentVersion.t) (l : list (string * ContentVersion.t)) :
  StronglySorted (fun a b => (ContentVersion.version (snd b)
                              <= ContentVersion.version (snd a))%Z) l ->
  StronglySorted (fun a b => (ContentVersion.version (snd b)
                              <= ContentVersion.version (snd a))%Z) (insertRow row l).
Proof.
  induction 1 as [|r l Hl IH Hr]; simpl.
  - constructor; constructor.
  - destruct (newerFirst row r) eqn:Hn.
    + constructor; [constructor; assumption|].
      apply newerFirst_true in Hn.
      constructor; [exact Hn|].
      eapply Forall_impl; [exact Hr|]. simpl. intros x Hx. lia.
    + constructor; [exact IH|].
      apply newerFirst_false in Hn.
      apply List.Forall_forall. intros x Hx.
      apply insertRow_In in Hx as [->|Hx]; [exact Hn|].
      rewrite List.Forall_forall in Hr. exact (Hr x Hx).
Qed.

Lemma sortRows_sorted (rows : list (string * ContentVersion.t)) :
  StronglySorted (fun a b => (ContentVersion.version (snd b)
                              <= ContentVersion.version (snd a))%Z) (sortRows rows).
Proof.
  induction rows as [|r rows IH]; simpl; [constructor|].
  apply insertRow_sorted. exact IH.
Qed.

Lemma StronglySorted_take_map {A B : Type} (R : B -> B -> Prop) (f : A -> B) (l : list A) :
  StronglySorted (fun a b => R (f a) (f b)) l ->
  forall n, StronglySorted R (map f (take n l)).
Proof.
  induction 1 as [|x l Hl IH Hx]; intros [|n]; simpl; try constructor.
  - apply IH.
  - apply List.Forall_forall. intros y Hy. apply in_map_iff in Hy as (z & <- & Hz).
    rewrite List.Forall_forall in Hx. apply Hx.
    apply list_elem_of_In. apply list_elem_of_In in Hz.
    apply elem_of_take in Hz as (i & Hz & _). exact (list_elem_of_lookup_2 _ _ _ Hz).
Qed.

Lemma getVersionHistory_reachable (docPath : string) (limitCount : nat) (w : World) :
  fault (env w) (storeCalls w) = None ->
  fst (getVersionHistory docPath limitCount w) =
    Ok (map withDocId (take limitCount (sortRows (Firestore.rowsAt docPath w)))).
Proof.
  intros Hf. unfold getVersionHistory, Firestore.getVersionDocs, Firestore.call.
  run_js. rewrite Hf. reflexivity.
Qed.

(** X20. Against a reachable store [getVersionHistory] returns at most
    [limitCount] rows, newest version first; each is a stored row under its
    document id, and when the limit is not below the number of stored rows
    every stored row is returned. *)
Theorem getVersionHistory_newest_first (docPath : string) (limitCount : nat) (w : World) :
  fault (env w) (storeCalls w) = None ->
  exists history,
    fst (getVersionHistory docPath limitCount w) = Ok history /\
    length history = Nat.min limitCount (length (Firestore.rowsAt docPath w)) /\
    StronglySorted (fun a b => (ContentVersion.version b <= ContentVersion.version a)%Z)
                   history /\
    (forall row, In row history ->
                 exists d, In d (Firestore.rowsAt docPath w) /\ row = withDocId d) /\
    (length (Firestore.rowsAt docPath w) <= limitCount ->
     forall d, In d (Firestore.rowsAt docPath w) -> In (withDocId d) history).
Proof.
  intros Hf. eexists. split; [apply (getVersionHistory_reachable _ _ _ Hf)|].
  split; [|split; [|split]].
  - rewrite length_map, length_take, sortRows_length. reflexivity.
  - apply (StronglySorted_take_map
             (fun a b => (ContentVersion.version b <= ContentVersion.version a)%Z) withDocId).
    exact (sortRows_sorted _).
  - intros row Hrow. apply in_map_iff in Hrow as (d & <- & Hd).
    exists d. split; [|reflexivity].
    apply sortRows_In. apply list_elem_of_In. apply list_elem_of_In in Hd.
    apply elem_of_take in Hd as (i & Hd & _). exact (list_elem_of_lookup_2 _ _ _ Hd).
  - intros Hle d Hd. apply in_map_iff. exists d. split; [reflexivity|].
    rewrite take_ge by (rewrite sortRows_length; exact Hle).
    apply sortRows_In. exact Hd.
Qed.

Lemma getVersionHistory_newest_first_witness :
  exists history,
    fst (getVersionHistory Scenario.page 20 Scenario.afterRollback) = Ok history /\
    length history = 2%nat /\
    StronglySorted (fun a b => (ContentVersion.version b <= ContentVersion.version a)%Z)
                   history.
Proof.
  destruct (getVersionHistory_newest_first Scenario.page 20 Scenario.afterRollback)
    as (history & H1 & H2 & H3 & _).
  - reflexivity.
  - exists history. split; [exact H1|]. split; [exact H2|exact H3].
Defined.

Lemma insertRow_oldest (row : string * ContentVersion.t) (l : list (string * ContentVersion.t)) :
  Forall (fun x => (ContentVersion.version (snd row) < ContentVersion.version (snd x))%Z) l ->
  insertRow row l = (l ++ [row])%list.
Proof.
  induction 1 as [|x l Hx Hl IH]; simpl; [reflexivity|].
  unfold newerFirst.
  destruct (Z.ltb_spec (ContentVersion.version (snd x)) (ContentVersion.version (snd row)));
    [lia|].
  destruct (Z.eqb_spec (ContentVersion.version (snd row)) (ContentVersion.version (snd x)));
    [lia|].
  simpl. rewrite IH. reflexivity.
Qed.

Lemma sortRows_increasing (rows : list (string * ContentVersion.t)) :
  StronglySorted (fun a b => (ContentVersion.version (snd a)
                              < ContentVersion.version (snd b))%Z) rows ->
  sortRows rows = rev rows.
Proof.
  induction 1 as [|r rows Hrows IH Hr]; simpl; [reflexivity|].
  rewrite IH. apply insertRow_oldest.
  apply List.Forall_forall. intros x Hx. apply in_rev in Hx.
  rewrite List.Forall_forall in Hr. exact (Hr x Hx).
Qed.

Lemma numbered_rows_increasing (rows : list (string * ContentVersion.t)) :
  forall s m,
    map (fun d => ContentVersion.version (snd d)) rows = map Z.of_nat (seq s m) ->
    StronglySorted (fun a b => (ContentVersion.version (snd a)
                                < ContentVersion.version (snd b))%Z) rows.
Proof.
  induction rows as [|r rows IH]; intros s m Hmap; [constructor|].
  destruct m as [|m]; simpl in Hmap; [discriminate|].
  inversion Hmap as [[Hr Hrest]].
  constructor; [exact (IH (S s) m Hrest)|].
  apply List.Forall_forall. intros x Hx.
  assert (Hv : In (ContentVersion.version (snd x)) (map Z.of_nat (seq (S s) m))).
  { rewrite <- Hrest. apply in_map_iff. exists x. split; [reflexivity|exact Hx]. }
  apply in_map_iff in Hv as (k & Hk & Hin). apply in_seq in Hin. lia.
Qed.

(** X21. After [n] successful saves at a fresh path the history, read
    against a reachable store, lists the versions [n - 1], ..., 1 in this
    order, each with the content of the save of that number, cut at
    [limitCount]. *)
Theorem getVersionHistory_after_saves (docPath contentType : string)
        (calls : list (JObject * SaveContentOptions)) (w : World) (limitCount : nat) :
  documents w !! docPath = None ->
  Firestore.rowsAt docPath w = [] ->
  Forall succeeded (fst (saveAll docPath contentType calls w)) ->
  let w' := snd (saveAll docPath contentType calls w) in
  fault (env w') (storeCalls w') = None ->
  exists history,
    fst (getVersionHistory docPath limitCount w') = Ok history /\
    map (fun row => (ContentVersion.version row, ContentVersion.contentSnapshot row)) history =
      take limitCount
           (rev (combine (versionsUpTo (length calls - 1))
                         (map (fun call => Some (fst call)) calls))).
Proof.
  intros Hdoc Hrows Hall w' Hf.
  destruct (snapshots_after_saves docPath contentType calls w Hdoc Hrows Hall) as (Hs & _).
  fold w' in Hs.
  eexists. split; [apply (getVersionHistory_reachable _ _ _ Hf)|].
  rewrite <- Hs. unfold snapshotsAt.
  rewrite sortRows_increasing.
  - rewrite map_map. simpl.
    change (map ?f (take ?n ?l)) with (f <$> take n l).
    rewrite fmap_take.
    change (?f <$> rev ?l) with (map f (rev l)).
    rewrite map_rev. reflexivity.
  - apply (numbered_rows_increasing _ 1 (length calls - 1)).
    assert (Hfst : map fst (snapshotsAt docPath w') = versionsUpTo (length calls - 1)).
    { rewrite Hs. apply map_fst_combine.
      unfold versionsUpTo. rewrite !length_map, length_seq. lia. }
    unfold snapshotsAt in Hfst. rewrite map_map in Hfst. exact Hfst.
Qed.

Lemma getVersionHistory_after_saves_witness :
  exists history,
    fst (getVersionHistory Scenario.page 20 Scenario.afterTwo) = Ok history /\
    map (fun row => (ContentVersion.version row, ContentVersion.contentSnapshot row)) history =
      [(1%Z, Some (Scenario.titled "Chariotek"))].
Proof.
  apply (getVersionHistory_after_saves Scenario.page "page" Scenario.twoSaves Scenario.start 20).
  - reflexivity.
  - reflexivity.
  - vm_compute. repeat constructor.
  - reflexivity.
Defined.

(** X22. A rollback that reports success has made exactly four calls to the
    store, and the fourth is the audit write: when it goes through, the
    audit log grows by one [content_rollback] entry naming the user, the
    version left ([fromVersion]) and the version restored ([toVersion]),
    with the content left as previous value and the restored snapshot as
    new value; when it fails, the rollback still reports success and the
    audit log is as before. *)
Theorem rollback_audit_entry (w : World) (docPath contentType : string)
        (options : RollbackOptions) (userRole : string)
        (r : OperationResult (Z * Z)) (w' : World) :
  rollbackToVersion docPath contentType options userRole w = (Ok r, w') ->
  success r = true ->
  exists target,
    fst (getVersion docPath (targetVersion options) w) = Ok (Some target) /\
    storeCalls w' = (4 + storeCalls w)%nat /\
    match fault (env w) (3 + storeCalls w) with
    | None =>
        auditRows w' =
          (auditRows w ++
           [(freshId (env w) (3 + idsDrawn w),
             AuditLogger.entryOf
               (AuditLogger.mkInput AuditAction.CONTENT_ROLLBACK
                  (rb_userId options) (rb_userEmail options) userRole
                  (Some contentType) (Some docPath) (Some docPath)
                  (liveContent docPath w) (ContentVersion.contentSnapshot target)
                  true None
                  (Some [("fromVersion", JNum (liveVersion docPath w));
                         ("toVersion", JNum (targetVersion options))]))
               (freshId (env w) (2 + idsDrawn w))
               (clock (env w) (2 + clockReads w))
               (navigatorUserAgent (env w)))])%list
    | Some _ => auditRows w' = auditRows w
    end.
Proof.
  unfold rollbackToVersion, getVersion, Firestore.getVersionDocs, Firestore.runTransaction,
    rollbackTransaction, createVersionSnapshot, Firestore.addVersionDoc,
    AuditLogger.logContentRollback, liveContent, liveVersion.
  run_js.
  destruct (fault (env w) (storeCalls w)) as [e|] eqn:Hf; simpl.
  { intros H; inversion H; subst; discriminate. }
  match goal with
  | |- context [firstById ?l] => destruct (firstById l) as [[docId row]|] eqn:Hfirst
  end; simpl; [|intros H; inversion H; subst; discriminate].
  destruct (fault (env w) (S (storeCalls w))) as [e|] eqn:Hf1; simpl.
  { intros H; inversion H; subst; discriminate. }
  destruct (documents w !! docPath) as [[c [m|]]|] eqn:Hdoc; simpl.
  2,3: intros H; inversion H; subst; discriminate.
  destruct (fault (env w) (S (S (storeCalls w)))) as [e|] eqn:Hf2; simpl.
  { intros H; inversion H; subst; discriminate. }
  match goal with
  | |- context [AuditLogger.log ?i ?w0] =>
      destruct (log_spec i w0) as (logId & w2 & Hlog & He & Hd & Hv & _ & Hcalls & Haudit);
      rewrite Hlog
  end.
  intros H; inversion H; subst; clear H. simpl in *.
  intros _. eexists. split; [reflexivity|]. split; [exact Hcalls|].
  destruct (fault (env w) (S (S (S (storeCalls w))))) as [e|].
  - apply Haudit.
  - apply Haudit.
Qed.

Lemma rollback_audit_entry_witness :
  exists target,
    fst (getVersion Scenario.page 1 Scenario.afterTwo) = Ok (Some target) /\
    storeCalls Scenario.afterRollback = (4 + storeCalls Scenario.afterTwo)%nat /\
    map (fun d => (AuditLog.action (snd d), AuditLog.metadata (snd d)))
        (auditRows Scenario.afterRollback)
    = [(AuditAction.CONTENT_ROLLBACK,
        Some [("fromVersion", JNum 2); ("toVersion", JNum 1)])].
Proof.
  destruct (rollback_audit_entry Scenario.afterTwo Scenario.page "page" Scenario.rollbackTo1
              (AdminUser.role Scenario.U2)
              (mkResult true (Some (3%Z, 1%Z)) None None) Scenario.afterRollback)
    as (target & H1 & H2 & H3).
  - vm_compute. reflexivity.
  - reflexivity.
  - exists target. split; [exact H1|]. split; [exact H2|].
    change (fault (env Scenario.afterTwo) (3 + storeCalls Scenario.afterTwo)) with (@None JsError)
      in H3.
    rewrite H3. vm_compute. reflexivity.
Defined.

Lemma filter_version_none (rows : list (string * ContentVersion.t)) (v : Z) :
  Forall (fun d => ContentVersion.version (snd d) <> v) rows ->
  List.filter (fun row => Z.eqb (ContentVersion.version (snd row)) v) rows = [].
Proof.
  induction 1 as [|d rows Hd Hrows IH]; simpl; [reflexivity|].
  destruct (Z.eqb_spec (ContentVersion.version (snd d)) v); [contradiction|exact IH].
Qed.

(** X23. Two ways a rollback is refused with the store reachable.  When no
    row has the target version, the result carries the code
    [VERSION_NOT_FOUND]; when the row exists but there is no live document
    at the path, the message is that of the error thrown in the
    transaction and there is no code.  In both cases the result has no
    data and neither the documents, the snapshot rows nor the audit log
    change: a refused rollback leaves no audit entry. *)
Theorem rollback_refusals (w : World) (docPath contentType : string)
        (options : RollbackOptions) (userRole : string) :
  fault (env w) (storeCalls w) = None ->
  (Forall (fun d => ContentVersion.version (snd d) <> targetVersion options)
          (Firestore.rowsAt docPath w) ->
   exists w',
     rollbackToVersion docPath contentType options userRole w =
       (Ok (mkResult false None
              (Some ("Version " ++ pretty (targetVersion options) ++ " not found"))
              (Some "VERSION_NOT_FOUND")), w') /\
     documents w' = documents w /\ versionRows w' = versionRows w /\
     auditRows w' = auditRows w /\ console w' = console w) /\
  (forall target,
      fst (getVersion docPath (targetVersion options) w) = Ok (Some target) ->
      fault (env w) (S (storeCalls w)) = None ->
      documents w !! docPath = None ->
      exists w',
        rollbackToVersion docPath contentType options userRole w =
          (Ok (mkResult false None (Some "Document does not exist") None), w') /\
        documents w' = documents w /\ versionRows w' = versionRows w /\
        auditRows w' = auditRows w).
Proof.
  intros Hf. split.
  - intros Hnone.
    unfold rollbackToVersion, getVersion, Firestore.getVersionDocs.
    run_js. rewrite Hf. simpl.
    match goal with
    | |- context [firstById ?l] =>
        replace l with (@nil (string * ContentVersion.t))
          by (symmetry; exact (filter_version_none _ _ Hnone))
    end.
    simpl. eexists. split; [reflexivity|]. simpl. repeat split.
  - intros target Htarget Hf1 Hdoc.
    rewrite (getVersion_reachable _ _ _ Hf) in Htarget.
    unfold rollbackToVersion, getVersion, Firestore.getVersionDocs, Firestore.runTransaction,
      rollbackTransaction.
    run_js. rewrite Hf. simpl.
    match goal with
    | |- context [firstById ?l] => destruct (firstById l) as [[docId row]|] eqn:Hfirst
    end; simpl.
    2: { exfalso.
         change (firstById
                   (List.filter
                      (fun row => Z.eqb (ContentVersion.version (snd row)) (targetVersion options))
                      (Firestore.rowsAt docPath w)) = None) in Hfirst.
         rewrite Hfirst in Htarget. discriminate. }
    rewrite Hf1. simpl. rewrite Hdoc. simpl.
    eexists. split; [reflexivity|]. simpl. repeat split.
Qed.

Lemma rollback_refusals_witness :
  (exists w',
      rollbackToVersion Scenario.page "page"
        (mkRollbackOptions "U2" "u2@chariotek.test" 7) "admin" Scenario.afterTwo =
        (Ok (mkResult false None (Some "Version 7 not found") (Some "VERSION_NOT_FOUND")), w') /\
      documents w' = documents Scenario.afterTwo /\
      versionRows w' = versionRows Scenario.afterTwo /\
      auditRows w' = auditRows Scenario.afterTwo /\
      console w' = console Scenario.afterTwo).
Proof.
  apply (rollback_refusals Scenario.afterTwo Scenario.page "page"
           (mkRollbackOptions "U2" "u2@chariotek.test" 7) "admin").
  - reflexivity.
  - vm_compute. repeat constructor; discriminate.
Defined.

Lemma numbered_snoc {A : Type} (cs : list A) (c : A) :
  forall s,
    combine (map Z.of_nat (seq s (length cs + 1))) (cs ++ [c]) =
    (combine (map Z.of_nat (seq s (length cs))) (cs ++ [c]) ++
     [(Z.of_nat (s + length cs), c)])%list.
Proof.
  induction cs as [|x cs IH]; intros s; simpl.
  - rewrite Nat.add_0_r. reflexivity.
  - rewrite (IH (S s)). rewrite Nat.add_succ_r. reflexivity.
Qed.

(** X24. Saves followed by a rollback: after [n] successful saves at a
    fresh path, a rollback that reports success had a target [v] between 1
    and [n - 1], makes the content of the [v]-th save live again as version
    [n + 1], and sets the content it replaces aside, so that the snapshot
    rows now hold the contents of all [n] saves under the versions 1 to
    [n]: a rollback removes nothing from the history. *)
Theorem rollback_after_saves (docPath contentType : string)
        (calls : list (JObject * SaveContentOptions)) (w : World)
        (options : RollbackOptions) (userRole : string)
        (r : OperationResult (Z * Z)) (w' : World) :
  documents w !! docPath = None ->
  Firestore.rowsAt docPath w = [] ->
  Forall succeeded (fst (saveAll docPath contentType calls w)) ->
  rollbackToVersion docPath contentType options userRole
    (snd (saveAll docPath contentType calls w)) = (Ok r, w') ->
  success r = true ->
  let v := targetVersion options in
  let n := Z.of_nat (length calls) in
  exists content,
    (1 <= v < n)%Z /\
    calls !! (Z.to_nat v - 1) = Some content /\
    liveContent docPath w' = Some (fst content) /\
    liveVersion docPath w' = (n + 1)%Z /\
    data r = Some ((n + 1)%Z, v) /\
    snapshotsAt docPath w' =
      combine (versionsUpTo (length calls)) (map (fun call => Some (fst call)) calls).
Proof.
  intros Hdoc Hrows Hall Hroll Hsucc v n.
  destruct (snapshots_after_saves docPath contentType calls w Hdoc Hrows Hall)
    as (Hs & Hv & Hc).
  set (w1 := snd (saveAll docPath contentType calls w)) in *.
  destruct (rollbackToVersion_success _ _ _ _ _ _ _ Hroll Hsucc)
    as (target & doc & m & Hget & Hd & Hm & Hdata & Hdocs & Hrws).
  destruct (getVersion_stored _ _ _ _ Hget) as (Htv & row & Hin & Hrv & Hrc).
  assert (Hp : In (v, ContentVersion.contentSnapshot row) (snapshotsAt docPath w1)).
  { unfold snapshotsAt. apply in_map_iff. exists (ContentVersion.versionId target, row).
    simpl. split; [rewrite Hrv; reflexivity|exact Hin]. }
  rewrite Hs in Hp. apply combine_In_lookup in Hp as (i & H1 & H2).
  apply versionsUpTo_lookup in H1 as [Hlt Hi].
  change (map (fun call => Some (fst call)) calls)
    with ((fun call : JObject * SaveContentOptions => Some (fst call)) <$> calls) in H2.
  rewrite list_lookup_fmap in H2.
  destruct (calls !! i) as [content|] eqn:Hcall; simpl in H2; [|discriminate].
  inversion H2 as [Hcontent].
  assert (Hlive : liveVersion docPath w1 = Meta.version m).
  { unfold liveVersion. rewrite Hd. simpl. rewrite Hm. reflexivity. }
  assert (Hold : liveContent docPath w1 = VersionedDocument.content doc).
  { unfold liveContent. rewrite Hd. reflexivity. }
  exists content.
  split; [unfold n; lia|].
  split; [replace (Z.to_nat v - 1)%nat with i by lia; exact Hcall|].
  split; [unfold liveContent; rewrite Hdocs, lookup_insert_eq; simpl; congruence|].
  split; [unfold liveVersion; rewrite Hdocs, lookup_insert_eq; simpl; unfold n; lia|].
  split; [rewrite Hdata; unfold n, v; repeat f_equal; lia|].
  unfold snapshotsAt. rewrite (rowsAt_insert _ _ _ _ Hrws), map_app. simpl.
  fold (snapshotsAt docPath w1). rewrite Hs, <- Hold, Hc, <- Hlive, Hv.
  destruct (@exists_last _ calls) as (calls0 & cN & Hcalls).
  { intros ->. simpl in Hlt. lia. }
  rewrite Hcalls, last_snoc, map_app, length_app. simpl.
  replace (length calls0 + 1 - 1)%nat with (length calls0) by lia.
  unfold versionsUpTo.
  rewrite <- (length_map (fun call : JObject * SaveContentOptions => Some (fst call)) calls0).
  rewrite numbered_snoc.
  f_equal. f_equal. f_equal. f_equal. lia.
Qed.

Lemma rollback_after_saves_witness :
  exists content,
    (1 <= 1 < 2)%Z /\
    Scenario.twoSaves !! (Z.to_nat 1 - 1)%nat = Some content /\
    liveContent Scenario.page Scenario.afterRollback = Some (fst content) /\
    liveVersion Scenario.page Scenario.afterRollback = 3%Z /\
    Some (3%Z, 1%Z) = Some (3%Z, 1%Z) /\
    snapshotsAt Scenario.page Scenario.afterRollback =
      [(1%Z, Some (Scenario.titled "Chariotek"));
       (2%Z, Some (Scenario.titled "Chariotek Studio"))].
Proof.
  apply (rollback_after_saves Scenario.page "page" Scenario.twoSaves Scenario.start
           Scenario.rollbackTo1 (AdminUser.role Scenario.U2)
           (mkResult true (Some (3%Z, 1%Z)) None None) Scenario.afterRollback).
  - reflexivity.
  - reflexivity.
  - vm_compute. repeat constructor.
  - vm_compute. reflexivity.
  - reflexivity.
Defined.

Lemma rowsAt_grow (w w' : World) (docPath p : string)
      (suffix : list (string * ContentVersion.t)) :
  versionRows w' = <[docPath := (Firestore.rowsAt docPath w ++ suffix)%list]> (versionRows w) ->
  exists suffix',
    Firestore.rowsAt p w' = (Firestore.rowsAt p w ++ suffix')%list /\
    length suffix' <= length suffix /\ (p <> docPath -> suffix' = []).
Proof.
  intros H. unfold Firestore.rowsAt in *. rewrite H.
  destruct (decide (p = docPath)) as [->|Hne].
  - rewrite lookup_insert_eq. simpl. exists suffix.
    split; [reflexivity|]. split; [lia|]. intros Hp. contradiction.
  - rewrite lookup_insert_ne by congruence. exists [].
    split; [rewrite app_nil_r; reflexivity|]. split; [simpl; lia|]. reflexivity.
Qed.

Lemma rowsAt_keep (w w' : World) (docPath p : string) :
  versionRows w' = versionRows w ->
  exists suffix',
    Firestore.rowsAt p w' = (Firestore.rowsAt p w ++ suffix')%list /\
    length suffix' <= 1 /\ (p <> docPath -> suffix' = []).
Proof.
  intros H. unfold Firestore.rowsAt. rewrite H. exists [].
  split; [rewrite app_nil_r; reflexivity|]. split; [simpl; lia|]. reflexivity.
Qed.

Lemma saveContent_rows (w : World) (docPath contentType : string) (content : JObject)
      (options : SaveContentOptions) :
  let w' := snd (saveContent docPath contentType content options w) in
  versionRows w' = versionRows w \/
  exists x, versionRows w' = <[docPath := (Firestore.rowsAt docPath w ++ [x])%list]> (versionRows w).
Proof.
  unfold saveContent, Firestore.runTransaction, saveTransaction, createVersionSnapshot,
    Firestore.addVersionDoc.
  run_js.
  destruct (fault (env w) (storeCalls w)) as [e|] eqn:Hf; simpl.
  { left. reflexivity. }
  destruct (expectedVersion options) as [expected|];
    [destruct (currentVersionOf (documents w !! docPath) =? expected)%Z; simpl|].
  all: destruct (documents w !! docPath) as [[[previous|] m]|] eqn:Hdoc; simpl.
  all: try destruct (fault (env w) (S (storeCalls w))) as [e|] eqn:Hf2; simpl.
  all: try match goal with
       | |- context [cleanupQuietly ?p ?w0] =>
           destruct (cleanupQuietly_spec p w0) as (w2 & Hc & Hq); rewrite Hc;
           destruct Hq as (He & Hcr & Hid & Hd & Hv & Ha & Hp); simpl in *
       end.
  all: rewrite ?Hv.
  all: first [left; reflexivity | right; eexists; reflexivity].
Qed.

Lemma rollbackToVersion_rows (w : World) (docPath contentType : string)
      (options : RollbackOptions) (userRole : string) :
  let w' := snd (rollbackToVersion docPath contentType options userRole w) in
  versionRows w' = versionRows w \/
  exists x, versionRows w' = <[docPath := (Firestore.rowsAt docPath w ++ [x])%list]> (versionRows w).
Proof.
  unfold rollbackToVersion, getVersion, Firestore.getVersionDocs, Firestore.runTransaction,
    rollbackTransaction, createVersionSnapshot, Firestore.addVersionDoc,
    AuditLogger.logContentRollback.
  run_js.
  destruct (fault (env w) (storeCalls w)) as [e|] eqn:Hf; simpl.
  { left. reflexivity. }
  match goal with
  | |- context [firstById ?l] => destruct (firstById l) as [[docId row]|] eqn:Hfirst
  end; simpl; [|left; reflexivity].
  destruct (fault (env w) (S (storeCalls w))) as [e|] eqn:Hf1; simpl.
  { left. reflexivity. }
  destruct (documents w !! docPath) as [[c [m|]]|] eqn:Hdoc; simpl.
  2,3: left; reflexivity.
  destruct (fault (env w) (S (S (storeCalls w)))) as [e|] eqn:Hf2; simpl.
  { left. reflexivity. }
  match goal with
  | |- context [AuditLogger.log ?i ?w0] =>
      destruct (log_spec i w0) as (logId & w2 & Hlog & He & Hd & Hv & _); rewrite Hlog
  end.
  simpl in *. right. eexists. exact Hv.
Qed.

Lemma reportOldVersions_console (rows : list (string * ContentVersion.t)) :
  forall w,
    console (snd (reportOldVersions rows w)) =
    (console w ++
     map (fun d => "[VersionManager] Would delete old version: " ++ fst d)%string rows)%list /\
    versionRows (snd (reportOldVersions rows w)) = versionRows w.
Proof.
  induction rows as [|row rows IH]; intros w; simpl.
  - rewrite app_nil_r. split; reflexivity.
  - run_js.
    match goal with
    | |- context [reportOldVersions rows ?w0] => destruct (IH w0) as (Hc & Hv)
    end.
    rewrite Hc, Hv. simpl. rewrite <- app_assoc. split; reflexivity.
Qed.

(** X25. The snapshot rows only grow.  Whatever its outcome, a call of
    [saveContent] or of [rollbackToVersion] leaves the rows of every path
    as they were, except that it may append one row at its own path; and
    [cleanupOldVersions] changes no row at all: with the store reachable it
    writes one console line for each row from the 51st to the 60th in the
    order newest first, and nothing else. *)
Theorem snapshot_rows_only_grow (docPath contentType : string) :
  (forall (content : JObject) (options : SaveContentOptions) (w : World) (p : string),
      exists suffix,
        Firestore.rowsAt p (snd (saveContent docPath contentType content options w)) =
          (Firestore.rowsAt p w ++ suffix)%list /\
        length suffix <= 1 /\ (p <> docPath -> suffix = [])) /\
  (forall (options : RollbackOptions) (userRole : string) (w : World) (p : string),
      exists suffix,
        Firestore.rowsAt p (snd (rollbackToVersion docPath contentType options userRole w)) =
          (Firestore.rowsAt p w ++ suffix)%list /\
        length suffix <= 1 /\ (p <> docPath -> suffix = [])) /\
  (forall (w : World),
      versionRows (snd (cleanupOldVersions docPath w)) = versionRows w /\
      documents (snd (cleanupOldVersions docPath w)) = documents w /\
      console (snd (cleanupOldVersions docPath w)) =
        match fault (env w) (storeCalls w) with
        | None =>
            (console w ++
             map (fun d => "[VersionManager] Would delete old version: " ++ fst d)%string
                 (drop 50 (take 60 (sortRows (Firestore.rowsAt docPath w)))))%list
        | Some _ => console w
        end).
Proof.
  split; [|split].
  - intros content options w p.
    destruct (saveContent_rows w docPath contentType content options) as [H|[x H]].
    + exact (rowsAt_keep _ _ docPath p H).
    + exact (rowsAt_grow _ _ docPath p [x] H).
  - intros options userRole w p.
    destruct (rollbackToVersion_rows w docPath contentType options userRole) as [H|[x H]].
    + exact (rowsAt_keep _ _ docPath p H).
    + exact (rowsAt_grow _ _ docPath p [x] H).
  - intros w. unfold cleanupOldVersions, Firestore.getVersionDocs. run_js.
    destruct (fault (env w) (storeCalls w)) as [e|]; simpl.
    { repeat split. }
    change (MAX_VERSIONS_TO_KEEP + 10)%nat with 60%nat.
    change MAX_VERSIONS_TO_KEEP with 50%nat.
    set (snapshot := take 60 (sortRows _)).
    destruct (Nat.leb_spec (length snapshot) 50) as [Hle|Hgt]; simpl.
    + rewrite drop_ge by exact Hle. simpl. rewrite app_nil_r. repeat split.
    + match goal with
      | |- context [reportOldVersions ?l ?w0] =>
          destruct (reportOldVersions_console l w0) as (Hc & Hv);
          destruct (reportOldVersions_quiet l w0) as (w2 & Heq & Hq)
      end.
      rewrite Hc, Hv. simpl. rewrite Heq. simpl.
      destruct Hq as (_ & _ & _ & Hd & _). simpl in Hd.
      repeat split. exact Hd.
Qed.

(** X26. The versioned write is not atomic.  When the transaction goes
    through and the write of the snapshot row that follows it fails, the
    save reports failure with the message and code of that error, although
    the new content is already live under the next version number; the
    content it replaced has not been set aside. *)
Theorem failed_snapshot_leaves_new_version_live (w : World) (docPath contentType : string)
        (content : JObject) (options : SaveContentOptions)
        (previous : JObject) (e : JsError) :
  fault (env w) (storeCalls w) = None ->
  fault (env w) (S (storeCalls w)) = Some e ->
  liveContent docPath w = Some previous ->
  (forall expected, expectedVersion options = Some expected ->
                    expected = liveVersion docPath w) ->
  exists w',
    saveContent docPath contentType content options w =
      (Ok (mkResult false None (Some (messageOr e "Failed to save content")) (code e)), w') /\
    liveVersion docPath w' = (liveVersion docPath w + 1)%Z /\
    liveContent docPath w' = Some content /\
    Firestore.rowsAt docPath w' = Firestore.rowsAt docPath w /\
    auditRows w' = auditRows w.
Proof.
  intros Htx Hsnap Hprev Hexp.
  unfold saveContent, Firestore.runTransaction, saveTransaction, createVersionSnapshot,
    Firestore.addVersionDoc, liveContent, liveVersion, Firestore.rowsAt in *.
  run_js. rewrite Htx. simpl.
  assert (Hgo : match expectedVersion options with
                | Some expected =>
                    (currentVersionOf (documents w !! docPath) =? expected)%Z = true
                | None => True
                end).
  { destruct (expectedVersion options) as [expected|]; [|exact I].
    rewrite (Hexp expected eq_refl). apply Z.eqb_refl. }
  destruct (expectedVersion options) as [expected|]; [rewrite Hgo|]; simpl.
  all: destruct (documents w !! docPath) as [[[x|] m]|] eqn:Hdoc; simpl in *;
    try discriminate.
  all: rewrite Hsnap; simpl.
  all: eexists; split; [reflexivity|]; simpl.
  all: rewrite lookup_insert_eq; simpl.
  all: repeat split; reflexivity.
Qed.

Lemma failed_snapshot_leaves_new_version_live_witness :
  let w := snd (saveAll Scenario.page "page"
                  [(Scenario.titled "Chariotek", Scenario.by_ Scenario.U1 None)]
                  (Scenario.emptyWorld (Scenario.failingFrom 3))) in
  exists w',
    saveContent Scenario.page "page" (Scenario.titled "Chariotek Studio")
                (Scenario.by_ Scenario.U2 (Some 1%Z)) w =
      (Ok (mkResult false None (Some "store unavailable") (Some "unavailable")), w') /\
    liveVersion Scenario.page w' = 2%Z /\
    liveContent Scenario.page w' = Some (Scenario.titled "Chariotek Studio") /\
    Firestore.rowsAt Scenario.page w' = [] /\
    auditRows w' = [].
Proof.
  intros w.
  apply (failed_snapshot_leaves_new_version_live w Scenario.page "page"
           (Scenario.titled "Chariotek Studio") (Scenario.by_ Scenario.U2 (Some 1%Z))
           (Scenario.titled "Chariotek")
           (mkError "store unavailable" (Some "unavailable"))).
  - reflexivity.
  - reflexivity.
  - reflexivity.
  - intros expected H. inversion H. reflexivity.
Defined.

End VersionManagerMore.

(** ** Content Service: refusals, deletion *)

Section ContentServiceMore.
Import Rbac ContentService.

Lemma ensurePermission_refused (u : AdminUser.t) (p : PermissionType) (w : World) :
  checkPermission u p = false ->
  ensurePermission u p w =
    (Throw (Error ("Insufficient permissions: " ++ Permission.name p ++ " required")), w).
Proof. intros H. unfold ensurePermission. rewrite H. reflexivity. Qed.

Lemma ensurePermission_granted (u : AdminUser.t) (p : PermissionType) (w : World) :
  checkPermission u p = true -> ensurePermission u p w = (Ok tt, w).
Proof. intros H. unfold ensurePermission. rewrite H. reflexivity. Qed.

(** X27. A refusal leaves no trace.  The user is inactive, or has a role
    that is not the name of a member of [Object.prototype] (for such a name
    the lookup of the guard throws instead of answering).  A user who is
    inactive holds no permission; and every entry point of the service,
    called for a user who lacks the permission it asks for, throws the
    error naming that permission before it touches anything: no call
    reaches the store, no audit entry is written, the world is the one it
    was.  Saving asks for [content:update] and, to publish, for
    [content:publish] as well; deleting for [content:delete]; rolling back
    for [content:rollback]; the three reads of the history for
    [version:read]. *)
Theorem refusal_leaves_no_trace (schemas : Schemas) (u : AdminUser.t)
        (docPath contentType : string) (w : World) :
  (AdminUser.isActive u = true -> Js.inherited (AdminUser.role u) = false) ->
  (AdminUser.isActive u = false -> forall p, checkPermission u p = false) /\
  (checkPermission u Permission.CONTENT_UPDATE = false ->
   forall content o, user o = u ->
     saveContent schemas docPath contentType content o w =
       (Throw (Error "Insufficient permissions: content:update required"), w)) /\
  (checkPermission u Permission.CONTENT_UPDATE = true ->
   checkPermission u Permission.CONTENT_PUBLISH = false ->
   forall content o, user o = u -> publish o = true ->
     saveContent schemas docPath contentType content o w =
       (Throw (Error "Insufficient permissions: content:publish required"), w)) /\
  (checkPermission u Permission.CONTENT_DELETE = false ->
   forall hard,
     deleteContent docPath contentType (mkDeleteOptions u hard) w =
       (Throw (Error "Insufficient permissions: content:delete required"), w)) /\
  (checkPermission u Permission.CONTENT_ROLLBACK = false ->
   forall v,
     rollbackContent docPath contentType (mkRollbackOptions u v) w =
       (Throw (Error "Insufficient permissions: content:rollback required"), w)) /\
  (checkPermission u Permission.VERSION_READ = false ->
   (forall n, getVersionHistory docPath u n w =
                (Throw (Error "Insufficient permissions: version:read required"), w)) /\
   (forall v, getVersion docPath v u w =
                (Throw (Error "Insufficient permissions: version:read required"), w)) /\
   (forall a b, compareVersions docPath a b u w =
                  (Throw (Error "Insufficient permissions: version:read required"), w))).
Proof.
  intros _.
  split; [|split; [|split; [|split; [|split]]]].
  - intros H p. unfold checkPermission. rewrite H. reflexivity.
  - intros H content o <-. unfold saveContent, bind.
    rewrite (ensurePermission_refused _ _ _ H). reflexivity.
  - intros Hu Hp content o <- Hpub. unfold saveContent, bind.
    rewrite (ensurePermission_granted _ _ _ Hu), Hpub.
    rewrite (ensurePermission_refused _ _ _ Hp). reflexivity.
  - intros H hard. unfold deleteContent, bind. simpl.
    rewrite (ensurePermission_refused _ _ _ H). reflexivity.
  - intros H v. unfold rollbackContent, bind. simpl.
    rewrite (ensurePermission_refused _ _ _ H). reflexivity.
  - intros H. split; [|split]; intros;
      unfold getVersionHistory, getVersion, compareVersions, bind;
      rewrite (ensurePermission_refused _ _ _ H); reflexivity.
Qed.

Lemma refusal_leaves_no_trace_witness :
  saveContent Scenario.accepting Scenario.page "page" (Scenario.titled "Chariotek")
    (Scenario.serviceOptions Scenario.anEditor true false) Scenario.afterTwo =
    (Throw (Error "Insufficient permissions: content:publish required"), Scenario.afterTwo) /\
  deleteContent Scenario.page "page" (mkDeleteOptions Scenario.anEditor false)
    Scenario.afterTwo =
    (Throw (Error "Insufficient permissions: content:delete required"), Scenario.afterTwo) /\
  rollbackContent Scenario.page "page" (mkRollbackOptions Scenario.anEditor 1)
    Scenario.afterTwo =
    (Throw (Error "Insufficient permissions: content:rollback required"), Scenario.afterTwo).
Proof.
  destruct (refusal_leaves_no_trace Scenario.accepting Scenario.anEditor Scenario.page "page"
              Scenario.afterTwo (fun _ => eq_refl))
    as (_ & _ & Hpublish & Hdelete & Hrollback & _).
  split; [|split].
  - apply Hpublish; reflexivity.
  - apply Hdelete; reflexivity.
  - apply Hrollback; reflexivity.
Defined.

Lemma saveContent_unconditional (w : World) (docPath contentType : string) (content : JObject)
      (options : VersionManager.SaveContentOptions) :
  VersionManager.expectedVersion options = None ->
  exists r w',
    VersionManager.saveContent docPath contentType content options w = (Ok r, w') /\
    auditRows w' = auditRows w /\ env w' = env w /\
    documents w' =
      match fault (env w) (storeCalls w) with
      | None =>
          <[docPath := VersionManager.nextDocument (documents w !! docPath) content options
                         (clock (env w) (clockReads w))]> (documents w)
      | Some _ => documents w
      end.
Proof.
  intros Hexp.
  unfold VersionManager.saveContent, Firestore.runTransaction, VersionManager.saveTransaction,
    VersionManager.createVersionSnapshot, Firestore.addVersionDoc.
  run_js. rewrite Hexp.
  destruct (fault (env w) (storeCalls w)) as [e|] eqn:Hf; simpl.
  { do 2 eexists. split; [reflexivity|]. simpl. repeat split. }
  destruct (documents w !! docPath) as [[[previous|] m]|] eqn:Hdoc; simpl.
  all: try destruct (fault (env w) (S (storeCalls w))) as [e|] eqn:Hf2; simpl.
  all: try match goal with
       | |- context [VersionManager.cleanupQuietly ?p ?w0] =>
           destruct (cleanupQuietly_spec p w0) as (w2 & Hc & Hq); rewrite Hc;
           destruct Hq as (He & Hcr & Hid & Hd & Hv & Ha & Hp); simpl in *
       end.
  all: do 2 eexists; (split; [reflexivity|]); simpl.
  all: rewrite ?Hd, ?Ha, ?He; repeat split.
Qed.

Lemma setField_get (key : string) (value : Json) (obj : JObject) :
  Sanitizer.getField key (setField key value obj) = value /\
  (forall k, k <> key ->
             Sanitizer.getField k (setField key value obj) = Sanitizer.getField k obj).
Proof.
  induction obj as [|[k0 v0] obj [IH1 IH2]]; simpl.
  - rewrite String.eqb_refl. split; [reflexivity|].
    intros k Hk. destruct (String.eqb_spec key k); [congruence|reflexivity].
  - destruct (String.eqb_spec k0 key) as [->|Hne]; simpl.
    + rewrite String.eqb_refl. split; [reflexivity|].
      intros k Hk. destruct (String.eqb_spec key k); [congruence|reflexivity].
    + destruct (String.eqb_spec k0 key); [contradiction|].
      split; [exact IH1|].
      intros k Hk. destruct (String.eqb_spec k0 k); [reflexivity|]. exact (IH2 k Hk).
Qed.

(** X28. A soft delete by a user who may delete, of a document the store
    hands out, reports success whatever becomes of the versioned write it
    makes.  The write is a plain save of the content with [_deleted] set
    to [true] and every other field as it was, under the description
    [Content archived], without an expected version and without
    publishing, and the status of the document is in every case the one
    it had (a soft delete does not archive); when the store refuses that
    write the document stays as it was and the deletion is reported as
    done all the same.  The audit log gains at
    most one entry, a successful [content_delete] with the content before
    the deletion as previous value. *)
Theorem soft_delete_reports_success (w : World) (docPath contentType : string)
        (u : AdminUser.t) (doc : VersionedDocument.t) :
  checkPermission u Permission.CONTENT_DELETE = true ->
  fault (env w) (storeCalls w) = None ->
  documents w !! docPath = Some doc ->
  let marked := markDeleted (VersionedDocument.content doc) in
  exists w',
    deleteContent docPath contentType (mkDeleteOptions u false) w =
      (Ok (mkResult true None None None), w') /\
    documents w' =
      match fault (env w) (S (storeCalls w)) with
      | None =>
          <[docPath := VersionManager.nextDocument (Some doc) marked
                         (VersionManager.mkSaveOptions (AdminUser.id u) (AdminUser.email u)
                            (Some "Content archived") None false)
                         (clock (env w) (clockReads w))]> (documents w)
      | Some _ => documents w
      end /\
    Sanitizer.getField "_deleted" marked = JBool true /\
    (forall k, k <> "_deleted"%string ->
               Sanitizer.getField k marked
               = Sanitizer.getField k (default [] (VersionedDocument.content doc))) /\
    (forall m, VersionedDocument._meta doc = Some m ->
               (Meta.status <$> liveMeta docPath w') = Some (Meta.status m)) /\
    (auditRows w' = auditRows w \/
     exists docId id timestamp,
       auditRows w' =
         (auditRows w ++
          [(docId,
            AuditLogger.entryOf
              (AuditLogger.mkInput AuditAction.CONTENT_DELETE
                 (AdminUser.id u) (AdminUser.email u) (AdminUser.role u)
                 (Some contentType) (Some docPath) (Some docPath)
                 (VersionedDocument.content doc) None true None None)
              id timestamp (navigatorUserAgent (env w)))])%list).
Proof.
  intros Hperm Hf Hdoc marked.
  unfold deleteContent, bind. simpl.
  rewrite (ensurePermission_granted _ _ _ Hperm).
  unfold tryCatch, getContent, VersionManager.getCurrentContent, Firestore.getDoc,
    Firestore.call, bind.
  rewrite Hf. simpl. rewrite Hdoc. simpl.
  match goal with
  | |- context [VersionManager.saveContent ?p ?t ?c ?o ?w0] =>
      destruct (saveContent_unconditional w0 p t c o eq_refl)
        as (r & w1 & Hsave & Ha & He & Hdocs);
      rewrite Hsave
  end.
  simpl in Ha, He, Hdocs. rewrite Hdoc in Hdocs.
  unfold AuditLogger.logContentDelete, ret.
  match goal with
  | |- context [AuditLogger.log ?i ?w0] =>
      destruct (log_spec i w0) as (logId & w2 & Hlog & He2 & Hd2 & Hv2 & _ & _ & Haudit);
      rewrite Hlog
  end.
  eexists. split; [reflexivity|].
  split; [rewrite Hd2; exact Hdocs|].
  split; [apply setField_get|].
  split; [apply setField_get|].
  split.
  { intros m Hm. unfold liveMeta. rewrite Hd2, Hdocs.
    destruct (fault (env w) (S (storeCalls w))) as [e|];
      [rewrite Hdoc|rewrite lookup_insert_eq]; simpl; rewrite Hm; reflexivity. }
  destruct (fault (env w1) (storeCalls w1)) as [e|].
  - left. destruct Haudit as (_ & Haudit & _). congruence.
  - right. destruct Haudit as (Haudit & _). do 3 eexists.
    rewrite Haudit, Ha, He. reflexivity.
Qed.

Lemma soft_delete_reports_success_witness :
  let w := snd (saveAll Scenario.page "page"
                  [(Scenario.titled "Chariotek", Scenario.by_ Scenario.U1 None)]
                  (Scenario.emptyWorld (Scenario.failingFrom 3))) in
  exists w',
    deleteContent Scenario.page "page" (mkDeleteOptions Scenario.U1 false) w =
      (Ok (mkResult true None None None), w') /\
    documents w' = documents w /\
    auditRows w' = auditRows w.
Proof.
  intros w.
  destruct (soft_delete_reports_success w Scenario.page "page" Scenario.U1
              (VersionedDocument.mk (Some (Scenario.titled "Chariotek"))
                 (Some (Meta.mk 1 ContentStatus.DRAFT 1000 "U1" 1000 "U1" None None))))
    as (w' & H1 & H2 & _).
  - reflexivity.
  - reflexivity.
  - vm_compute. reflexivity.
  - exists w'. split; [exact H1|]. split; [exact H2|].
    assert (Hw : w' = snd (deleteContent Scenario.page "page"
                             (mkDeleteOptions Scenario.U1 false) w))
      by (rewrite H1; reflexivity).
    rewrite Hw. vm_compute. reflexivity.
Defined.

(** X29. Deleting for good, and deleting what is not there, for a user who
    may delete and a store that answers the first read.  When there is no
    document at the path the result carries the code [NOT_FOUND] and
    nothing is written, not even an audit entry.  A hard delete asks for
    [admin:delete] on top: without it the result is a failure with the
    message of the refusal, the document stays, and the audit entry (when
    its write goes through) records a failed [content_delete] with an
    empty previous value; with it, and the store taking the deletion, the
    live document is gone while its snapshot rows stay, so that the
    version read at the path is 0 again. *)
Theorem hard_delete_and_missing_document (w : World) (docPath contentType : string)
        (u : AdminUser.t) :
  checkPermission u Permission.CONTENT_DELETE = true ->
  fault (env w) (storeCalls w) = None ->
  (documents w !! docPath = None ->
   forall hard, exists w',
     deleteContent docPath contentType (mkDeleteOptions u hard) w =
       (Ok (mkResult false None (Some "Content not found") (Some "NOT_FOUND")), w') /\
     documents w' = documents w /\ versionRows w' = versionRows w /\
     auditRows w' = auditRows w /\ console w' = console w) /\
  (is_Some (documents w !! docPath) ->
   checkPermission u Permission.ADMIN_DELETE = false ->
   exists w',
     deleteContent docPath contentType (mkDeleteOptions u true) w =
       (Ok (mkResult false None
              (Some "Insufficient permissions: admin:delete required") None), w') /\
     documents w' = documents w /\ versionRows w' = versionRows w /\
     (auditRows w' = auditRows w \/
      exists docId id timestamp,
        auditRows w' =
          (auditRows w ++
           [(docId,
             AuditLogger.entryOf
               (AuditLogger.mkInput AuditAction.CONTENT_DELETE
                  (AdminUser.id u) (AdminUser.email u) (AdminUser.role u)
                  (Some contentType) (Some docPath) (Some docPath)
                  (Some []) None false
                  (Some "Insufficient permissions: admin:delete required") None)
               id timestamp (navigatorUserAgent (env w)))])%list)) /\
  (forall doc,
      documents w !! docPath = Some doc ->
      checkPermission u Permission.ADMIN_DELETE = true ->
      fault (env w) (S (storeCalls w)) = None ->
      exists w',
        deleteContent docPath contentType (mkDeleteOptions u true) w =
          (Ok (mkResult true None None None), w') /\
        documents w' = delete docPath (documents w) /\
        versionRows w' = versionRows w /\
        liveVersion docPath w' = 0%Z /\
        (auditRows w' = auditRows w \/
         exists docId id timestamp,
           auditRows w' =
             (auditRows w ++
              [(docId,
                AuditLogger.entryOf
                  (AuditLogger.mkInput AuditAction.CONTENT_DELETE
                     (AdminUser.id u) (AdminUser.email u) (AdminUser.role u)
                     (Some contentType) (Some docPath) (Some docPath)
                     (VersionedDocument.content doc) None true None None)
                  id timestamp (navigatorUserAgent (env w)))])%list)).
Proof.
  intros Hperm Hf.
  split; [|split].
  - intros Hdoc hard.
    unfold deleteContent, bind. simpl.
    rewrite (ensurePermission_granted _ _ _ Hperm).
    unfold tryCatch, getContent, VersionManager.getCurrentContent, Firestore.getDoc,
      Firestore.call, bind.
    rewrite Hf. simpl. rewrite Hdoc. simpl.
    eexists. split; [reflexivity|]. simpl. repeat split.
  - intros [doc Hdoc] Hadmin.
    unfold deleteContent, bind. simpl.
    rewrite (ensurePermission_granted _ _ _ Hperm).
    unfold tryCatch, getContent, VersionManager.getCurrentContent, Firestore.getDoc,
      Firestore.call, bind.
    rewrite Hf. simpl. rewrite Hdoc. simpl.
    rewrite (ensurePermission_refused _ _ _ Hadmin). simpl.
    unfold AuditLogger.logContentDelete, ret.
    match goal with
    | |- context [AuditLogger.log ?i ?w0] =>
        destruct (log_spec i w0) as (logId & w2 & Hlog & He2 & Hd2 & Hv2 & _ & _ & Haudit);
        rewrite Hlog
    end.
    simpl in *.
    eexists. split; [reflexivity|].
    split; [exact Hd2|]. split; [exact Hv2|].
    destruct (fault (env w) (S (storeCalls w))) as [e|].
    + left. apply Haudit.
    + right. destruct Haudit as (Haudit & _). do 3 eexists. exact Haudit.
  - intros doc Hdoc Hadmin Hf1.
    unfold deleteContent, bind. simpl.
    rewrite (ensurePermission_granted _ _ _ Hperm).
    unfold tryCatch, getContent, VersionManager.getCurrentContent, Firestore.getDoc,
      Firestore.deleteDoc, Firestore.call, bind.
    rewrite Hf. simpl. rewrite Hdoc. simpl.
    rewrite (ensurePermission_granted _ _ _ Hadmin). simpl.
    rewrite Hf1. simpl.
    unfold AuditLogger.logContentDelete, ret.
    match goal with
    | |- context [AuditLogger.log ?i ?w0] =>
        destruct (log_spec i w0) as (logId & w2 & Hlog & He2 & Hd2 & Hv2 & _ & _ & Haudit);
        rewrite Hlog
    end.
    simpl in *.
    eexists. split; [reflexivity|].
    split; [exact Hd2|]. split; [exact Hv2|].
    split; [unfold liveVersion; rewrite Hd2, lookup_delete_eq; reflexivity|].
    destruct (fault (env w) (S (S (storeCalls w)))) as [e|].
    + left. apply Haudit.
    + right. destruct Haudit as (Haudit & _). do 3 eexists. exact Haudit.
Qed.

Lemma hard_delete_and_missing_document_witness :
  (exists w',
      deleteContent "pages/none" "page" (mkDeleteOptions Scenario.U1 false) Scenario.afterTwo =
        (Ok (mkResult false None (Some "Content not found") (Some "NOT_FOUND")), w') /\
      documents w' = documents Scenario.afterTwo /\
      versionRows w' = versionRows Scenario.afterTwo /\
      auditRows w' = auditRows Scenario.afterTwo /\
      console w' = console Scenario.afterTwo) /\
  (exists w',
      deleteContent Scenario.page "page" (mkDeleteOptions Scenario.U1 true) Scenario.afterTwo =
        (Ok (mkResult false None
               (Some "Insufficient permissions: admin:delete required") None), w') /\
      documents w' = documents Scenario.afterTwo /\
      versionRows w' = versionRows Scenario.afterTwo /\
      length (auditRows w') <= 1).
Proof.
  split.
  - apply (hard_delete_and_missing_document Scenario.afterTwo "pages/none" "page" Scenario.U1).
    + reflexivity.
    + reflexivity.
    + reflexivity.
  - destruct (hard_delete_and_missing_document Scenario.afterTwo Scenario.page "page"
                Scenario.U1) as (_ & Hrefused & _).
    + reflexivity.
    + reflexivity.
    + destruct Hrefused as (w' & H1 & H2 & H3 & H4).
      * eexists. vm_compute. reflexivity.
      * reflexivity.
      * exists w'. split; [exact H1|]. split; [exact H2|]. split; [exact H3|].
        destruct H4 as [->|(docId & id & timestamp & ->)];
          change (auditRows Scenario.afterTwo) with (@nil (string * AuditLog.t));
          simpl; lia.
Defined.

End ContentServiceMore.

(** ** Audit log: what a query returns *)

Section AuditLoggerMore.
Import AuditLogger.

Lemma laterFirst_true (a b : string * AuditLog.t) :
  laterFirst a b = true -> (AuditLog.timestamp (snd b) <= AuditLog.timestamp (snd a))%Z.
Proof.
  unfold laterFirst. intros H. apply orb_true_iff in H as [H|H].
  - apply Z.ltb_lt in H. lia.
  - apply andb_true_iff in H as [H _]. apply Z.eqb_eq in H. lia.
Qed.

Lemma laterFirst_false (a b : string * AuditLog.t) :
  laterFirst a b = false -> (AuditLog.timestamp (snd a) <= AuditLog.timestamp (snd b))%Z.
Proof.
  unfold laterFirst. intros H. apply orb_false_iff in H as [H _].
  apply Z.ltb_ge in H. exact H.
Qed.

Lemma insertLog_In (row x : string * AuditLog.t) (l : list (string * AuditLog.t)) :
  In x (insertLog row l) <-> x = row \/ In x l.
Proof.
  induction l as [|r l IH]; simpl.
  - split; intros [H|H]; auto; contradiction.
  - destruct (laterFirst row r); simpl.
    + split; intros [H|H]; auto.
    + rewrite IH. split; intros H; decompose [or] H; auto.
Qed.

Lemma sortLogs_In (x : string * AuditLog.t) (rows : list (string * AuditLog.t)) :
  In x (sortLogs rows) <-> In x rows.
Proof.
  induction rows as [|r rows IH]; simpl; [reflexivity|].
  rewrite insertLog_In, IH. split; intros [H|H]; auto.
Qed.

Lemma insertLog_sorted (row : string * AuditLog.t) (l : list (string * AuditLog.t)) :
  StronglySorted (fun a b => (AuditLog.timestamp (snd b) <= AuditLog.timestamp (snd a))%Z) l ->
  StronglySorted (fun a b => (AuditLog.timestamp (snd b) <= AuditLog.timestamp (snd a))%Z)
                 (insertLog row l).
Proof.
  induction 1 as [|r l Hl IH Hr]; simpl.
  - constructor; constructor.
  - destruct (laterFirst row r) eqn:Hn.
    + constructor; [constructor; assumption|].
      apply laterFirst_true in Hn.
      constructor; [exact Hn|].
      eapply Forall_impl; [exact Hr|]. simpl. intros x Hx. lia.
    + constructor; [exact IH|].
      apply laterFirst_false in Hn.
      apply List.Forall_forall. intros x Hx.
      apply insertLog_In in Hx as [->|Hx]; [exact Hn|].
      rewrite List.Forall_forall in Hr. exact (Hr x Hx).
Qed.

Lemma sortLogs_sorted (rows : list (string * AuditLog.t)) :
  StronglySorted (fun a b => (AuditLog.timestamp (snd b) <= AuditLog.timestamp (snd a))%Z)
                 (sortLogs rows).
Proof.
  induction rows as [|r rows IH]; simpl; [constructor|].
  apply insertLog_sorted. exact IH.
Qed.

Lemma StronglySorted_filter' {A : Type} (R : A -> A -> Prop) (p : A -> bool) (l : list A) :
  StronglySorted R l -> StronglySorted R (List.filter p l).
Proof.
  induction 1 as [|x l Hl IH Hx]; simpl; [constructor|].
  destruct (p x); [|exact IH].
  constructor; [exact IH|].
  apply List.Forall_forall. intros y Hy. apply filter_In in Hy as [Hy _].
  rewrite List.Forall_forall in Hx. exact (Hx y Hy).
Qed.

Lemma startAfter_In (cursor : option (string * AuditLog.t)) (x : string * AuditLog.t)
      (rows : list (string * AuditLog.t)) :
  In x (startAfter cursor rows) -> In x rows.
Proof.
  destruct cursor as [c|]; simpl; [|auto].
  intros H. apply filter_In in H as [H _]. exact H.
Qed.

Lemma startAfter_sorted (cursor : option (string * AuditLog.t))
      (rows : list (string * AuditLog.t)) :
  StronglySorted (fun a b => (AuditLog.timestamp (snd b) <= AuditLog.timestamp (snd a))%Z)
                 rows ->
  StronglySorted (fun a b => (AuditLog.timestamp (snd b) <= AuditLog.timestamp (snd a))%Z)
                 (startAfter cursor rows).
Proof.
  destruct cursor as [c|]; simpl; [|auto]. apply StronglySorted_filter'.
Qed.

Lemma pageLimitOf_positive (options : AuditLogQuery.t) :
  0 < pageLimitOf options /\
  (AuditLogQuery.limit options = None \/ AuditLogQuery.limit options = Some O ->
   pageLimitOf options = 50).
Proof.
  unfold pageLimitOf. destruct (AuditLogQuery.limit options) as [[|n]|]; split; try lia; auto.
  intros [H|H]; discriminate.
Qed.

(** X30. [query] never throws and writes nothing but, on failure, a
    console line.  A page holds at most [limit] rows (50 when the limit is
    absent or 0), all of them stored rows that satisfy every constraint of
    the filter, the latest first; [total] is the length of the page, not
    the number of matching rows; [hasMore] is set only on a full page.
    When the store fails the page is empty; when it answers, and there is
    no cursor and no further page, every stored row that satisfies the
    filter is on the page. *)
Theorem query_page (options : AuditLogQuery.t) (w : World) :
  exists page w',
    query options w = (Ok page, w') /\
    documents w' = documents w /\ versionRows w' = versionRows w /\
    auditRows w' = auditRows w /\
    total page = length (items page) /\
    length (items page) <= pageLimitOf options /\
    (forall row, In row (items page) ->
                 matches options row = true /\
                 exists docId, In (docId, row) (auditRows w)) /\
    StronglySorted (fun a b => (AuditLog.timestamp b <= AuditLog.timestamp a)%Z)
                   (items page) /\
    (hasMore page = true -> length (items page) = pageLimitOf options) /\
    match fault (env w) (storeCalls w) with
    | Some _ => items page = [] /\ hasMore page = false
    | None =>
        AuditLogQuery.lastDoc options = None ->
        hasMore page = false ->
        forall d, In d (auditRows w) -> matches options (snd d) = true ->
                  In (snd d) (items page)
    end.
Proof.
  unfold query, Firestore.getAuditDocs. run_js.
  destruct (fault (env w) (storeCalls w)) as [e|]; simpl.
  { do 2 eexists. split; [reflexivity|]. simpl.
    repeat split; try constructor; try lia; try contradiction; try discriminate. }
  set (pl := pageLimitOf options).
  set (L := startAfter (AuditLogQuery.lastDoc options)
              (sortLogs (List.filter (fun d => matches options (snd d)) (auditRows w)))).
  do 2 eexists. split; [reflexivity|]. simpl.
  rewrite take_take, Nat.min_l by lia.
  split; [reflexivity|]. split; [reflexivity|]. split; [reflexivity|].
  split; [reflexivity|].
  split; [rewrite length_map, length_take; lia|].
  split.
  { intros row Hrow. apply in_map_iff in Hrow as ([docId row'] & <- & Hd).
    apply list_elem_of_In in Hd. apply elem_of_take in Hd as (i & Hd & _).
    apply list_elem_of_lookup_2 in Hd. apply list_elem_of_In in Hd.
    apply startAfter_In, sortLogs_In, filter_In in Hd as [Hd Hm].
    split; [exact Hm|]. exists docId. exact Hd. }
  split.
  { apply (StronglySorted_take_map
             (fun a b => (AuditLog.timestamp b <= AuditLog.timestamp a)%Z) snd).
    apply startAfter_sorted, sortLogs_sorted. }
  split.
  { intros Hmore. apply Nat.ltb_lt in Hmore. rewrite length_take in Hmore.
    rewrite length_map, length_take. lia. }
  intros Hcursor Hmore d Hd Hm.
  apply Nat.ltb_ge in Hmore. rewrite length_take in Hmore.
  rewrite take_ge by lia.
  apply in_map. unfold L. rewrite Hcursor. simpl.
  apply sortLogs_In, filter_In. split; assumption.
Qed.

End AuditLoggerMore.
